(** * Timeline nodes of [performances/nodes.py]: a shallow embedding

    The development follows the module top to bottom: the Python
    values found in a node description, the string helpers the module
    relies on, the [Node] base class with its [run] state machine, the factory
    [createNode], and the [soma], [pause], [chat_pause], [chat] and
    [attention] subclasses.

    Conventions.
    - Times and coordinates are Python floats in the source; they are
      idealised here as rationals ([Q]), so [==] on positions is [Qeq].
    - A method that mutates [self] and the runner becomes a function from
      a state (node, world) to a state and a completion: either a returned
      value or a raised exception.  The state reached when an exception is
      raised is kept, as the Python objects keep their mutations.
    - Callbacks that the source runs on timer or subscriber threads are
      modelled as atomic transitions on the same state. *)

From Stdlib Require Import QArith Qminmax Lqa Ascii String.
From stdpp Require Import gmap strings list.

Set Warnings "-register-all".
Local Open Scope string_scope.

(** ** Python values *)

(** The values that can occur in a node description (decoded JSON). *)
Inductive value : Type :=
| VNone
| VBool (b : bool)
| VNum (q : Q)
| VStr (s : string)
| VList (l : list value)
| VDict (l : list (string * value)).

(** Exceptions that the modelled code can raise. *)
Inductive exn : Type :=
| KeyError (key : string)
| ValueError
| TypeError
| ZeroDivisionError
| ExternalError (what : string).

(** The outcome of running a piece of Python code. *)
Inductive completion (A : Type) : Type :=
| Return (a : A)
| Raise (e : exn).
Arguments Return {A} a.
Arguments Raise {A} e.

(** Conversions of the Python runtime whose exact text format is outside
    the module: [float(s)] and [int(s)] on a string, and [str(v)] on a
    number or a container. *)
Class Builtins : Type := {
  float_of_str : string -> option Q;
  int_of_str : string -> option Z;
  repr : value -> string
}.

Definition Qltb (a b : Q) : bool := negb (Qle_bool b a).

(** Truth value of an object, as tested by [if v:], [v or d] and [not v]. *)
Definition truthy (v : value) : bool :=
  match v with
  | VNone => false
  | VBool b => b
  | VNum q => negb (Qeq_bool q 0%Q)
  | VStr s => negb (String.eqb s "")
  | VList l => match l with [] => false | _ => true end
  | VDict l => match l with [] => false | _ => true end
  end.

(** [a or b] *)
Definition py_or (a b : value) : value := if truthy a then a else b.

Section Conversions.
Context `{Builtins}.

(** [float(v)] *)
Definition py_float (v : value) : completion Q :=
  match v with
  | VNum q => Return q
  | VBool b => Return (if b then 1 else 0)%Q
  | VStr s => match float_of_str s with Some q => Return q | None => Raise ValueError end
  | _ => Raise TypeError
  end.

(** [int(v)]: truncation towards zero on numbers. *)
Definition py_int (v : value) : completion Z :=
  match v with
  | VNum q => Return (Z.quot (Qnum q) (Zpos (Qden q)))
  | VBool b => Return (if b then 1 else 0)%Z
  | VStr s => match int_of_str s with Some z => Return z | None => Raise ValueError end
  | _ => Raise TypeError
  end.

(** [str(v)] *)
Definition py_str (v : value) : string :=
  match v with
  | VStr s => s
  | VNone => "None"
  | VBool true => "True"
  | VBool false => "False"
  | _ => repr v
  end.
End Conversions.

(** ** String methods used by the module *)

Module Str.

Definition is_upper (c : ascii) : bool :=
  let n := nat_of_ascii c in (65 <=? n)%nat && (n <=? 90)%nat.

Definition lower_char (c : ascii) : ascii :=
  if is_upper c then ascii_of_nat (nat_of_ascii c + 32) else c.

(** [s.lower()] *)
Fixpoint lower (s : string) : string :=
  match s with
  | EmptyString => EmptyString
  | String c s' => String (lower_char c) (lower s')
  end.

(** Whitespace stripped by [s.strip()]: space, tab, newline, vertical
    tab, form feed, carriage return. *)
Definition is_space (c : ascii) : bool :=
  let n := nat_of_ascii c in (n =? 32)%nat || ((9 <=? n)%nat && (n <=? 13)%nat).

Fixpoint lstrip (s : string) : string :=
  match s with
  | EmptyString => EmptyString
  | String c s' => if is_space c then lstrip s' else s
  end.

(** Strips trailing whitespace: a character is dropped when it is a
    space and all that follows it has been dropped. *)
Fixpoint rstrip (s : string) : string :=
  match s with
  | EmptyString => EmptyString
  | String c s' =>
      match rstrip s' with
      | EmptyString => if is_space c then EmptyString else String c EmptyString
      | r => String c r
      end
  end.

(** [s.strip()] *)
Definition strip (s : string) : string := rstrip (lstrip s).

(** A string that is empty or made of whitespace only. *)
Fixpoint is_blank (s : string) : bool :=
  match s with
  | EmptyString => true
  | String c s' => is_space c && is_blank s'
  end.

(** [s.split(sep)] for a one-character separator. *)
Fixpoint split (sep : ascii) (s : string) : list string :=
  match s with
  | EmptyString => [EmptyString]
  | String c s' =>
      if Ascii.eqb c sep then EmptyString :: split sep s'
      else match split sep s' with
           | [] => [String c EmptyString]
           | w :: ws => String c w :: ws
           end
  end.

(** [s.find(sub)]: the least index at which [sub] occurs in [s]. *)
Fixpoint find (sub s : string) : option nat :=
  if String.prefix sub s then Some O
  else match s with
       | EmptyString => None
       | String _ s' => option_map S (find sub s')
       end.

(** [s.index(sub)]: as [find], raising [ValueError] when absent. *)
Definition index (sub s : string) : completion nat :=
  match find sub s with
  | Some i => Return i
  | None => Raise ValueError
  end.

(** [sub in s] *)
Definition contains (sub s : string) : bool :=
  match find sub s with Some _ => true | None => false end.

(** [c in s] for one character. *)
Fixpoint has_char (c : ascii) (s : string) : bool :=
  match s with
  | EmptyString => false
  | String a s' => Ascii.eqb a c || has_char c s'
  end.

(** [s.replace(old, new)] for a non-empty [old]: occurrences are
    replaced left to right without overlap; [skip] counts the
    characters of a replaced occurrence that remain to be dropped. *)
Fixpoint replace_from (old new : string) (skip : nat) (s : string) : string :=
  match s with
  | EmptyString => EmptyString
  | String c s' =>
      match skip with
      | S k => replace_from old new k s'
      | O =>
          if String.prefix old s
          then new ++ replace_from old new (String.length old - 1) s'
          else String c (replace_from old new O s')
      end
  end.

Definition replace (old new s : string) : string := replace_from old new O s.

End Str.

(** ** The runner and the outside world *)

(** Messages published on the runner's topics. *)
Inductive payload : Type :=
| Event (name : string) (param : Z)
| TTS (text : value) (lang : string)
| ChatMessage (utterance : value) (lang : string) (confidence : Z) (source : string)
| SomaState (name : value) (magnitude : Z) (ease_in_secs ease_in_nsecs : Z).

(** What a timer does when it fires: [pause] arms either
    [Timer(timeout, self.resume)] or a zero-delay timer around
    [self.event_callback(self.data['event_param'])]. *)
Inductive timer_target : Type :=
| CallResume
| CallEventCallback.

(** Observable actions, recorded in the order in which they happen. *)
Inductive effect : Type :=
| Publish (topic : string) (msg : payload)
| RunnerPause
| RunnerResume
| RunnerInterrupt
| RunnerRegister (topic : string) (token : nat)
| RunnerUnregister (topic : string) (token : nat)
| RunnerUnregisterAbsent (topic : string)
| AppendToQueue (performance : value)
| RunFullPerformance (performance : value)
| SetParam (key : string) (v : value)
| TimerStart (interval : Q) (target : timer_target)
| TimerCancel
| Subscribe (topic : string)
| SubscriberUnregister
| StartSession (botname : value)
| LogError (e : exn)
| LogWrongDescription (name : string).

(** Modelled from the spec: the Runner contract of section 6 (pause, resume
    and interrupt of the timeline, [register]/[unregister] of listeners
    with a token, [getVariable]), which lives outside [nodes.py], together
    with the services the module reaches directly: the wall clock
    [time.time()], the [rospy] parameter server and the dialogue service. *)
Record World : Type := mkWorld {
  runner_paused : bool;
  robot_name : string;
  start_timestamp : Q;
  variables : string -> string -> option string;
  listeners : list (string * nat);
  next_token : nat;
  rosparam : string -> option value;
  chatbot_sid : value -> option value;
  chatbot_reply : value -> string -> option string;
  speech_during_wait : list string;
  now : Q;
  trace : list effect
}.

Definition emit (e : effect) (w : World) : World :=
  mkWorld (runner_paused w) (robot_name w) (start_timestamp w) (variables w)
    (listeners w) (next_token w) (rosparam w) (chatbot_sid w) (chatbot_reply w)
    (speech_during_wait w) (now w) (trace w ++ [e]).

Definition set_paused (b : bool) (w : World) : World :=
  mkWorld b (robot_name w) (start_timestamp w) (variables w)
    (listeners w) (next_token w) (rosparam w) (chatbot_sid w) (chatbot_reply w)
    (speech_during_wait w) (now w) (trace w).

Definition set_listeners (l : list (string * nat)) (k : nat) (w : World) : World :=
  mkWorld (runner_paused w) (robot_name w) (start_timestamp w) (variables w)
    l k (rosparam w) (chatbot_sid w) (chatbot_reply w)
    (speech_during_wait w) (now w) (trace w).

Definition set_rosparam (key : string) (v : value) (w : World) : World :=
  mkWorld (runner_paused w) (robot_name w) (start_timestamp w) (variables w)
    (listeners w) (next_token w)
    (fun k => if String.eqb k key then Some v else rosparam w k)
    (chatbot_sid w) (chatbot_reply w) (speech_during_wait w) (now w) (trace w).

Definition set_speech_during_wait (l : list string) (w : World) : World :=
  mkWorld (runner_paused w) (robot_name w) (start_timestamp w) (variables w)
    (listeners w) (next_token w) (rosparam w) (chatbot_sid w) (chatbot_reply w)
    l (now w) (trace w).

(** [runner.pause()] *)
Definition runner_pause (w : World) : World := emit RunnerPause (set_paused true w).

(** [runner.resume()] *)
Definition runner_resume (w : World) : World := emit RunnerResume (set_paused false w).

(** [runner.register(topic, callback)]: the listener is entered in the
    registration table and its token returned. *)
Definition runner_register (topic : string) (w : World) : nat * World :=
  let tok := next_token w in
  (tok, emit (RunnerRegister topic tok)
          (set_listeners (listeners w ++ [(topic, tok)]) (S tok) w)).

Definition same_listener (topic : string) (tok : nat) (l : string * nat) : bool :=
  String.eqb (fst l) topic && Nat.eqb (snd l) tok.

(** [runner.unregister(topic, token)]; an absent listener is tolerated. *)
Definition runner_unregister (topic : string) (tok : nat) (w : World) : World :=
  emit (RunnerUnregister topic tok)
    (set_listeners (List.filter (fun l => negb (same_listener topic tok l)) (listeners w))
       (next_token w) w).

Definition is_registered (topic : string) (tok : nat) (w : World) : bool :=
  existsb (same_listener topic tok) (listeners w).

(** ** State and exceptions *)

Definition M (S A : Type) : Type := S -> S * completion A.

Definition ret {S A} (a : A) : M S A := fun s => (s, Return a).

Definition raise {S A} (e : exn) : M S A := fun s => (s, Raise e).

Definition bind {S A B} (m : M S A) (k : A -> M S B) : M S B :=
  fun s => match m s with
           | (s', Return a) => k a s'
           | (s', Raise e) => (s', Raise e)
           end.

(** [try: m except Exception as ex: handler(ex)] *)
Definition try_except {S A} (m : M S A) (handler : exn -> M S A) : M S A :=
  fun s => match m s with
           | (s', Return a) => (s', Return a)
           | (s', Raise e) => handler e s'
           end.

Definition get {S} : M S S := fun s => (s, Return s).

Definition modify {S} (f : S -> S) : M S unit := fun s => (f s, Return tt).

(** The value of an expression that may raise. *)
Definition eval {S A} (c : completion A) : M S A := fun s => (s, c).

Declare Scope py_scope.
Delimit Scope py_scope with py.
Notation "'let*' x ':=' m 'in' k" := (bind m (fun x => k))
  (at level 10, x name, m at level 100, k at level 200) : py_scope.
Notation "m ;; k" := (bind m (fun _ => k))
  (at level 100, k at level 200, right associativity) : py_scope.
Local Open Scope py_scope.

(** ** The [Node] base class *)

(** A node description: [data['name']], [data['start_time']] (a number) and
    the remaining keys, whose values are dynamically typed. *)
Record NodeData : Type := mkData {
  name : string;
  data_start_time : Q;
  fields : gmap string value
}.

Definition set_field (k : string) (v : value) (d : NodeData) : NodeData :=
  mkData (name d) (data_start_time d) (<[k:=v]> (fields d)).

(** [data[k]] *)
Definition getitem (d : NodeData) (k : string) : completion value :=
  match fields d !! k with
  | Some v => Return v
  | None => Raise (KeyError k)
  end.

(** [k in data] *)
Definition has_key (d : NodeData) (k : string) : bool :=
  match fields d !! k with Some _ => true | None => false end.

(** The attributes that [Node.__init__] sets, and [ext] for those a
    subclass adds. *)
Record Node (E : Type) : Type := mkNode {
  data : NodeData;
  duration : Q;
  start_time : Q;
  started : bool;
  started_at : Q;
  finished : bool;
  node_id : string;
  ext : E
}.
Arguments mkNode {E}.
Arguments data {E}.
Arguments duration {E}.
Arguments start_time {E}.
Arguments started {E}.
Arguments started_at {E}.
Arguments finished {E}.
Arguments node_id {E}.
Arguments ext {E}.

Section Setters.
Context {E : Type}.

Definition set_data (d : NodeData) (n : Node E) : Node E :=
  mkNode d (duration n) (start_time n) (started n) (started_at n) (finished n) (node_id n) (ext n).

Definition set_duration (q : Q) (n : Node E) : Node E :=
  mkNode (data n) q (start_time n) (started n) (started_at n) (finished n) (node_id n) (ext n).

Definition set_started (b : bool) (n : Node E) : Node E :=
  mkNode (data n) (duration n) (start_time n) b (started_at n) (finished n) (node_id n) (ext n).

Definition set_started_at (q : Q) (n : Node E) : Node E :=
  mkNode (data n) (duration n) (start_time n) (started n) q (finished n) (node_id n) (ext n).

Definition set_finished (b : bool) (n : Node E) : Node E :=
  mkNode (data n) (duration n) (start_time n) (started n) (started_at n) b (node_id n) (ext n).

Definition set_id (i : string) (n : Node E) : Node E :=
  mkNode (data n) (duration n) (start_time n) (started n) (started_at n) (finished n) i (ext n).

Definition set_ext (e : E) (n : Node E) : Node E :=
  mkNode (data n) (duration n) (start_time n) (started n) (started_at n) (finished n) (node_id n) e.
End Setters.

(** [max(a, b)]: the second argument only when it is strictly larger. *)
Definition py_max (a b : Q) : Q := if Qltb a b then b else a.

(** [Node.__init__(self, data, runner)], followed by the attributes [e]
    of the subclass. *)
Definition Node_init `{Builtins} {E : Type} (d : NodeData) (e : E) : completion (Node E) :=
  match getitem d "duration" with
  | Raise ex => Raise ex
  | Return v =>
      match py_float v with
      | Raise ex => Raise ex
      | Return dur =>
          Return (mkNode d (py_max (1 # 10) dur) (data_start_time d) false 0 false "" e)
      end
  end.

(** [Node.end_time]: start plus duration, unless a subclass overrides it. *)
Definition default_end_time {E : Type} (n : Node E) : Q := (start_time n + duration n)%Q.

(** The four lifecycle methods that [run] dispatches to. *)
Inductive hook : Type := HStart | HStop | HCont | HPaused.

#[global] Instance hook_eq_dec : EqDecision hook.
Proof. solve_decision. Defined.

(** A subclass of [Node]: its name, the attributes it adds, its constructor
    and the methods it overrides.  The methods see the node and the
    world. *)
Record NodeClass : Type := mkClass {
  cls_name : string;
  cls_ext : Type;
  cls_init : NodeData -> completion (Node cls_ext);
  start : Q -> M (Node cls_ext * World) unit;
  stop : Q -> M (Node cls_ext * World) unit;
  cont : Q -> M (Node cls_ext * World) unit;
  paused : Q -> M (Node cls_ext * World) unit;
  end_time : Node cls_ext -> Q
}.

(** [def start(self, run_time): pass] and its three siblings. *)
Definition pass {E : Type} (run_time : Q) : M (Node E * World) unit := ret tt.

(** [logger.error(ex)] *)
Definition log_error {S : Type} (on_world : (World -> World) -> S -> S) (ex : exn) : M S unit :=
  modify (on_world (emit (LogError ex))).

Definition on_snd {A : Type} (f : World -> World) (s : A * World) : A * World := (fst s, f (snd s)).
Definition on_fst {A B : Type} (f : A -> A) (s : A * B) : A * B := (f (fst s), snd s).

Section Run.
Variable cls : NodeClass.
Abbreviation E := (cls_ext cls).

(** A node instance in its world.  [calls] is a ghost history of the
    lifecycle methods that [run] has invoked on the instance; no method
    can read or write it. *)
Record Sys : Type := mkSys {
  node : Node E;
  world : World;
  calls : list hook
}.

Definition new_sys (n : Node E) (w : World) : Sys := mkSys n w [].

Definition on_node (f : Node E -> Node E) (s : Sys) : Sys :=
  mkSys (f (node s)) (world s) (calls s).

Definition on_world (f : World -> World) (s : Sys) : Sys :=
  mkSys (node s) (f (world s)) (calls s).

(** Dynamic dispatch of one lifecycle method on the instance. *)
Definition invoke (h : hook) (m : M (Node E * World) unit) : M Sys unit :=
  fun s =>
    match m (node s, world s) with
    | ((n', w'), r) => (mkSys n' w' (calls s ++ [h]), r)
    end.

(** [Node.run(self, run_time)] *)
Definition run (run_time : Q) : M Sys bool :=
  let* s := get in
  let self := node s in
  if finished self then
    ret (if negb (started self) then false else Qltb run_time (end_time cls self))
  else
    (if started self then
       if Qle_bool (end_time cls self) run_time then
         invoke HStop (stop cls run_time) ;;
         modify (on_node (set_finished true)) ;;
         ret false
       else
         (if runner_paused (world s)
          then invoke HPaused (paused cls run_time)
          else invoke HCont (cont cls run_time)) ;;
         ret true
     else
       (if Qltb (start_time self) run_time then
          try_except (invoke HStart (start cls run_time)) (log_error on_world) ;;
          modify (on_node (set_started true)) ;;
          let* s' := get in
          modify (on_node (set_started_at (now (world s'))))
        else ret tt) ;;
       ret true).

End Run.
Arguments node {cls}.
Arguments world {cls}.
Arguments calls {cls}.
Arguments mkSys {cls}.

(** A sequence of [run] calls.  Between two calls the rest of the system
    may change the world (the clock advances, the timeline is paused or
    resumed): [tick_env] is that change, [tick_time] the argument of
    [run]. *)
Record Tick : Type := mkTick {
  tick_env : World -> World;
  tick_time : Q
}.

Fixpoint run_ticks (cls : NodeClass) (ticks : list Tick) (s : Sys cls) : list (Sys cls) :=
  match ticks with
  | [] => []
  | tk :: rest =>
      let s' := fst (run cls (tick_time tk) (on_world cls (tick_env tk) s)) in
      s' :: run_ticks cls rest s'
  end.

(** The lifecycle state of section 4.1, read off the two flags. *)
Inductive phase : Type := Pending | Active | Finished.

Definition phase_of {E : Type} (n : Node E) : phase :=
  if finished n then Finished else if started n then Active else Pending.

(** One step of the lifecycle: stay, or move to the next state. *)
Definition phase_step (p q : phase) : Prop :=
  p = q \/ (p = Pending /\ q = Active) \/ (p = Active /\ q = Finished).

Fixpoint forward_chain (p : phase) (l : list phase) : Prop :=
  match l with
  | [] => True
  | q :: r => phase_step p q /\ forward_chain q r
  end.

(** The lifecycle methods of a class leave [started] and [finished]
    alone, whether they return or raise. *)
Definition keeps_flags {E : Type} (m : Q -> M (Node E * World) unit) : Prop :=
  forall (t : Q) (s : Node E * World),
    started (fst (fst (m t s))) = started (fst s) /\
    finished (fst (fst (m t s))) = finished (fst s).

Definition hooks_keep_flags (cls : NodeClass) : Prop :=
  keeps_flags (start cls) /\ keeps_flags (stop cls) /\
  keeps_flags (cont cls) /\ keeps_flags (paused cls).

(** The number of calls of [start] in the history of an instance. *)
Definition starts {cls : NodeClass} (s : Sys cls) : nat :=
  count_occ hook_eq_dec (calls s) HStart.

(** The history counts one [start] at most, and none for a node that has
    not started. *)
Definition start_once {cls : NodeClass} (s : Sys cls) : Prop :=
  starts s = O \/ (starts s = 1%nat /\ started (node s) = true).

Definition flags {E : Type} (n : Node E) : bool * bool := (started n, finished n).

(** A computation that leaves [started] and [finished] as they are. *)
Definition preserves {E A : Type} (m : M (Node E * World) A) : Prop :=
  forall s, flags (fst (fst (m s))) = flags (fst s).

(** ** The factory *)

(** A node of some registered class. *)
Definition AnyNode : Type := { c : NodeClass & Node (cls_ext c) }.

(** The back-fill of [createNode]; [position] is its [start_time]
    argument, the timeline position at which the performance starts. *)
Definition backfill (c : NodeClass) (position : Q) (n : Node (cls_ext c)) : Node (cls_ext c) :=
  if Qltb (start_time n) position then
    let n := set_finished true n in
    if Qltb position (end_time c n) then set_started true n else n
  else n.

(** [Node.createNode(cls, data, runner, start_time, id)] over the list
    [subClasses] of registered classes: the first class of that name
    builds the node; an unknown name is logged and yields [None]. *)
Definition createNode (subClasses : list NodeClass) (d : NodeData)
    (position : Q) (id : string) : M World (option AnyNode) :=
  match List.find (fun c => String.eqb (name d) (cls_name c)) subClasses with
  | Some c =>
      let* n := eval (cls_init c d) in
      ret (Some (existT c (backfill c position (set_id id n))))
  | None =>
      modify (emit (LogWrongDescription (name d))) ;;
      ret None
  end.

(** ** Variable substitution *)

Module Re.

(** [\w] on a byte string: letters, digits and the underscore. *)
Definition is_word (c : ascii) : bool :=
  let n := nat_of_ascii c in
  ((48 <=? n)%nat && (n <=? 57)%nat) || ((65 <=? n)%nat && (n <=? 90)%nat) ||
  ((97 <=? n)%nat && (n <=? 122)%nat) || (n =? 95)%nat.

(** A string of word characters, as the group [(\w*?)] captures. *)
Fixpoint all_word (s : string) : bool :=
  match s with
  | EmptyString => true
  | String c s' => is_word c && all_word s'
  end.

(** The rest of the pattern after its opening brace, [(\w*?)}]: the word
    characters up to the next closing brace.  As a brace is not a word
    character, the lazy group can match in one way only. *)
Fixpoint group (s : string) : option string :=
  match s with
  | EmptyString => None
  | String c s' =>
      if Ascii.eqb c "}" then Some EmptyString
      else if is_word c then option_map (String c) (group s')
      else None
  end.

(** The scan of [re.findall]: matches are searched from left to right and
    do not overlap; [skip] counts the characters of the last match that
    remain to be passed over. *)
Fixpoint findall_from (skip : nat) (s : string) : list string :=
  match s with
  | EmptyString => []
  | String c s' =>
      match skip with
      | S k => findall_from k s'
      | O =>
          if Ascii.eqb c "{" then
            match group s' with
            | Some g => g :: findall_from (S (String.length g)) s'
            | None => findall_from O s'
            end
          else findall_from O s'
      end
  end.

(** [re.findall("{(\w*?)}", text)] *)
Definition findall (text : string) : list string := findall_from O text.

End Re.

(** [self.runner.get_variable(self.id, var) or ''] *)
Definition variable_or_empty {E : Type} (self : Node E) (w : World) (var : string) : string :=
  match variables w (node_id self) var with
  | Some val => val
  | None => ""
  end.

(** [Node.replace_variables_text(self, text)] *)
Definition replace_variables_text {E : Type} (self : Node E) (w : World) (text : string) : string :=
  fold_left
    (fun text var => Str.replace ("{" ++ var ++ "}") (variable_or_empty self w var) text)
    (Re.findall text) text.

(** Substitution as section 4.5 words it: one pass over the text in which
    every token is replaced by its value and inserted values are not
    looked at again. *)
Fixpoint single_pass_from (lookup : string -> string) (skip : nat) (s : string) : string :=
  match s with
  | EmptyString => EmptyString
  | String c s' =>
      match skip with
      | S k => single_pass_from lookup k s'
      | O =>
          if Ascii.eqb c "{" then
            match Re.group s' with
            | Some g => lookup g ++ single_pass_from lookup (S (String.length g)) s'
            | None => String c (single_pass_from lookup O s')
            end
          else String c (single_pass_from lookup O s')
      end
  end.

Definition substitute_single_pass {E : Type} (self : Node E) (w : World) (text : string) : string :=
  single_pass_from (variable_or_empty self w) O text.

(** ** [soma] *)

Definition cur_data {E : Type} : M (Node E * World) NodeData :=
  let* s := get in ret (data (fst s)).

Definition publish {E : Type} (topic : string) (msg : payload) : M (Node E * World) unit :=
  modify (on_snd (emit (Publish topic msg))).

Definition soma_start (run_time : Q) : M (Node unit * World) unit :=
  let* d := cur_data in
  let* nm := eval (getitem d "soma") in
  publish "soma_state" (SomaState nm 1 0 (1000000 * 300)).

Definition soma_stop (run_time : Q) : M (Node unit * World) unit :=
  let* d := cur_data in
  let* nm := eval (getitem d "soma") in
  publish "soma_state" (SomaState nm 0 0 0).

Definition soma `{Builtins} : NodeClass :=
  mkClass "soma" unit (fun d => Node_init d tt) soma_start soma_stop pass pass default_end_time.

(** ** [pause] *)

(** A [threading.Timer]: its delay, what it calls, and whether
    [cancel()] has been called on it. *)
Record Timer : Type := mkTimer {
  interval : Q;
  target : timer_target;
  cancelled : bool
}.

(** The attributes that [pause.__init__] adds.  [event_callback_ref] is
    [False], [None] or the token of a registration; the two falsy values
    are both [None] here. *)
Record pause_ext : Type := mkPause {
  event_callback_ref : option nat;
  timer : option Timer
}.

Definition set_event_callback_ref (r : option nat) (n : Node pause_ext) : Node pause_ext :=
  set_ext (mkPause r (timer (ext n))) n.

Definition set_timer (t : option Timer) (n : Node pause_ext) : Node pause_ext :=
  set_ext (mkPause (event_callback_ref (ext n)) t) n.

(** [if k not in self.data.keys(): self.data[k] = v] *)
Definition setdefault (k : string) (v : value) (d : NodeData) : NodeData :=
  if has_key d k then d else set_field k v d.

(** [pause.__init__] *)
Definition pause_init `{Builtins} (d : NodeData) : completion (Node pause_ext) :=
  match Node_init d (mkPause None None) with
  | Raise ex => Raise ex
  | Return n =>
      Return (set_data
                (setdefault "event_param" (VBool false)
                   (setdefault "on_event" (VBool false)
                      (setdefault "topic" (VBool false) (data n)))) n)
  end.

Section Pause.
Context `{Builtins}.

(** The body of the loop of [event_matched] over the lower-cased message
    [text]: [text.index(p.strip())] succeeds, or raises the [ValueError]
    that the loop catches. *)
Definition matched_step (text : string) (matched : bool) (p : string) : bool :=
  match Str.index (Str.strip p) text with
  | Return _ => true
  | Raise _ => matched || false
  end.

(** [pause.event_matched(param, msg)] *)
Definition event_matched (param msg : value) : bool :=
  let params := Str.split "," (Str.lower (py_str param)) in
  fold_left (matched_step (Str.lower (py_str (py_or msg (VStr ""))))) params false.

(** [if self.timer: self.timer.cancel()] *)
Definition cancel_timer : M (Node pause_ext * World) unit :=
  let* s := get in
  match timer (ext (fst s)) with
  | Some tm =>
      modify (on_fst (set_timer (Some (mkTimer (interval tm) (target tm) true)))) ;;
      modify (on_snd (emit TimerCancel))
  | None => ret tt
  end.

(** [str(self.data['topic'] or '').strip()] *)
Definition topic_name : M (Node pause_ext * World) string :=
  let* d := cur_data in
  let* topic := eval (getitem d "topic") in
  ret (Str.strip (py_str (py_or topic (VStr "")))).

(** [pause.delete_callback_ref] *)
Definition delete_callback_ref : M (Node pause_ext * World) unit :=
  let* s := get in
  match event_callback_ref (ext (fst s)) with
  | Some tok =>
      let* topic := topic_name in
      modify (on_snd (runner_unregister topic tok)) ;;
      modify (on_fst (set_event_callback_ref None))
  | None => ret tt
  end.

(** [pause.start_performance] *)
Definition start_performance : M (Node pause_ext * World) unit :=
  cancel_timer ;;
  let* d := cur_data in
  let* no_break :=
    (if has_key d "break"
     then let* b := eval (getitem d "break") in ret (negb (truthy b))
     else ret false) in
  let* on_event := eval (getitem d "on_event") in
  if no_break : bool then
    modify (on_snd (emit RunnerInterrupt)) ;;
    modify (on_snd (emit (AppendToQueue on_event)))
  else
    modify (on_snd (emit (RunFullPerformance on_event))).

(** [pause.resume] *)
Definition pause_resume : M (Node pause_ext * World) unit :=
  let* s := get in
  (if negb (finished (fst s)) then modify (on_snd runner_resume) else ret tt) ;;
  cancel_timer.

(** [pause.event_callback(msg)]; the result is [False] for a message that
    the keyword filter rejects and [None] otherwise. *)
Definition event_callback (msg : value) : M (Node pause_ext * World) value :=
  delete_callback_ref ;;
  let* d := cur_data in
  let* event_param := eval (getitem d "event_param") in
  if truthy event_param && negb (event_matched event_param msg) then ret (VBool false)
  else
    let* on_event := eval (getitem d "on_event") in
    (if truthy on_event then start_performance else pause_resume) ;;
    ret VNone.

(** [try: m except (ValueError, KeyError) as e: handler(e)] *)
Definition try_except_value_key {S A : Type} (m : M S A) (handler : exn -> M S A) : M S A :=
  fun s => match m s with
           | (s', Raise ValueError) => handler ValueError s'
           | (s', Raise (KeyError k)) => handler (KeyError k) s'
           | r => r
           end.

(** [self.timer = Timer(delay, target); self.timer.start()] *)
Definition arm_timer (delay : Q) (tg : timer_target) : M (Node pause_ext * World) unit :=
  modify (on_fst (set_timer (Some (mkTimer delay tg false)))) ;;
  modify (on_snd (emit (TimerStart delay tg))).

(** The first half of [pause.start]: the registration on the topic, or
    the look-up of the flag when the topic is the [ROSPARAM] sentinel.
    The result tells whether [start] returns from there. *)
Definition start_listening : M (Node pause_ext * World) bool :=
  let* d := cur_data in
  if has_key d "topic" then
    let* topic := topic_name in
    if negb (String.eqb topic "ROSPARAM") then
      let* s := get in
      let (tok, w') := runner_register topic (snd s) in
      modify (fun s => (set_event_callback_ref (Some tok) (fst s), w')) ;;
      let* event_param := eval (getitem d "event_param") in
      (if truthy event_param
       then modify (on_snd (fun w =>
              emit (SetParam "/performances/keywords_listening" event_param)
                (set_rosparam "/performances/keywords_listening" event_param w)))
       else ret tt) ;;
      ret false
    else
      let* event_param := eval (getitem d "event_param") in
      if truthy event_param then
        let* s := get in
        if truthy (default (VBool false) (rosparam (snd s) (py_str event_param))) then
          arm_timer 0 CallEventCallback ;;
          ret true
        else ret false
      else ret false
  else ret false.

(** [pause.start] *)
Definition pause_start (run_time : Q) : M (Node pause_ext * World) unit :=
  modify (on_snd runner_pause) ;;
  let* returned := start_listening in
  if returned : bool then ret tt
  else
    try_except_value_key
      (let* d := cur_data in
       let* v := eval (getitem d "timeout") in
       let* timeout := eval (py_float v) in
       if Qltb (1 # 10) timeout then arm_timer timeout CallResume else ret tt)
      (fun e => modify (on_snd (emit (LogError e)))).

(** [pause.stop] *)
Definition pause_stop (run_time : Q) : M (Node pause_ext * World) unit :=
  delete_callback_ref ;;
  cancel_timer.

(** [pause.end_time] *)
Definition pause_end_time (n : Node pause_ext) : Q := (start_time n + (1 # 10))%Q.

Definition pause : NodeClass :=
  mkClass "pause" pause_ext pause_init pause_start pause_stop pass pass pause_end_time.

(** The timer thread: a timer that is armed and has not been cancelled
    calls its target. *)
Definition timer_fires : M (Node pause_ext * World) unit :=
  let* s := get in
  match timer (ext (fst s)) with
  | Some tm =>
      if cancelled tm then ret tt
      else match target tm with
           | CallResume => pause_resume
           | CallEventCallback =>
               let* d := cur_data in
               let* event_param := eval (getitem d "event_param") in
               event_callback event_param ;;
               ret tt
           end
  | None => ret tt
  end.

End Pause.

(** ** [chat_pause] *)

(** [self.subscriber]: [False], or the [rospy.Subscriber] on the speech
    events of the robot. *)
Record chat_pause_ext : Type := mkChatPause {
  cp_subscriber : bool
}.

Definition chat_pause_init `{Builtins} (d : NodeData) : completion (Node chat_pause_ext) :=
  Node_init d (mkChatPause false).

(** [chat_pause.resume] *)
Definition chat_pause_resume : M (Node chat_pause_ext * World) unit :=
  modify (on_fst (set_duration 0)) ;;
  modify (on_snd runner_resume).

(** The closure [speech_event_callback(event)] of [chat_pause.start]. *)
Definition chat_pause_speech_event_callback (event : string) : M (Node chat_pause_ext * World) unit :=
  if String.eqb event "stop" then chat_pause_resume else ret tt.

(** The bounded wait of [chat_pause.start].  The loop sleeps until the node
    is finished or the wall clock passes the end of the node; what the
    node can observe of it are the speech events that the subscriber
    thread delivers meanwhile, which the world supplies in
    [speech_during_wait]. *)
Fixpoint deliver_speech (events : list string) : M (Node chat_pause_ext * World) unit :=
  match events with
  | [] => ret tt
  | ev :: rest => chat_pause_speech_event_callback ev ;; deliver_speech rest
  end.

Definition wait_for_speech : M (Node chat_pause_ext * World) unit :=
  let* s := get in
  modify (on_snd (set_speech_during_wait [])) ;;
  deliver_speech (speech_during_wait (snd s)).

(** [chat_pause.start] *)
Definition chat_pause_start (run_time : Q) : M (Node chat_pause_ext * World) unit :=
  let* d := cur_data in
  let* has_message :=
    (if has_key d "message"
     then let* m := eval (getitem d "message") in ret (truthy m)
     else ret false) in
  (if has_message : bool then
     modify (on_snd runner_pause) ;;
     let* m := eval (getitem d "message") in
     publish "chatbot" (ChatMessage m "en-US" 100 "performances") ;;
     let* s := get in
     modify (on_fst (set_ext (mkChatPause true))) ;;
     modify (on_snd (emit (Subscribe ("/" ++ robot_name (snd s) ++ "/speech_events")))) ;;
     wait_for_speech
   else ret tt) ;;
  chat_pause_resume.

(** [chat_pause.stop] *)
Definition chat_pause_stop (run_time : Q) : M (Node chat_pause_ext * World) unit :=
  let* s := get in
  if cp_subscriber (ext (fst s)) then
    modify (on_snd (emit SubscriberUnregister)) ;;
    modify (on_fst (set_ext (mkChatPause false)))
  else ret tt.

Definition chat_pause `{Builtins} : NodeClass :=
  mkClass "chat_pause" chat_pause_ext chat_pause_init
    chat_pause_start chat_pause_stop pass pass default_end_time.

(** ** [chat] *)

(** The attributes that [chat.__init__] adds.  [speech_listener] is the
    registration of [self.speech_event_callback] with the runner, which
    the source names by the callback itself. *)
Record chat_ext : Type := mkChat {
  subscriber : bool;
  turns : Z;
  last_turn_at : Q;
  chatbot_session_id : value;
  enable_chatbot : value;
  talking : bool;
  dialog_turns : Z;
  timeout : Q;
  timeout_mode : value;
  speech_listener : option nat
}.

Definition set_subscriber (b : bool) (e : chat_ext) : chat_ext :=
  mkChat b (turns e) (last_turn_at e) (chatbot_session_id e) (enable_chatbot e)
    (talking e) (dialog_turns e) (timeout e) (timeout_mode e) (speech_listener e).

Definition set_turns (z : Z) (e : chat_ext) : chat_ext :=
  mkChat (subscriber e) z (last_turn_at e) (chatbot_session_id e) (enable_chatbot e)
    (talking e) (dialog_turns e) (timeout e) (timeout_mode e) (speech_listener e).

Definition set_last_turn_at (q : Q) (e : chat_ext) : chat_ext :=
  mkChat (subscriber e) (turns e) q (chatbot_session_id e) (enable_chatbot e)
    (talking e) (dialog_turns e) (timeout e) (timeout_mode e) (speech_listener e).

Definition set_chatbot_session_id (v : value) (e : chat_ext) : chat_ext :=
  mkChat (subscriber e) (turns e) (last_turn_at e) v (enable_chatbot e)
    (talking e) (dialog_turns e) (timeout e) (timeout_mode e) (speech_listener e).

Definition set_talking (b : bool) (e : chat_ext) : chat_ext :=
  mkChat (subscriber e) (turns e) (last_turn_at e) (chatbot_session_id e) (enable_chatbot e)
    b (dialog_turns e) (timeout e) (timeout_mode e) (speech_listener e).

Definition set_speech_listener (l : option nat) (e : chat_ext) : chat_ext :=
  mkChat (subscriber e) (turns e) (last_turn_at e) (chatbot_session_id e) (enable_chatbot e)
    (talking e) (dialog_turns e) (timeout e) (timeout_mode e) l.

Definition on_ext {E : Type} (f : E -> E) (s : Node E * World) : Node E * World :=
  (set_ext (f (ext (fst s))) (fst s), snd s).

(** [v == s] for a string literal [s]. *)
Definition is_str (v : value) (s : string) : bool :=
  match v with
  | VStr x => String.eqb x s
  | _ => false
  end.

Section Chat.
Context `{Builtins}.

(** [try: conv(data[k]) except (ValueError, KeyError): dflt]; a
    [TypeError] of the conversion is not caught. *)
Definition convert_or {A : Type} (conv : value -> completion A) (d : NodeData)
    (k : string) (dflt : A) : completion A :=
  match getitem d k with
  | Raise _ => Return dflt
  | Return v =>
      match conv v with
      | Raise ValueError => Return dflt
      | Raise (KeyError _) => Return dflt
      | r => r
      end
  end.

(** [chat.__init__] *)
Definition chat_init (d : NodeData) : completion (Node chat_ext) :=
  match Node_init d tt with
  | Raise ex => Raise ex
  | Return n =>
      let enable := if has_key d "enable_chatbot"
                    then default (VBool false) (fields d !! "enable_chatbot")
                    else VBool false in
      match convert_or py_int d "dialog_turns" 1%Z with
      | Raise ex => Raise ex
      | Return dt =>
          match convert_or py_float d "timeout" 0%Q with
          | Raise ex => Raise ex
          | Return tmo =>
              let mode := default (VStr "each") (fields d !! "timeout_mode") in
              Return (mkNode (data n) (duration n) (start_time n) (started n)
                        (started_at n) (finished n) (node_id n)
                        (mkChat false 0 0 (VBool false) enable false dt tmo mode None))
          end
      end
  end.

(** [chat.start_chatbot_session]: the session id is stored when the
    dialogue service answers with status 200. *)
Definition start_chatbot_session : M (Node chat_ext * World) unit :=
  let* d := cur_data in
  let* botname := eval (getitem d "bot_name") in
  modify (on_snd (emit (StartSession botname))) ;;
  let* s := get in
  match chatbot_sid (snd s) botname with
  | Some sid => modify (on_ext (set_chatbot_session_id sid))
  | None => ret tt
  end.

(** [chat.get_chatbot_response(speech)] *)
Definition get_chatbot_response (speech : string) : M (Node chat_ext * World) value :=
  let* s := get in
  let sid := chatbot_session_id (ext (fst s)) in
  if truthy sid then
    match chatbot_reply (snd s) sid speech with
    | Some text => ret (VStr text)
    | None => ret (VStr "")
    end
  else ret (VStr "").

(** [r['input'] in input], and [r['output']] for a match, over the
    entries [r] of [data['responses']]. *)
Fixpoint collect_matches (input : string) (responses : list value) : completion (list value) :=
  match responses with
  | [] => Return []
  | VDict r :: rest =>
      match List.find (fun kv => String.eqb (fst kv) "input") r with
      | None => Raise (KeyError "input")
      | Some (_, VStr pattern) =>
          if Str.contains pattern input then
            match List.find (fun kv => String.eqb (fst kv) "output") r with
            | None => Raise (KeyError "output")
            | Some (_, out) =>
                match collect_matches input rest with
                | Return ms => Return (out :: ms)
                | Raise ex => Raise ex
                end
            end
          else collect_matches input rest
      | Some _ => Raise TypeError
      end
  | _ :: _ => Raise TypeError
  end.

(** [chat.match_response(speech)]; [pick] is the draw of
    [random.randint(0, len(matches) - 1)]. *)
Definition match_response (pick : nat) (speech : string) : M (Node chat_ext * World) value :=
  let* d := cur_data in
  let* response :=
    match fields d !! "responses" with
    | Some (VList responses) =>
        let* matches := eval (collect_matches (Str.lower speech) responses) in
        match matches with
        | [] => ret (VStr "")
        | m :: _ => ret (nth (Nat.min pick (length matches - 1)) matches m)
        end
    | _ => ret (VStr "")
    end in
  if negb (truthy response) && has_key d "no_match"
  then eval (getitem d "no_match")
  else ret response.

(** [chat.respond(response)] *)
Definition chat_respond (response : value) : M (Node chat_ext * World) unit :=
  publish "events" (Event "chat_end" 0) ;;
  modify (on_ext (set_talking true)) ;;
  publish "tts" (TTS response "en-US").

(** [chat.resume] *)
Definition chat_resume : M (Node chat_ext * World) unit :=
  modify (on_fst (set_duration 0)) ;;
  modify (on_snd runner_resume) ;;
  publish "events" (Event "chat_end" 0) ;;
  let* s := get in
  if subscriber (ext (fst s)) then
    modify (on_snd (emit SubscriberUnregister)) ;;
    modify (on_ext (set_subscriber false))
  else ret tt.

(** [self.timeout_mode == 'whole' and time.time() - self.started_at >= self.timeout] *)
Definition whole_timeout_elapsed (self : Node chat_ext) (w : World) : bool :=
  is_str (timeout_mode (ext self)) "whole" &&
  Qle_bool (timeout (ext self)) (now w - started_at self).

(** [chat.add_turn] *)
Definition add_turn : M (Node chat_ext * World) unit :=
  modify (on_ext (fun e => set_turns (turns e + 1) e)) ;;
  let* s0 := get in
  modify (on_ext (set_last_turn_at (now (snd s0)))) ;;
  let* s := get in
  let self := fst s in
  if (turns (ext self) <? dialog_turns (ext self))%Z && negb (whole_timeout_elapsed self (snd s))
  then publish "events" (Event "chat" 0)
  else chat_resume.

(** [chat.speech_event_callback(msg)], with [event] for [msg.data]. *)
Definition speech_event_callback (event : string) : M (Node chat_ext * World) unit :=
  if String.eqb event "stop" then
    add_turn ;;
    modify (on_ext (set_talking false))
  else ret tt.

(** The closure [input_callback(event)] of [chat.start], with [speech]
    for [event.data]. *)
Definition input_callback (pick : nat) (speech : string) : M (Node chat_ext * World) unit :=
  let* s := get in
  let* response :=
    (if truthy (enable_chatbot (ext (fst s)))
     then get_chatbot_response speech
     else match_response pick speech) in
  chat_respond response.

(** [chat.start] *)
Definition chat_start (run_time : Q) : M (Node chat_ext * World) unit :=
  modify (on_snd runner_pause) ;;
  let* s := get in
  modify (on_ext (set_last_turn_at (now (snd s)))) ;;
  (if truthy (enable_chatbot (ext (fst s))) then start_chatbot_session else ret tt) ;;
  modify (on_ext (set_subscriber true)) ;;
  modify (on_snd (emit (Subscribe ("/" ++ robot_name (snd s) ++ "/nodes/listen/input")))) ;;
  publish "events" (Event "chat" 0) ;;
  let* s1 := get in
  let (tok, w') := runner_register "speech_events" (snd s1) in
  modify (fun s => (set_ext (set_speech_listener (Some tok) (ext (fst s))) (fst s), w')).

(** [chat.stop] *)
Definition chat_stop (run_time : Q) : M (Node chat_ext * World) unit :=
  let* s := get in
  match speech_listener (ext (fst s)) with
  | Some tok => modify (on_snd (runner_unregister "speech_events" tok))
  | None => modify (on_snd (emit (RunnerUnregisterAbsent "speech_events")))
  end.

(** [chat.paused] *)
Definition chat_paused (run_time : Q) : M (Node chat_ext * World) unit :=
  let* s := get in
  let self := fst s in
  let e := ext self in
  if negb (Qeq_bool (timeout e) 0) && negb (talking e) then
    if (is_str (timeout_mode e) "each" && Qle_bool (timeout e) (now (snd s) - last_turn_at e))
       || (is_str (timeout_mode e) "whole" && Qle_bool (timeout e) (now (snd s) - started_at self))
    then
      let d := data self in
      let* no_speech :=
        (if has_key d "no_speech" then eval (getitem d "no_speech") else ret VNone) in
      if truthy no_speech then chat_respond no_speech else add_turn
    else ret tt
  else ret tt.

Definition chat : NodeClass :=
  mkClass "chat" chat_ext chat_init chat_start chat_stop pass chat_paused default_end_time.

End Chat.

(** ** [attention]: sampling a point from regions *)

Module attention.

(** A region dictionary; [type] is absent from the dictionaries that
    [get_point_from_regions] builds. *)
Record Region : Type := mkRegion {
  x : Q;
  y : Q;
  width : Q;
  height : Q;
  type : option string
}.

(** The parameter [axis], the string ['x'] or ['y']. *)
Inductive Axis : Type := AxisX | AxisY.

(** [r[axis]] *)
Definition coord (axis : Axis) (r : Region) : Q :=
  match axis with AxisX => x r | AxisY => y r end.

(** [r['width'] if axis == 'x' else r['height']] *)
Definition extent (axis : Axis) (r : Region) : Q :=
  match axis with AxisX => width r | AxisY => height r end.

(** [sorted(regions, key=lambda r: r[axis])], a stable sort. *)
Fixpoint insert_by (key : Region -> Q) (r : Region) (l : list Region) : list Region :=
  match l with
  | [] => [r]
  | h :: t => if Qle_bool (key r) (key h) then r :: l else h :: insert_by key r t
  end.

Definition sorted (key : Region -> Q) (l : list Region) : list Region :=
  fold_right (insert_by key) [] l.

(** The variables of the first loop. *)
Record Walk : Type := mkWalk {
  prev_end : Q;
  length : Q;
  lengths : list (Q * Q)
}.

(** The body of the first loop, for the region [r]. *)
Definition walk_step (axis : Axis) (a : Walk) (r : Region) : Walk :=
  let begin := coord axis r in
  let end_ := (begin + extent axis r)%Q in
  if Qltb begin (prev_end a) then
    let diff := (prev_end a - begin)%Q in
    let seg := (length a - diff, length a - diff + end_ - begin)%Q in
    let begin := prev_end a in
    mkWalk (py_max begin end_) (length a + py_max 0 (end_ - begin))%Q (lengths a ++ [seg])%list
  else
    let seg := (length a, length a + end_ - begin)%Q in
    mkWalk (py_max begin end_) (length a + py_max 0 (end_ - begin))%Q (lengths a ++ [seg])%list.

(** The body of the second loop, for the segment [seg] of the region [r];
    the division raises when the segment is empty. *)
Definition select_step (axis : Axis) (rval : Q) (a : Q * list Region)
    (seg_r : (Q * Q) * Region) : completion (Q * list Region) :=
  let (position, matched) := a in
  let (seg, r) := seg_r in
  if Qle_bool (fst seg) rval && Qle_bool rval (snd seg) then
    let matched := (matched ++ [r])%list in
    if Qeq_bool position 0 then
      if Qeq_bool (snd seg - fst seg) 0 then Raise ZeroDivisionError
      else Return ((coord axis r + extent axis r * ((rval - fst seg) / (snd seg - fst seg)))%Q,
                   matched)
    else Return (position, matched)
  else Return (position, matched).

Fixpoint select (axis : Axis) (rval : Q) (a : Q * list Region)
    (l : list ((Q * Q) * Region)) : completion (Q * list Region) :=
  match l with
  | [] => Return a
  | seg_r :: rest =>
      match select_step axis rval a seg_r with
      | Return a' => select axis rval a' rest
      | Raise ex => Raise ex
      end
  end.

(** [attention.get_random_axis_position(regions, axis)]; [u] is the draw
    of [random.random()]. *)
Definition get_random_axis_position (u : Q) (regions : list Region) (axis : Axis)
    : completion (Q * list Region) :=
  match regions with
  | [] => Return (0%Q, [])
  | _ :: _ =>
      let regions := sorted (coord axis) regions in
      match regions with
      | [] => Return (0%Q, [])
      | first :: _ =>
          let w := fold_left (walk_step axis) regions (mkWalk (coord axis first) 0 []) in
          let rval := (u * length w)%Q in
          select axis rval (0%Q, []) (combine (lengths w) regions)
      end
  end.

(** The point dictionary that [get_point_from_regions] returns. *)
Record Point : Type := mkPoint {
  point_x : Q;
  point_y : Q;
  point_z : Q
}.

(** The list comprehension of [get_point_from_regions]: the regions of
    the requested type, moved down by their height and without their
    type. *)
Fixpoint regions_of_type (all_regions : list Region) (region_type : string)
    : completion (list Region) :=
  match all_regions with
  | [] => Return []
  | r :: rest =>
      match type r with
      | None => Raise (KeyError "type")
      | Some ty =>
          match regions_of_type rest region_type with
          | Raise ex => Raise ex
          | Return rs =>
              if String.eqb ty region_type
              then Return (mkRegion (x r) (y r - height r) (width r) (height r) None :: rs)
              else Return rs
          end
      end
  end.

(** [attention.get_point_from_regions(all_regions, region_type)]; [u1] and
    [u2] are the two draws. *)
Definition get_point_from_regions (u1 u2 : Q) (all_regions : list Region)
    (region_type : string) : completion Point :=
  match regions_of_type all_regions region_type with
  | Raise ex => Raise ex
  | Return [] => Return (mkPoint 1 0 0)
  | Return regions =>
      match get_random_axis_position u1 regions AxisX with
      | Raise ex => Raise ex
      | Return (y, matched) =>
          match get_random_axis_position u2 matched AxisY with
          | Raise ex => Raise ex
          | Return (z, _) => Return (mkPoint 1 (- y) z)
          end
      end
  end.

End attention.

(** ** Sample descriptions, worlds and nodes *)

(** A runtime in which no string reads as a number; the samples hold
    their numbers as numbers. *)
Definition sample_builtins : Builtins :=
  Build_Builtins (fun _ => None) (fun _ => None) (fun _ => "").

(** A world at rest: timeline running, no listener, clock at [0], and one
    variable, [name], bound to ["bot"] for every node. *)
Definition sample_world : World :=
  mkWorld false "robot" 0
    (fun _ var => if String.eqb var "name" then Some "bot" else None)
    [] 1 (fun _ => None) (fun _ => None) (fun _ _ => None) [] 0 [].

(** The classes registered in the samples. *)
Definition sample_classes : list NodeClass :=
  [soma (H:=sample_builtins); pause (H:=sample_builtins);
   chat_pause (H:=sample_builtins); chat (H:=sample_builtins)].

(** [{'name': 'chat', 'start_time': 1, 'duration': 5, 'dialog_turns': 2}] *)
Definition sample_chat_data : NodeData :=
  mkData "chat" 1 (<["duration" := VNum 5]> (<["dialog_turns" := VNum 2]> ∅)).

(** [{'name': 'soma', 'start_time': 0, 'duration': 1}]: the key [soma] is
    missing. *)
Definition sample_soma_data : NodeData :=
  mkData "soma" 0 (<["duration" := VNum 1]> ∅).

(** [{'name': 'pause', 'start_time': 0, 'duration': 1, 'topic': 'speech',
    'timeout': 5}] *)
Definition sample_pause_data : NodeData :=
  mkData "pause" 0
    (<["duration" := VNum 1]> (<["topic" := VStr "speech"]> (<["timeout" := VNum 5]> ∅))).

(** [{'name': 'chat_pause', 'start_time': 0, 'duration': 2}] *)
Definition sample_chat_pause_data : NodeData :=
  mkData "chat_pause" 0 (<["duration" := VNum 2]> ∅).

(** The node that [createNode] returns, or [None] when it returns no
    node of the class [c]. *)
Definition created (c : NodeClass) (d : NodeData) (position : Q) (id : string)
    : option (Node (cls_ext c)) :=
  match cls_init c d with
  | Return n => Some (backfill c position (set_id id n))
  | Raise _ => None
  end.

(** The sample [chat] node as its constructor leaves it. *)
Definition sample_chat_node : Node chat_ext :=
  mkNode sample_chat_data 5 1 false 0 false ""
    (mkChat false 0 0 (VBool false) (VBool false) false 2 0 (VStr "each") None).

(** The sample [soma] node as its constructor leaves it. *)
Definition sample_soma_node : Node unit :=
  mkNode sample_soma_data 1 0 false 0 false "" tt.

(** Three calls of [run] on a running timeline, at positions [1/2], [2]
    and [7], the clock reading [10], [11] and [12]. *)
Definition at_clock (q : Q) (w : World) : World :=
  mkWorld (runner_paused w) (robot_name w) (start_timestamp w) (variables w)
    (listeners w) (next_token w) (rosparam w) (chatbot_sid w) (chatbot_reply w)
    (speech_during_wait w) q (trace w).

Definition sample_ticks : list Tick :=
  [mkTick (at_clock 10) (1 # 2); mkTick (at_clock 11) 2; mkTick (at_clock 12) 7].

(** The sample [chat] node built for a timeline that starts at position
    [3], inside its span from [1] to [6]. *)
Definition sample_chat_midspan : Node chat_ext :=
  backfill (chat (H:=sample_builtins)) 3 (set_id "n1" sample_chat_node).

(** The result of [run] on a finished node as section 4.1 words it:
    inactive, unless the node never started, in which case active while
    [t < endTime()]. *)
Definition finished_result_in_words (has_started before_end : bool) : bool :=
  if has_started then false else before_end.

Definition finished_run_as_worded (cls : NodeClass) (s : Sys cls) (t : Q) : Prop :=
  snd (run cls t s) =
    Return (finished_result_in_words (started (node s)) (Qltb t (end_time cls (node s)))).

(** A world in which the value of the variable [a] is itself a token, of
    the variable [b]. *)
Definition nested_world : World :=
  mkWorld false "robot" 0
    (fun _ var => if String.eqb var "a" then Some "{b}"
                  else if String.eqb var "b" then Some "z" else None)
    [] 1 (fun _ => None) (fun _ => None) (fun _ _ => None) [] 0 [].

(** A world without variables. *)
Definition bare_world : World :=
  mkWorld false "robot" 0 (fun _ _ => None)
    [] 1 (fun _ => None) (fun _ => None) (fun _ _ => None) [] 0 [].

(** The region [{x: 0, y: 0, width: 10, height: 10, type: A}], and the
    dictionary that [get_point_from_regions] makes of it. *)
Definition sample_region : attention.Region := attention.mkRegion 0 0 10 10 (Some "A").

Definition sample_region_moved : attention.Region := attention.mkRegion 0 (0 - 10) 10 10 None.

(** The sample [pause] node as its constructor leaves it, and the state
    that [run(1/2)] brings it to: listener registered on [speech], timer
    of five seconds armed. *)
Definition sample_pause_node : Node pause_ext :=
  mkNode
    (setdefault "event_param" (VBool false)
       (setdefault "on_event" (VBool false) sample_pause_data))
    1 0 false 0 false "" (mkPause None None).

Definition sample_pause_armed : Node pause_ext * World :=
  let s := fst (run (pause (H:=sample_builtins)) (1 # 2)
                  (new_sys (pause (H:=sample_builtins)) sample_pause_node sample_world)) in
  (node s, world s).

(** [if not self.event_callback_ref] *)
Definition listener_dropped (s : Node pause_ext * World) : bool :=
  match event_callback_ref (ext (fst s)) with
  | Some _ => false
  | None => true
  end.

(** The timer of the node, if any, has been cancelled. *)
Definition timer_stopped (s : Node pause_ext * World) : bool :=
  match timer (ext (fst s)) with
  | Some tm => cancelled tm
  | None => true
  end.

(** Both triggers of a [pause] node are armed. *)
Definition both_armed (s : Node pause_ext * World) : bool :=
  negb (listener_dropped s) && negb (timer_stopped s).

(** The tie-break of section 4.3 as worded, for the timer: when the timer
    wins, its callback leaves the channel listener cancelled. *)
Definition timer_cancels_listener `{Builtins} (s : Node pause_ext * World) : Prop :=
  listener_dropped (fst (timer_fires s)) = true.

(** Counting in a trace: the calls of [runner.resume()], and the events of
    a given name published on the topic [events]. *)
Definition is_runner_resume (e : effect) : bool :=
  match e with
  | RunnerResume => true
  | _ => false
  end.

Definition is_event (ev : string) (e : effect) : bool :=
  match e with
  | Publish topic (Event nm _) => String.eqb topic "events" && String.eqb nm ev
  | _ => false
  end.

Definition count (p : effect -> bool) (l : list effect) : nat :=
  List.length (List.filter p l).

(** A computation that reads the state and leaves it as it is. *)
Definition pure {S A : Type} (m : M S A) : Prop := forall s, fst (m s) = s.

(** The session of section 8: an input, the end of the spoken response,
    a second input, the end of the second response.  Each callback runs on
    the state that the one before has left, whatever it returned, at the
    wall-clock time given for it; [pick1] and [pick2] are the draws of the
    scripted responder. *)
Definition after {S : Type} (m : M S unit) (s : S) : S := fst (m s).

Definition at_time {E : Type} (q : Q) (s : Node E * World) : Node E * World :=
  (fst s, at_clock q (snd s)).

Definition two_turns `{Builtins} (pick1 pick2 : nat) (speech1 speech2 : string)
    (now1 now2 now3 now4 : Q) (s : Node chat_ext * World) : Node chat_ext * World :=
  let s1 := after (input_callback pick1 speech1) (at_time now1 s) in
  let s2 := after (speech_event_callback "stop") (at_time now2 s1) in
  let s3 := after (input_callback pick2 speech2) (at_time now3 s2) in
  after (speech_event_callback "stop") (at_time now4 s3).

(** The callback returns; it does not raise. *)
Definition returns {S A : Type} (m : M S A) (s : S) : bool :=
  match snd (m s) with
  | Return _ => true
  | Raise _ => false
  end.

(** Both inputs of the session are answered. *)
Definition inputs_answered `{Builtins} (pick1 pick2 : nat) (speech1 speech2 : string)
    (now1 now2 now3 : Q) (s : Node chat_ext * World) : bool :=
  let s1 := after (input_callback pick1 speech1) (at_time now1 s) in
  let s2 := after (speech_event_callback "stop") (at_time now2 s1) in
  returns (input_callback pick1 speech1) (at_time now1 s) &&
  returns (input_callback pick2 speech2) (at_time now3 s2).

(** The sample [chat] node after [run(2)] has started it. *)
Definition sample_chat_started : Node chat_ext * World :=
  let s := fst (run (chat (H:=sample_builtins)) 2
                  (new_sys (chat (H:=sample_builtins)) sample_chat_node sample_world)) in
  (node s, world s).

(** The outcome of the session as section 8 words it: one [chat_end]
    event and one call of [runner.resume()]. *)
Definition one_chat_end_one_resume (before after_ : list effect) : Prop :=
  count (is_event "chat_end") after_ = (count (is_event "chat_end") before + 1)%nat /\
  count is_runner_resume after_ = (count is_runner_resume before + 1)%nat.

(** The sample [chat_pause] node as its constructor leaves it. *)
Definition sample_chat_pause_node : Node chat_pause_ext :=
  mkNode sample_chat_pause_data 2 0 false 0 false "" (mkChatPause false).

(** The classes of the module that are modelled here, in the order of
    their definition. *)
Definition modelled_classes `{Builtins} : list NodeClass :=
  [soma; pause; chat_pause; chat].

(** A node as [Node.__init__] leaves it for the description [d]: pending,
    without id, at the start time of the description and with a duration
    of [0.1] at least. *)
Definition fresh_node {E : Type} (d : NodeData) (n : Node E) : Prop :=
  started n = false /\ finished n = false /\ node_id n = "" /\
  start_time n = data_start_time d /\ (1 # 10 <= duration n)%Q.

(** ** Further methods of the module *)

(** [Node._magnitude(magnitude)]: a number as it is, a range as a
    uniform draw between its bounds, and [0.0] for what is neither; [u]
    is the draw of [random.random()] behind [random.uniform]. Only a
    [TypeError] of [float(magnitude)] leads to the range; the inner
    handler catches everything. *)
Definition _magnitude `{Builtins} (u : Q) (magnitude : value) : completion Q :=
  match py_float magnitude with
  | Return q => Return q
  | Raise TypeError =>
      match magnitude with
      | VList (a :: b :: _) =>
          match py_float a with
          | Return lo =>
              match py_float b with
              | Return hi => Return (lo + (hi - lo) * u)%Q
              | Raise _ => Return 0%Q
              end
          | Raise _ => Return 0%Q
          end
      | _ => Return 0%Q
      end
  | Raise e => Raise e
  end.

(** [{'en': 'en-US', 'zh': 'cmn-Hans-CN'}[lang]], for a language that
    is one of the two keys. *)
Definition long_lang (lang : value) : value :=
  if is_str lang "en" then VStr "en-US"
  else if is_str lang "zh" then VStr "cmn-Hans-CN"
  else lang.

(** [speech.__init__] *)
Definition speech_init `{Builtins} (d : NodeData) : completion (Node unit) :=
  match Node_init d tt with
  | Raise ex => Raise ex
  | Return n =>
      let d1 := setdefault "volume" (VNum 1)
                  (setdefault "speed" (VNum 1) (setdefault "pitch" (VNum 1) (data n))) in
      match getitem d1 "lang" with
      | Raise ex => Raise ex
      | Return lang =>
          if is_str lang "en" || is_str lang "zh"
          then Return (set_data (set_field "lang" (long_lang lang) d1) n)
          else Return (set_data d1 n)
      end
  end.

(** [settings.set_variables(params)]: the string values of the
    dictionary with their variables replaced. *)
Definition set_variables {E : Type} (self : Node E) (w : World)
    (params : gmap string value) : gmap string value :=
  (fun v => match v with
            | VStr s => VStr (replace_variables_text self w s)
            | _ => v
            end) <$> params.

(** Some character of the string is an upper-case letter. *)
Fixpoint has_upper (s : string) : bool :=
  match s with
  | EmptyString => false
  | String c s' => Str.is_upper c || has_upper s'
  end.

(** An entry [{'input': pattern, 'output': out}] of [data['responses']]
    whose pattern holds an upper-case letter. *)
Definition upper_case_entry (r : value) : Prop :=
  exists (pattern : string) (out : value),
    r = VDict [("input", VStr pattern); ("output", out)] /\ has_upper pattern = true.

(** * Properties *)

Local Open Scope list_scope.

(** ** The lifecycle of [Node.run] *)


Section RunFacts.
Variable cls : NodeClass.
Hypothesis frame : hooks_keep_flags cls.

Lemma invoke_flags (h : hook) (m : Q -> M (Node (cls_ext cls) * World) unit) (t : Q) (s : Sys cls) :
  keeps_flags m ->
  started (node (fst (invoke cls h (m t) s))) = started (node s) /\
  finished (node (fst (invoke cls h (m t) s))) = finished (node s) /\
  calls (fst (invoke cls h (m t) s)) = calls s ++ [h].
Proof.
  intros Hm. unfold invoke. specialize (Hm t (node s, world s)).
  destruct (m t (node s, world s)) as [[n' w'] r]. simpl in *. tauto.
Qed.


(** What one call of [run] does to the flags and to the history. *)
Lemma run_cases (t : Q) (s : Sys cls) :
  let s' := fst (run cls t s) in
  (finished (node s) = true /\ s' = s) \/
  (finished (node s) = false /\ started (node s) = true /\
   started (node s') = true /\ starts s' = starts s) \/
  (finished (node s) = false /\ started (node s) = false /\
   finished (node s') = false /\
   ((started (node s') = false /\ s' = s) \/
    (started (node s') = true /\ starts s' = S (starts s)))).
Proof.
  destruct frame as (Fstart & Fstop & Fcont & Fpaused).
  unfold run, bind, get, ret, modify, try_except, log_error. cbn.
  destruct (finished (node s)) eqn:Hfin.
  { left. by destruct (started (node s)). }
  right. destruct (started (node s)) eqn:Hst.
  - left. do 2 (split; [done|]).
    destruct (Qle_bool (end_time cls (node s)) t).
    + destruct (invoke_flags HStop (stop cls) t s Fstop) as (Hs & Hf & Hc).
      destruct (invoke cls HStop (stop cls t) s) as [s1 [[]|e]]; cbn in *;
        unfold starts; rewrite Hc, count_occ_app; cbn; rewrite Hs, Hst; split; auto; lia.
    + destruct (runner_paused (world s)).
      * destruct (invoke_flags HPaused (paused cls) t s Fpaused) as (Hs & Hf & Hc).
        destruct (invoke cls HPaused (paused cls t) s) as [s1 [[]|e]]; cbn in *;
          unfold starts; rewrite Hc, count_occ_app; cbn; rewrite Hs, Hst; split; auto; lia.
      * destruct (invoke_flags HCont (cont cls) t s Fcont) as (Hs & Hf & Hc).
        destruct (invoke cls HCont (cont cls t) s) as [s1 [[]|e]]; cbn in *;
          unfold starts; rewrite Hc, count_occ_app; cbn; rewrite Hs, Hst; split; auto; lia.
  - right. do 2 (split; [done|]).
    destruct (Qltb (start_time (node s)) t).
    + destruct (invoke_flags HStart (start cls) t s Fstart) as (Hs & Hf & Hc).
      destruct (invoke cls HStart (start cls t) s) as [s1 [[]|e]]; cbn in *;
        (split; [congruence|]); right; (split; [done|]);
        unfold starts; cbn; rewrite Hc, count_occ_app; cbn; lia.
    + cbn. split; [done|]. left. by destruct s.
Qed.

Lemma run_phase_step (t : Q) (s : Sys cls) :
  phase_step (phase_of (node s)) (phase_of (node (fst (run cls t s)))).
Proof.
  unfold phase_step, phase_of.
  destruct (run_cases t s) as [(Hf & ->)|[(Hf & Hs & Hs' & _)|(Hf & Hs & Hf' & Hor)]].
  - left. reflexivity.
  - rewrite Hf, Hs, Hs'. destruct (finished (node (fst (run cls t s)))); auto.
  - rewrite Hf, Hs, Hf'. destruct Hor as [(-> & _)|(-> & _)]; auto.
Qed.


Lemma run_start_once (t : Q) (s : Sys cls) :
  start_once s -> start_once (fst (run cls t s)).
Proof.
  unfold start_once. intros Hinv.
  destruct (run_cases t s) as [(Hf & ->)|[(Hf & Hs & Hs' & Hc)|(Hf & Hs & Hf' & Hor)]].
  - done.
  - rewrite Hc, Hs'. destruct Hinv as [?|[? _]]; auto.
  - destruct Hor as [(_ & ->)|(Hs' & Hc)]; [done|].
    right. rewrite Hc, Hs'. destruct Hinv as [->|[_ Hst]]; [done|congruence].
Qed.

Lemma run_ticks_forward (ticks : list Tick) (s : Sys cls) :
  start_once s ->
  forward_chain (phase_of (node s)) (map (fun s' => phase_of (node s')) (run_ticks cls ticks s)) /\
  Forall (fun s' => (starts s' <= 1)%nat) (run_ticks cls ticks s).
Proof.
  revert s. induction ticks as [|tk rest IH]; intros s Hinv; cbn [run_ticks map forward_chain].
  - split; [done | constructor].
  - set (s0 := on_world cls (tick_env tk) s).
    assert (H0 : start_once s0) by exact Hinv.
    pose proof (run_start_once (tick_time tk) s0 H0) as H1.
    destruct (IH _ H1) as [Hchain Hall].
    split; [split; [|exact Hchain] | constructor; [|exact Hall]].
    + exact (run_phase_step (tick_time tk) s0).
    + destruct H1 as [H1|[H1 _]]; lia.
Qed.

End RunFacts.

(** C1. Along every sequence of [run] calls on a node instance, with any
    time values and any changes of the world in between, the lifecycle
    state only stays or moves one step forward, Pending to Active to
    Finished, and the history of the instance holds at most one call of its
    [start] method.  The classes are those whose lifecycle methods do not
    assign [started] or [finished], which is the case of every class of
    the module. *)
Theorem run_lifecycle_forward (cls : NodeClass) (n : Node (cls_ext cls)) (w : World)
    (ticks : list Tick) :
  hooks_keep_flags cls ->
  forward_chain (phase_of n)
    (map (fun s => phase_of (node s)) (run_ticks cls ticks (new_sys cls n w))) /\
  Forall (fun s => (starts s <= 1)%nat) (run_ticks cls ticks (new_sys cls n w)).
Proof.
  intros frame. apply (run_ticks_forward cls frame ticks (new_sys cls n w)).
  by left.
Qed.

(** ** The lifecycle methods of the modelled classes keep the flags *)



Section Preserves.
Context {E : Type}.

Lemma preserves_ret {A : Type} (a : A) : preserves (E:=E) (ret a).
Proof. intros s. reflexivity. Qed.

Lemma preserves_eval {A : Type} (c : completion A) : preserves (E:=E) (eval c).
Proof. intros s. reflexivity. Qed.

Lemma preserves_get : preserves (E:=E) get.
Proof. intros s. reflexivity. Qed.

Lemma preserves_bind {A B : Type} (m : M (Node E * World) A) (k : A -> M (Node E * World) B) :
  preserves m -> (forall a, preserves (k a)) -> preserves (bind m k).
Proof.
  intros Hm Hk s. unfold bind. specialize (Hm s).
  destruct (m s) as [s1 [a|e]]; cbn in *; [|exact Hm].
  rewrite (Hk a s1). exact Hm.
Qed.

Lemma preserves_try_value_key {A : Type} (m : M (Node E * World) A) (h : exn -> M (Node E * World) A) :
  preserves m -> (forall e, preserves (h e)) -> preserves (try_except_value_key m h).
Proof.
  intros Hm Hh s. unfold try_except_value_key. specialize (Hm s).
  destruct (m s) as [s1 [a|[]]]; cbn in *; try exact Hm;
    match goal with |- context [h ?e s1] => rewrite (Hh e s1); exact Hm end.
Qed.

Lemma preserves_on_snd (f : World -> World) : preserves (E:=E) (modify (on_snd f)).
Proof. intros s. reflexivity. Qed.

Lemma preserves_on_ext (f : E -> E) : preserves (modify (on_ext f)).
Proof. intros s. reflexivity. Qed.

Lemma preserves_on_fst (f : Node E -> Node E) :
  (forall n, flags (f n) = flags n) -> preserves (modify (on_fst f)).
Proof. intros Hf s. apply Hf. Qed.

Lemma preserves_modify (f : Node E * World -> Node E * World) :
  (forall s, flags (fst (f s)) = flags (fst s)) -> preserves (modify f).
Proof. intros Hf s. apply Hf. Qed.

Lemma preserves_pass (t : Q) : preserves (E:=E) (pass t).
Proof. intros s. reflexivity. Qed.

Lemma preserves_publish (topic : string) (msg : payload) : preserves (E:=E) (publish topic msg).
Proof. intros s. reflexivity. Qed.

Lemma preserves_cur_data : preserves (E:=E) cur_data.
Proof. intros s. reflexivity. Qed.

Lemma preserves_keeps (m : Q -> M (Node E * World) unit) :
  (forall t, preserves (m t)) -> keeps_flags m.
Proof.
  intros Hm t s. specialize (Hm t s). unfold flags in Hm.
  split; congruence.
Qed.

End Preserves.

Create HintDb frame.
#[local] Hint Resolve preserves_ret preserves_eval preserves_get preserves_on_snd
  preserves_on_ext preserves_pass preserves_publish preserves_cur_data : frame.

(** Breaks a computation into its steps and closes the steps that the
    hint base knows. *)
Ltac frame_step :=
  match goal with
  | |- preserves (bind _ _) => apply preserves_bind; [|intros ?]
  | |- preserves (try_except_value_key _ _) => apply preserves_try_value_key; [|intros ?]
  | |- preserves (modify (on_fst _)) => apply preserves_on_fst; intros ?; reflexivity
  | |- preserves (modify (fun _ => _)) => apply preserves_modify; intros ?; reflexivity
  | |- preserves (if ?b then _ else _) => destruct b
  | |- preserves (match ?x with _ => _ end) => destruct x
  | |- preserves _ => solve [auto with frame]
  end.

Ltac frame := repeat frame_step.

Section ClassFrames.
Context `{Builtins}.

Lemma preserves_soma_start (t : Q) : preserves (soma_start t).
Proof. unfold soma_start. frame. Qed.

Lemma preserves_soma_stop (t : Q) : preserves (soma_stop t).
Proof. unfold soma_stop. frame. Qed.

Lemma soma_keeps_flags : hooks_keep_flags soma.
Proof.
  split; [|split; [|split]]; apply preserves_keeps; intros t; cbn;
    auto using preserves_soma_start, preserves_soma_stop with frame.
Qed.

Lemma preserves_cancel_timer : preserves cancel_timer.
Proof. unfold cancel_timer. frame. Qed.

Lemma preserves_topic_name : preserves topic_name.
Proof. unfold topic_name. frame. Qed.

Hint Resolve preserves_cancel_timer preserves_topic_name : frame.

Lemma preserves_delete_callback_ref : preserves delete_callback_ref.
Proof. unfold delete_callback_ref. frame. Qed.

Lemma preserves_start_performance : preserves start_performance.
Proof. unfold start_performance. frame. Qed.

Lemma preserves_pause_resume : preserves pause_resume.
Proof. unfold pause_resume. frame. Qed.

Hint Resolve preserves_delete_callback_ref preserves_start_performance
  preserves_pause_resume : frame.

Lemma preserves_event_callback (msg : value) : preserves (event_callback msg).
Proof. unfold event_callback. frame. Qed.

Lemma preserves_arm_timer (q : Q) (tg : timer_target) : preserves (arm_timer q tg).
Proof. unfold arm_timer. frame. Qed.

Hint Resolve preserves_event_callback preserves_arm_timer : frame.

Lemma preserves_start_listening : preserves start_listening.
Proof. unfold start_listening. frame. Qed.

Hint Resolve preserves_start_listening : frame.

Lemma preserves_pause_start (t : Q) : preserves (pause_start t).
Proof. unfold pause_start. frame. Qed.

Lemma preserves_pause_stop (t : Q) : preserves (pause_stop t).
Proof. unfold pause_stop. frame. Qed.

Lemma pause_keeps_flags : hooks_keep_flags pause.
Proof.
  split; [|split; [|split]]; apply preserves_keeps; intros t; cbn;
    auto using preserves_pause_start, preserves_pause_stop with frame.
Qed.

Lemma preserves_chat_pause_resume : preserves chat_pause_resume.
Proof. unfold chat_pause_resume. frame. Qed.

Hint Resolve preserves_chat_pause_resume : frame.

Lemma preserves_deliver_speech (events : list string) : preserves (deliver_speech events).
Proof.
  induction events as [|ev rest IH]; cbn [deliver_speech]; [auto with frame|].
  unfold chat_pause_speech_event_callback. frame.
Qed.

Hint Resolve preserves_deliver_speech : frame.

Lemma preserves_wait_for_speech : preserves wait_for_speech.
Proof. unfold wait_for_speech. frame. Qed.

Hint Resolve preserves_wait_for_speech : frame.

Lemma preserves_chat_pause_start (t : Q) : preserves (chat_pause_start t).
Proof. unfold chat_pause_start. frame. Qed.

Lemma preserves_chat_pause_stop (t : Q) : preserves (chat_pause_stop t).
Proof. unfold chat_pause_stop. frame. Qed.

Lemma chat_pause_keeps_flags : hooks_keep_flags chat_pause.
Proof.
  split; [|split; [|split]]; apply preserves_keeps; intros t; cbn;
    auto using preserves_chat_pause_start, preserves_chat_pause_stop with frame.
Qed.

Lemma preserves_start_chatbot_session : preserves start_chatbot_session.
Proof. unfold start_chatbot_session. frame. Qed.

Lemma preserves_chat_respond (response : value) : preserves (chat_respond response).
Proof. unfold chat_respond. frame. Qed.

Lemma preserves_chat_resume : preserves chat_resume.
Proof. unfold chat_resume. frame. Qed.

Hint Resolve preserves_start_chatbot_session preserves_chat_respond preserves_chat_resume : frame.

Lemma preserves_add_turn : preserves add_turn.
Proof. unfold add_turn. frame. Qed.

Hint Resolve preserves_add_turn : frame.

Lemma preserves_speech_event_callback (event : string) : preserves (speech_event_callback event).
Proof. unfold speech_event_callback. frame. Qed.

Lemma preserves_get_chatbot_response (speech : string) : preserves (get_chatbot_response speech).
Proof. unfold get_chatbot_response. frame. Qed.

Lemma preserves_match_response (pick : nat) (speech : string) : preserves (match_response pick speech).
Proof. unfold match_response. frame. Qed.

Hint Resolve preserves_get_chatbot_response preserves_match_response : frame.

Lemma preserves_input_callback (pick : nat) (speech : string) : preserves (input_callback pick speech).
Proof. unfold input_callback. frame. Qed.

Lemma preserves_chat_start (t : Q) : preserves (chat_start t).
Proof. unfold chat_start. frame. Qed.

Lemma preserves_chat_stop (t : Q) : preserves (chat_stop t).
Proof. unfold chat_stop. frame. Qed.

Lemma preserves_chat_paused (t : Q) : preserves (chat_paused t).
Proof. unfold chat_paused. frame. Qed.

Lemma chat_keeps_flags : hooks_keep_flags chat.
Proof.
  split; [|split; [|split]]; apply preserves_keeps; intros t; cbn;
    auto using preserves_chat_start, preserves_chat_stop, preserves_chat_paused with frame.
Qed.

End ClassFrames.

(** The samples are what the constructors build. *)
Lemma sample_chat_node_init : chat_init (H:=sample_builtins) sample_chat_data = Return sample_chat_node.
Proof. reflexivity. Qed.

Lemma sample_soma_node_init : Node_init (H:=sample_builtins) sample_soma_data tt = Return sample_soma_node.
Proof. reflexivity. Qed.

Lemma run_lifecycle_forward_witness :
  hooks_keep_flags (chat (H:=sample_builtins)) /\
  (forward_chain (phase_of sample_chat_node)
     (map (fun s => phase_of (node s))
        (run_ticks (chat (H:=sample_builtins)) sample_ticks
           (new_sys (chat (H:=sample_builtins)) sample_chat_node sample_world))) /\
   Forall (fun s => (starts s <= 1)%nat)
     (run_ticks (chat (H:=sample_builtins)) sample_ticks
        (new_sys (chat (H:=sample_builtins)) sample_chat_node sample_world))).
Proof.
  split.
  - exact (chat_keeps_flags (H:=sample_builtins)).
  - exact (run_lifecycle_forward (chat (H:=sample_builtins)) sample_chat_node sample_world
             sample_ticks (chat_keeps_flags (H:=sample_builtins))).
Defined.

(** The sample run does go through the three states. *)
Example sample_run_phases :
  map (fun s => phase_of (node s))
    (run_ticks (chat (H:=sample_builtins)) sample_ticks
       (new_sys (chat (H:=sample_builtins)) sample_chat_node sample_world))
  = [Pending; Active; Finished].
Proof. vm_compute. reflexivity. Qed.

(** ** Comparisons *)

Lemma Qltb_lt (a b : Q) : Qltb a b = true <-> (a < b)%Q.
Proof.
  unfold Qltb. rewrite negb_true_iff. split.
  - intros Hb. apply Qnot_le_lt. intros Hle.
    apply Qle_bool_iff in Hle. congruence.
  - intros Hlt. destruct (Qle_bool b a) eqn:Hb; [|reflexivity].
    apply Qle_bool_iff in Hb. exfalso. exact (Qlt_not_le _ _ Hlt Hb).
Qed.

Lemma Qltb_ge (a b : Q) : Qltb a b = false <-> (b <= a)%Q.
Proof.
  unfold Qltb. rewrite negb_false_iff. apply Qle_bool_iff.
Qed.

(** ** Construction-time back-fill *)

Lemma backfill_start_time (c : NodeClass) (p : Q) (n : Node (cls_ext c)) :
  start_time (backfill c p n) = start_time n.
Proof.
  unfold backfill. destruct (Qltb (start_time n) p); [|reflexivity].
  destruct (Qltb p _); reflexivity.
Qed.

Lemma backfill_finished (c : NodeClass) (p : Q) (n : Node (cls_ext c)) :
  (start_time n < p)%Q -> finished (backfill c p n) = true.
Proof.
  intros Hlt. unfold backfill. apply Qltb_lt in Hlt. rewrite Hlt.
  destruct (Qltb p _); reflexivity.
Qed.

Lemma backfill_started (c : NodeClass) (p : Q) (n : Node (cls_ext c)) :
  (start_time n < p)%Q -> (p < end_time c (backfill c p n))%Q ->
  started (backfill c p n) = true.
Proof.
  intros Hlt. unfold backfill. apply Qltb_lt in Hlt. rewrite Hlt.
  destruct (Qltb p (end_time c (set_finished true n))) eqn:Hend; [reflexivity|].
  intros Hp. apply Qltb_lt in Hp. congruence.
Qed.

(** [run] on a finished node: no method is called, nothing changes, and
    the result is [False] for a node that never started and
    [run_time < end_time()] for one that did. *)
Lemma run_finished (cls : NodeClass) (s : Sys cls) (t : Q) :
  finished (node s) = true ->
  run cls t s =
    (s, Return (if started (node s) then Qltb t (end_time cls (node s)) else false)).
Proof.
  intros Hf. unfold run, bind, get, ret. cbn. rewrite Hf.
  by destruct (started (node s)).
Qed.

(** C2. A node that [createNode] builds for a timeline position [p] past
    its start time is finished at once, and is also started when [p] is
    before its end time; for such a node the next [run(p)] calls no
    lifecycle method, so [start] is not invoked, and changes nothing. *)
Theorem createNode_backfill (subClasses : list NodeClass) (d : NodeData) (p : Q)
    (id : string) (w w' : World) (r : AnyNode) :
  createNode subClasses d p id w = (w', Return (Some r)) ->
  let c := projT1 r in
  let n := projT2 r in
  ((start_time n < p)%Q -> finished n = true) /\
  ((start_time n < p)%Q -> (p < end_time c n)%Q -> started n = true) /\
  ((start_time n < p)%Q -> (p < end_time c n)%Q ->
   forall w0 : World,
     run c p (new_sys c n w0) = (new_sys c n w0, Return true) /\
     calls (fst (run c p (new_sys c n w0))) = []).
Proof.
  unfold createNode. destruct (List.find _ subClasses) as [c0|]; [|discriminate].
  unfold bind, eval, ret. destruct (cls_init c0 d) as [n0|e]; [|discriminate].
  intros Heq. injection Heq as _ <-. cbn [projT1 projT2].
  set (n1 := set_id id n0).
  assert (Hst : start_time (backfill c0 p n1) = start_time n1) by apply backfill_start_time.
  split; [|split].
  - rewrite Hst. apply backfill_finished.
  - rewrite Hst. apply backfill_started.
  - rewrite Hst. intros Hlt Hend w0.
    pose proof (backfill_finished c0 p n1 Hlt) as Hf.
    pose proof (backfill_started c0 p n1 Hlt Hend) as Hs.
    rewrite run_finished by exact Hf. cbn [node new_sys fst calls].
    rewrite Hs. apply Qltb_lt in Hend. rewrite Hend. split; reflexivity.
Qed.

Lemma createNode_backfill_witness :
  createNode sample_classes sample_chat_data 3 "n1" sample_world
    = (sample_world,
       Return (Some (existT (chat (H:=sample_builtins)) sample_chat_midspan))) /\
  finished sample_chat_midspan = true /\
  started sample_chat_midspan = true /\
  run (chat (H:=sample_builtins)) 3
      (new_sys (chat (H:=sample_builtins)) sample_chat_midspan sample_world)
    = (new_sys (chat (H:=sample_builtins)) sample_chat_midspan sample_world, Return true).
Proof.
  assert (Hc : createNode sample_classes sample_chat_data 3 "n1" sample_world
               = (sample_world,
                  Return (Some (existT (chat (H:=sample_builtins)) sample_chat_midspan))))
    by reflexivity.
  destruct (createNode_backfill sample_classes sample_chat_data 3 "n1" sample_world
              sample_world (existT (chat (H:=sample_builtins)) sample_chat_midspan) Hc)
    as (Hf & Hs & Hr).
  assert (H1 : (start_time sample_chat_midspan < 3)%Q) by reflexivity.
  assert (H2 : (3 < end_time (chat (H:=sample_builtins)) sample_chat_midspan)%Q) by reflexivity.
  split; [exact Hc|]. split; [exact (Hf H1)|]. split; [exact (Hs H1 H2)|].
  exact (proj1 (Hr H1 H2 sample_world)).
Defined.

(** ** [run] on a finished node *)

(** C3, as amended. On a finished node [run(t)] calls no method and
    changes nothing; it returns inactive when the node never started, and
    for a node that did start it returns active exactly while
    [t < end_time()]. *)
Theorem run_on_finished_node (cls : NodeClass) (s : Sys cls) (t : Q) :
  finished (node s) = true ->
  fst (run cls t s) = s /\
  (started (node s) = false -> snd (run cls t s) = Return false) /\
  (started (node s) = true ->
   snd (run cls t s) = Return (Qltb t (end_time cls (node s)))).
Proof.
  intros Hf. rewrite (run_finished cls s t Hf). cbn [fst snd].
  split; [reflexivity|]. split; intros ->; reflexivity.
Qed.

Lemma run_on_finished_node_witness :
  finished sample_chat_midspan = true /\
  snd (run (chat (H:=sample_builtins)) 3
         (new_sys (chat (H:=sample_builtins)) sample_chat_midspan sample_world))
    = Return (Qltb 3 (end_time (chat (H:=sample_builtins)) sample_chat_midspan)).
Proof.
  split; [reflexivity|].
  exact (proj2 (proj2 (run_on_finished_node (chat (H:=sample_builtins))
                         (new_sys (chat (H:=sample_builtins)) sample_chat_midspan sample_world)
                         3 eq_refl)) eq_refl).
Defined.

(** The wording of section 4.1 fails on the node built in the middle of
    its span: it is finished and started, [3] is before its end time, and
    [run(3)] returns active where the wording has inactive. *)
Lemma run_on_finished_node_counterexample :
  finished sample_chat_midspan = true /\
  ~ finished_run_as_worded (chat (H:=sample_builtins))
      (new_sys (chat (H:=sample_builtins)) sample_chat_midspan sample_world) 3.
Proof.
  split; [reflexivity|]. unfold finished_run_as_worded.
  vm_compute. discriminate.
Qed.

(** The other half of the wording fails as well: a node that is finished
    and never started reports inactive before its end time. *)
Example run_on_skipped_node :
  let n := set_finished true sample_chat_node in
  started n = false /\
  Qltb 2 (end_time (chat (H:=sample_builtins)) n) = true /\
  snd (run (chat (H:=sample_builtins)) 2 (new_sys (chat (H:=sample_builtins)) n sample_world))
    = Return false.
Proof. repeat split. Qed.

(** ** Exceptions in the lifecycle methods *)

Section HookExceptions.
Variable cls : NodeClass.

(** An exception of [start] is caught and logged: the node is marked
    started and [run] returns active. *)
Lemma run_start_exception_caught (s : Sys cls) (t : Q) (e : exn)
    (n1 : Node (cls_ext cls)) (w1 : World) :
  finished (node s) = false -> started (node s) = false ->
  (start_time (node s) < t)%Q ->
  start cls t (node s, world s) = ((n1, w1), Raise e) ->
  run cls t s =
    (mkSys (set_started_at (now w1) (set_started true n1)) (emit (LogError e) w1)
       (calls s ++ [HStart]),
     Return true).
Proof.
  intros Hf Hs Hlt Hstart. apply Qltb_lt in Hlt.
  unfold run, bind, get, ret, modify, try_except, log_error, invoke. cbn.
  rewrite Hf, Hs, Hlt, Hstart. reflexivity.
Qed.

(** An exception of [stop] leaves [run] with the node not marked
    finished. *)
Lemma run_stop_exception_escapes (s : Sys cls) (t : Q) (e : exn)
    (n1 : Node (cls_ext cls)) (w1 : World) :
  finished (node s) = false -> started (node s) = true ->
  (end_time cls (node s) <= t)%Q ->
  stop cls t (node s, world s) = ((n1, w1), Raise e) ->
  run cls t s = (mkSys n1 w1 (calls s ++ [HStop]), Raise e).
Proof.
  intros Hf Hs Hle Hstop. apply Qle_bool_iff in Hle.
  unfold run, bind, get, ret, modify, invoke. cbn.
  rewrite Hf, Hs, Hle, Hstop. reflexivity.
Qed.

(** So do the exceptions of [cont] and [paused]. *)
Lemma run_cont_exception_escapes (s : Sys cls) (t : Q) (e : exn)
    (n1 : Node (cls_ext cls)) (w1 : World) :
  finished (node s) = false -> started (node s) = true ->
  (t < end_time cls (node s))%Q -> runner_paused (world s) = false ->
  cont cls t (node s, world s) = ((n1, w1), Raise e) ->
  run cls t s = (mkSys n1 w1 (calls s ++ [HCont]), Raise e).
Proof.
  intros Hf Hs Hlt Hp Hcont. apply Qltb_lt in Hlt. unfold Qltb in Hlt.
  apply negb_true_iff in Hlt.
  unfold run, bind, get, ret, modify, invoke. cbn.
  rewrite Hf, Hs, Hlt, Hp, Hcont. reflexivity.
Qed.

Lemma run_paused_exception_escapes (s : Sys cls) (t : Q) (e : exn)
    (n1 : Node (cls_ext cls)) (w1 : World) :
  finished (node s) = false -> started (node s) = true ->
  (t < end_time cls (node s))%Q -> runner_paused (world s) = true ->
  paused cls t (node s, world s) = ((n1, w1), Raise e) ->
  run cls t s = (mkSys n1 w1 (calls s ++ [HPaused]), Raise e).
Proof.
  intros Hf Hs Hlt Hp Hpaused. apply Qltb_lt in Hlt. unfold Qltb in Hlt.
  apply negb_true_iff in Hlt.
  unfold run, bind, get, ret, modify, invoke. cbn.
  rewrite Hf, Hs, Hlt, Hp, Hpaused. reflexivity.
Qed.

End HookExceptions.

(** C4, on a [soma] node whose description lacks the key [soma]. The
    [KeyError] of [start] is caught and logged, the node is started and
    [run(1/2)] returns active.  The same [KeyError] in [stop] is not
    caught: [run(2)] raises it, the node is not marked finished, and the
    next call raises again. *)
Theorem run_stop_exception_soma :
  let s0 := new_sys (soma (H:=sample_builtins)) sample_soma_node sample_world in
  let r1 := run (soma (H:=sample_builtins)) (1 # 2) s0 in
  let r2 := run (soma (H:=sample_builtins)) 2 (fst r1) in
  let r3 := run (soma (H:=sample_builtins)) 3 (fst r2) in
  snd r1 = Return true /\
  started (node (fst r1)) = true /\
  trace (world (fst r1)) = [LogError (KeyError "soma")] /\
  snd r2 = Raise (KeyError "soma") /\
  finished (node (fst r2)) = false /\
  snd r3 = Raise (KeyError "soma") /\
  finished (node (fst r3)) = false /\
  calls (fst r3) = [HStart; HStop; HStop].
Proof. vm_compute. repeat split. Qed.

(** ** Keyword matching of [pause] *)

Lemma strip_blank (s : string) : Str.is_blank s = true -> Str.strip s = "".
Proof.
  unfold Str.strip. induction s as [|c s IH]; cbn; [reflexivity|].
  intros Hb. apply andb_true_iff in Hb as [Hc Hs]. rewrite Hc. auto.
Qed.

Lemma index_empty (s : string) : Str.index "" s = Return O.
Proof. unfold Str.index. destruct s; reflexivity. Qed.

Section EventMatched.
Context `{Builtins}.


Lemma matched_stays (text : string) (params : list string) :
  fold_left (matched_step text) params true = true.
Proof.
  induction params as [|p ps IH]; cbn; [reflexivity|].
  unfold matched_step at 2. destruct (Str.index _ _); exact IH.
Qed.

Lemma matched_by_blank (text : string) (params : list string) (b : bool) :
  existsb Str.is_blank params = true ->
  fold_left (matched_step text) params b = true.
Proof.
  revert b. induction params as [|p ps IH]; cbn; [discriminate|].
  intros b Hex. apply orb_true_iff in Hex as [Hp|Hps].
  - unfold matched_step at 2. rewrite (strip_blank p Hp), index_empty.
    apply matched_stays.
  - apply IH, Hps.
Qed.

(** C10. [event_matched(param, msg)] is true for every message, [None]
    and the empty string included, as soon as one entry of the
    comma-separated list [param] is empty or made of whitespace only. *)
Theorem event_matched_blank_entry (param msg : value) :
  existsb Str.is_blank (Str.split "," (Str.lower (py_str param))) = true ->
  event_matched param msg = true.
Proof.
  intros Hex. unfold event_matched.
  exact (matched_by_blank _ _ false Hex).
Qed.

End EventMatched.

Lemma event_matched_blank_entry_witness :
  existsb Str.is_blank
    (Str.split "," (Str.lower (py_str (H:=sample_builtins) (VStr "Hello, ,World")))) = true /\
  event_matched (H:=sample_builtins) (VStr "Hello, ,World") VNone = true /\
  event_matched (H:=sample_builtins) (VStr "Hello, ,World") (VStr "") = true.
Proof.
  split; [reflexivity|]. split.
  - exact (event_matched_blank_entry (H:=sample_builtins) (VStr "Hello, ,World") VNone eq_refl).
  - exact (event_matched_blank_entry (H:=sample_builtins) (VStr "Hello, ,World") (VStr "") eq_refl).
Defined.

(** Without a blank entry the keywords do decide. *)
Example event_matched_keywords :
  event_matched (H:=sample_builtins) (VStr "Hello,World") (VStr "say HELLO to her") = true /\
  event_matched (H:=sample_builtins) (VStr "Hello,World") (VStr "good morning") = false /\
  event_matched (H:=sample_builtins) (VStr "Hello,World") VNone = false.
Proof. repeat split. Qed.

(** ** Variable substitution *)

Local Open Scope string_scope.

Lemma append_cons (x : ascii) (a b : string) : String x a ++ b = String x (a ++ b).
Proof. reflexivity. Qed.

Lemma append_nil (b : string) : "" ++ b = b.
Proof. reflexivity. Qed.

Lemma append_assoc (a b c : string) : (a ++ b) ++ c = a ++ (b ++ c).
Proof.
  induction a as [|x a IH]; [reflexivity|].
  rewrite !append_cons. by rewrite IH.
Qed.

Lemma length_append (a b : string) :
  String.length (a ++ b) = (String.length a + String.length b)%nat.
Proof.
  induction a as [|x a IH]; [reflexivity|].
  rewrite append_cons. cbn [String.length]. by rewrite IH.
Qed.

Lemma prefix_append (a b : string) : String.prefix a (a ++ b) = true.
Proof.
  induction a as [|x a IH]; [by destruct b|].
  rewrite append_cons. cbn [String.prefix].
  destruct (Ascii.ascii_dec x x); [exact IH|congruence].
Qed.

Lemma prefix_other_head (c x : ascii) (old s : string) :
  Ascii.eqb x c = false -> String.prefix (String c old) (String x s) = false.
Proof.
  intros Hne. cbn [String.prefix]. destruct (Ascii.ascii_dec c x) as [->|]; [|reflexivity].
  rewrite Ascii.eqb_refl in Hne. discriminate.
Qed.

Lemma word_not_close (c : ascii) : Re.is_word c = true -> Ascii.eqb c "}" = false.
Proof.
  intros Hw. destruct (Ascii.eqb c "}") eqn:Heq; [|reflexivity].
  apply Ascii.eqb_eq in Heq. subst c. discriminate.
Qed.

(** A text without closing brace holds no token. *)
Lemma group_without_close (s : string) : Str.has_char "}" s = false -> Re.group s = None.
Proof.
  induction s as [|c s IH]; cbn; [reflexivity|].
  intros Hc. apply orb_false_iff in Hc as [Hc Hs]. rewrite Hc.
  destruct (Re.is_word c); [|reflexivity]. by rewrite IH.
Qed.

Lemma findall_without_close (s : string) (k : nat) :
  Str.has_char "}" s = false -> Re.findall_from k s = [].
Proof.
  revert k. induction s as [|c s IH]; intros k; cbn; [reflexivity|].
  intros Hc. apply orb_false_iff in Hc as [Hc Hs].
  destruct k; [|by apply IH].
  destruct (Ascii.eqb c "{"); [|by apply IH].
  rewrite group_without_close by exact Hs. by apply IH.
Qed.

Lemma findall_without_open (s : string) :
  Str.has_char "{" s = false -> Re.findall_from O s = [].
Proof.
  induction s as [|c s IH]; cbn; [reflexivity|].
  intros Hc. apply orb_false_iff in Hc as [Hc Hs]. rewrite Hc. by apply IH.
Qed.

(** The group of a well-formed token is its name. *)
Lemma group_of_token (name rest : string) :
  Re.all_word name = true -> Re.group (name ++ String "}" rest) = Some name.
Proof.
  induction name as [|c name IH]; [reflexivity|].
  intros Hw. cbn [Re.all_word] in Hw. apply andb_true_iff in Hw as [Hc Hn].
  rewrite append_cons. cbn [Re.group].
  rewrite (word_not_close c Hc), Hc, IH by exact Hn. reflexivity.
Qed.

Lemma findall_skip (a b : string) (k : nat) :
  Re.findall_from (String.length a + k) (a ++ b) = Re.findall_from k b.
Proof. induction a as [|x a IH]; [reflexivity|]. rewrite append_cons. exact IH. Qed.

Lemma replace_skip (old new a b : string) (k : nat) :
  Str.replace_from old new (String.length a + k) (a ++ b) = Str.replace_from old new k b.
Proof. induction a as [|x a IH]; [reflexivity|]. rewrite append_cons. exact IH. Qed.

Lemma replace_without_open (old new s : string) :
  Str.has_char "{" s = false ->
  Str.replace_from (String "{" old) new O s = s.
Proof.
  induction s as [|c s IH]; [reflexivity|].
  intros Hc. cbn in Hc. apply orb_false_iff in Hc as [Hc Hs].
  cbn [Str.replace_from]. rewrite (prefix_other_head "{" c old s Hc).
  by rewrite IH.
Qed.

(** A text [pre{name}post] with no other opening brace holds one
    token. *)
Lemma findall_single_token (pre name post : string) :
  Str.has_char "{" pre = false -> Re.all_word name = true ->
  Str.has_char "{" post = false ->
  Re.findall (pre ++ String "{" (name ++ String "}" post)) = [name].
Proof.
  intros Hpre Hname Hpost. unfold Re.findall.
  induction pre as [|c p IH].
  - rewrite append_nil. cbn [Re.findall_from]. rewrite Ascii.eqb_refl.
    rewrite group_of_token by exact Hname.
    f_equal.
    change (String "}" post) with ("}" ++ post).
    rewrite <- append_assoc.
    replace (S (String.length name)) with (String.length (name ++ "}") + 0)%nat
      by (rewrite length_append; cbn; lia).
    rewrite findall_skip. by apply findall_without_open.
  - cbn [Str.has_char] in Hpre. apply orb_false_iff in Hpre as [Hc Hp].
    rewrite append_cons. cbn [Re.findall_from]. rewrite Hc. by apply IH.
Qed.

Lemma replace_from_head (old new : string) (c : ascii) (s : string) :
  Str.replace_from old new O (String c s) =
  if String.prefix old (String c s)
  then new ++ Str.replace_from old new (String.length old - 1) s
  else String c (Str.replace_from old new O s).
Proof. reflexivity. Qed.

(** [replace] on that text puts the new string in the place of the
    token and looks at nothing else. *)
Lemma replace_single_token (pre name post new : string) :
  Str.has_char "{" pre = false -> Str.has_char "{" post = false ->
  Str.replace ("{" ++ name ++ "}") new (pre ++ String "{" (name ++ String "}" post))
  = pre ++ new ++ post.
Proof.
  intros Hpre Hpost. unfold Str.replace.
  change ("{" ++ name ++ "}") with (String "{" (name ++ "}")).
  induction pre as [|c p IH].
  - rewrite !append_nil.
    change (String "}" post) with ("}" ++ post).
    rewrite <- append_assoc, replace_from_head.
    change (String "{" ((name ++ "}") ++ post)) with (String "{" (name ++ "}") ++ post).
    rewrite prefix_append.
    f_equal.
    replace (String.length (String "{" (name ++ "}")) - 1)%nat
      with (String.length (name ++ "}") + 0)%nat by (cbn [String.length]; lia).
    rewrite replace_skip. by apply replace_without_open.
  - cbn [Str.has_char] in Hpre. apply orb_false_iff in Hpre as [Hc Hp].
    rewrite !append_cons, replace_from_head.
    rewrite (prefix_other_head "{" c _ _ Hc). by rewrite IH.
Qed.

(** C8, as amended. A text that holds one token, [pre{name}post], comes
    back with the value of the variable in the place of the token, the
    empty string for a variable that does not resolve, and the value put in
    is not looked at again.  A text without a closing brace, such as one
    with a single opening brace, comes back unchanged.  When the text
    holds several tokens, their names are taken from the original text and
    replaced one after the other, each in the whole of the text as it then
    stands. *)
Theorem replace_variables_text_spec {E : Type} (self : Node E) (w : World) :
  (forall pre name post : string,
     Str.has_char "{" pre = false -> Re.all_word name = true ->
     Str.has_char "{" post = false ->
     replace_variables_text self w (pre ++ "{" ++ name ++ "}" ++ post)
     = pre ++ variable_or_empty self w name ++ post) /\
  (forall name : string,
     variables w (node_id self) name = None -> variable_or_empty self w name = "") /\
  (forall name val : string,
     variables w (node_id self) name = Some val -> variable_or_empty self w name = val) /\
  (forall text : string,
     Str.has_char "}" text = false -> replace_variables_text self w text = text) /\
  (forall (text var : string) (rest : list string),
     Re.findall text = var :: rest ->
     replace_variables_text self w text
     = fold_left
         (fun text var =>
            Str.replace ("{" ++ var ++ "}") (variable_or_empty self w var) text)
         rest
         (Str.replace ("{" ++ var ++ "}") (variable_or_empty self w var) text)).
Proof.
  split; [|split; [|split; [|split]]].
  - intros pre name post Hpre Hname Hpost. unfold replace_variables_text.
    change (pre ++ "{" ++ name ++ "}" ++ post)
      with (pre ++ String "{" (name ++ String "}" post)).
    rewrite (findall_single_token pre name post Hpre Hname Hpost).
    cbn [fold_left]. by apply replace_single_token.
  - intros name Hv. unfold variable_or_empty. by rewrite Hv.
  - intros name val Hv. unfold variable_or_empty. by rewrite Hv.
  - intros text Hc. unfold replace_variables_text, Re.findall.
    by rewrite (findall_without_close text O Hc).
  - intros text var rest Hf. unfold replace_variables_text. by rewrite Hf.
Qed.

Lemma replace_variables_text_witness :
  replace_variables_text sample_chat_node sample_world "hello {name}" = "hello bot" /\
  replace_variables_text sample_chat_node bare_world "hello {name}" = "hello " /\
  replace_variables_text sample_chat_node sample_world "hello {name" = "hello {name".
Proof.
  split; [|split].
  - exact (proj1 (replace_variables_text_spec sample_chat_node sample_world)
             "hello " "name" "" eq_refl eq_refl eq_refl).
  - exact (proj1 (replace_variables_text_spec sample_chat_node bare_world)
             "hello " "name" "" eq_refl eq_refl eq_refl).
  - exact (proj1 (proj2 (proj2 (proj2
             (replace_variables_text_spec sample_chat_node sample_world))))
             "hello {name" eq_refl).
Defined.

(** The substitution is not the single pass of section 4.5: the value
    ["{b}"] put in for [a] is itself replaced when the name [b] comes. *)
Lemma replace_variables_text_counterexample :
  replace_variables_text sample_chat_node nested_world "{a}{b}" = "zz" /\
  substitute_single_pass sample_chat_node nested_world "{a}{b}" = "{b}z" /\
  replace_variables_text sample_chat_node nested_world "{a}{b}"
    <> substitute_single_pass sample_chat_node nested_world "{a}{b}".
Proof. repeat split. vm_compute. discriminate. Qed.

(** On a text with one token the two agree. *)
Lemma single_pass_single_token {E : Type} (self : Node E) (w : World)
    (pre name post : string) :
  Str.has_char "{" pre = false -> Re.all_word name = true ->
  Str.has_char "{" post = false ->
  substitute_single_pass self w (pre ++ "{" ++ name ++ "}" ++ post)
  = pre ++ variable_or_empty self w name ++ post.
Proof.
  intros Hpre Hname Hpost. unfold substitute_single_pass.
  change (pre ++ "{" ++ name ++ "}" ++ post)
    with (pre ++ String "{" (name ++ String "}" post)).
  induction pre as [|c p IH].
  - rewrite !append_nil. cbn [single_pass_from]. rewrite Ascii.eqb_refl.
    rewrite group_of_token by exact Hname. f_equal.
    change (String "}" post) with ("}" ++ post).
    rewrite <- append_assoc.
    replace (S (String.length name)) with (String.length (name ++ "}") + 0)%nat
      by (rewrite length_append; cbn; lia).
    clear Hname. generalize (name ++ "}"). intros a.
    induction a as [|x a IHa].
    + rewrite append_nil. cbn [String.length Nat.add].
      induction post as [|y q IHq]; [reflexivity|].
      cbn [Str.has_char] in Hpost. apply orb_false_iff in Hpost as [Hy Hq].
      cbn [single_pass_from]. rewrite Hy. by rewrite IHq.
    + rewrite append_cons. exact IHa.
  - cbn [Str.has_char] in Hpre. apply orb_false_iff in Hpre as [Hc Hp].
    rewrite !append_cons. cbn [single_pass_from]. rewrite Hc. by rewrite IH.
Qed.

(** ** Region sampling *)

Section Sampling.
Import attention.

(** One region of positive extent: its segment is the whole length, the
    region is the only match, and the position is the draw mapped
    linearly onto the region. *)
Lemma single_region_position (u : Q) (r : Region) (axis : Axis) :
  (0 <= u)%Q -> (u < 1)%Q -> (0 < extent axis r)%Q ->
  exists pos : Q,
    get_random_axis_position u [r] axis = Return (pos, [r]) /\
    (pos == coord axis r + extent axis r * u)%Q.
Proof.
  intros Hu0 Hu1 He. unfold get_random_axis_position.
  cbn [sorted fold_right insert_by fold_left].
  unfold walk_step. cbn [prev_end length lengths].
  set (b := coord axis r) in *. set (e := extent axis r) in *.
  assert (H1 : Qltb b b = false) by (apply Qltb_ge; lra).
  rewrite H1.
  assert (H2 : Qltb 0 (b + e - b) = true) by (apply Qltb_lt; lra).
  unfold py_max at 2. rewrite H2. cbn [length lengths app combine select].
  unfold select_step. cbn [fst snd].
  assert (H3 : Qle_bool 0 (u * (0 + (b + e - b))) = true)
    by (apply Qle_bool_iff; nra).
  assert (H4 : Qle_bool (u * (0 + (b + e - b))) (0 + (b + e) - b) = true)
    by (apply Qle_bool_iff; nra).
  rewrite H3, H4. cbn [andb].
  change (Qeq_bool 0 0) with true. cbn iota.
  assert (H5 : Qeq_bool (0 + (b + e) - b - 0) 0 = false).
  { destruct (Qeq_bool _ _) eqn:Hq; [|reflexivity]. apply Qeq_bool_iff in Hq. lra. }
  rewrite H5. eexists. split; [reflexivity|].
  fold b e. field. lra.
Qed.

(** C7. Over the single region [{x: 0, y: 0, width: 10, height: 10,
    type: A}] and for every draw [u] in [0, 1), the axis sampling returns
    the position [10 * u], which lies in [0, 10), and the one-element list
    of that region; so does the horizontal pass of
    [get_point_from_regions], on the dictionary it makes of the region. *)
Theorem single_region_sampling (u : Q) (axis : Axis) :
  (0 <= u)%Q -> (u < 1)%Q ->
  (exists pos : Q,
     get_random_axis_position u [sample_region] axis = Return (pos, [sample_region]) /\
     (pos == 10 * u)%Q /\ (0 <= pos)%Q /\ (pos < 10)%Q) /\
  regions_of_type [sample_region] "A" = Return [sample_region_moved] /\
  (exists pos : Q,
     get_random_axis_position u [sample_region_moved] AxisX
       = Return (pos, [sample_region_moved]) /\
     (pos == 10 * u)%Q /\ (0 <= pos)%Q /\ (pos < 10)%Q).
Proof.
  intros Hu0 Hu1. split; [|split; [reflexivity|]].
  - destruct (single_region_position u sample_region axis Hu0 Hu1) as (pos & Hpos & Heq).
    { destruct axis; reflexivity. }
    exists pos. split; [exact Hpos|].
    assert (Hp : (pos == 10 * u)%Q) by (rewrite Heq; destruct axis; cbn; lra).
    split; [exact Hp|]. rewrite Hp. split; lra.
  - destruct (single_region_position u sample_region_moved AxisX Hu0 Hu1) as (pos & Hpos & Heq).
    { reflexivity. }
    exists pos. split; [exact Hpos|].
    assert (Hp : (pos == 10 * u)%Q) by (rewrite Heq; cbn; lra).
    split; [exact Hp|]. rewrite Hp. split; lra.
Qed.

(** The point that comes out for the two draws [u1] and [u2]: the
    horizontal position negated, and a height below the base line. *)
Lemma single_region_point (u1 u2 : Q) :
  (0 <= u1)%Q -> (u1 < 1)%Q -> (0 <= u2)%Q -> (u2 < 1)%Q ->
  exists p : Point,
    get_point_from_regions u1 u2 [sample_region] "A" = Return p /\
    (point_x p == 1)%Q /\ (point_y p == - (10 * u1))%Q /\
    (point_z p == 10 * u2 - 10)%Q.
Proof.
  intros Ha0 Ha1 Hb0 Hb1. unfold get_point_from_regions.
  change (regions_of_type [sample_region] "A") with (Return (A:=list Region) [sample_region_moved]).
  cbn iota.
  destruct (single_region_position u1 sample_region_moved AxisX Ha0 Ha1) as (y1 & Hy & Hyeq);
    [reflexivity|].
  destruct (single_region_position u2 sample_region_moved AxisY Hb0 Hb1) as (z1 & Hz & Hzeq);
    [reflexivity|].
  rewrite Hy, Hz. eexists. split; [reflexivity|]. cbn [point_x point_y point_z].
  split; [reflexivity|]. split.
  - rewrite Hyeq. cbn. lra.
  - rewrite Hzeq. cbn. lra.
Qed.

End Sampling.

Lemma single_region_sampling_witness :
  (0 <= 1 # 2)%Q /\ (1 # 2 < 1)%Q /\
  exists pos : Q,
    attention.get_random_axis_position (1 # 2) [sample_region] attention.AxisX
      = Return (pos, [sample_region]) /\
    (pos == 10 * (1 # 2))%Q /\ (0 <= pos)%Q /\ (pos < 10)%Q.
Proof.
  assert (H0 : (0 <= 1 # 2)%Q) by (vm_compute; discriminate).
  assert (H1 : (1 # 2 < 1)%Q) by reflexivity.
  split; [exact H0|]. split; [exact H1|].
  exact (proj1 (single_region_sampling (1 # 2) attention.AxisX H0 H1)).
Defined.

(** ** The two triggers of [pause] *)

Lemma sample_pause_node_init :
  pause_init (H:=sample_builtins) sample_pause_data = Return sample_pause_node.
Proof. reflexivity. Qed.

Lemma existsb_filter_negb {A : Type} (f : A -> bool) (l : list A) :
  existsb f (List.filter (fun a => negb (f a)) l) = false.
Proof.
  induction l as [|a l IH]; [reflexivity|].
  cbn. destruct (f a) eqn:Hf; cbn; [exact IH|]. by rewrite Hf, IH.
Qed.

Lemma unregister_not_registered (topic : string) (tok : nat) (w : World) :
  is_registered topic tok (runner_unregister topic tok w) = false.
Proof. unfold is_registered, runner_unregister. cbn. apply existsb_filter_negb. Qed.

Section PauseTriggers.
Context `{Builtins}.
Variables (d : NodeData) (dur st : Q) (sd : bool) (sa : Q) (fi : bool) (i : string).
Variables (tok : nat) (tm : Timer) (w : World).
Variables (tv ep oe : value).
Hypothesis topic_set : fields d !! "topic" = Some tv.
Hypothesis event_param_set : fields d !! "event_param" = Some ep.
Hypothesis on_event_set : fields d !! "on_event" = Some oe.

(** A [pause] node with its listener registered under [tok] and its
    timer [tm] armed. *)
Let self : Node pause_ext := mkNode d dur st sd sa fi i (mkPause (Some tok) (Some tm)).
Let topic : string := Str.strip (py_str (py_or tv (VStr ""))).
Let stopped : Timer := mkTimer (interval tm) (target tm) true.

Lemma event_callback_accepted (msg : value) :
  truthy ep && negb (event_matched ep msg) = false ->
  let s' := fst (event_callback msg (self, w)) in
  ext (fst s') = mkPause None (Some stopped) /\
  is_registered topic tok (snd s') = false /\
  In (RunnerUnregister topic tok) (trace (snd s')) /\
  In TimerCancel (trace (snd s')).
Proof.
  intros Hacc. unfold self, topic, stopped.
  unfold event_callback, delete_callback_ref, topic_name, cur_data, start_performance,
    pause_resume, cancel_timer, bind, get, ret, modify, eval, getitem, has_key,
    on_fst, on_snd.
  cbn. rewrite topic_set. cbn. rewrite event_param_set. cbn. rewrite Hacc, on_event_set. cbn.
  destruct (truthy oe); cbn.
  - destruct (fields d !! "break") as [b|]; cbn; [destruct (truthy b); cbn|];
      rewrite ?on_event_set; cbn;
      (split; [reflexivity|]); (split; [apply existsb_filter_negb|]);
      rewrite !in_app_iff; cbn; tauto.
  - destruct fi; cbn;
      (split; [reflexivity|]); (split; [apply existsb_filter_negb|]);
      rewrite !in_app_iff; cbn; tauto.
Qed.

Lemma pause_resume_armed :
  pause_resume (self, w) =
    ((mkNode d dur st sd sa fi i (mkPause (Some tok) (Some stopped)),
      emit TimerCancel (if fi then w else runner_resume w)),
     Return tt).
Proof.
  unfold self, stopped, pause_resume, cancel_timer, bind, get, ret, modify, on_fst, on_snd.
  cbn. destruct fi; reflexivity.
Qed.

Lemma pause_stop_armed (t : Q) :
  pause_stop t (self, w) =
    ((mkNode d dur st sd sa fi i (mkPause None (Some stopped)),
      emit TimerCancel (runner_unregister topic tok w)),
     Return tt).
Proof.
  unfold self, stopped, topic, pause_stop, delete_callback_ref, topic_name, cur_data,
    cancel_timer, bind, get, ret, modify, eval, getitem, on_fst, on_snd.
  cbn. rewrite topic_set. reflexivity.
Qed.

Lemma timer_fires_resume :
  target tm = CallResume -> cancelled tm = false ->
  timer_fires (self, w) = pause_resume (self, w).
Proof.
  intros Htg Hc. unfold timer_fires at 1, bind at 1, get at 1. cbn.
  by rewrite Hc, Htg.
Qed.

End PauseTriggers.

(** C6, as amended. On a [pause] node with a listener registered and a
    timer armed: the channel callback [event_callback], for a message that
    the keyword filter lets through, unregisters the listener and cancels
    the timer; the callback of the timer, [resume], cancels the timer and
    resumes the runner of an unfinished node, and leaves the listener
    registered; the listener then goes when the channel callback runs or
    when [stop] does. *)
Theorem pause_tie_break `{Builtins} (n : Node pause_ext) (w : World) (tok : nat)
    (tm : Timer) (tv ep oe : value) :
  event_callback_ref (ext n) = Some tok ->
  timer (ext n) = Some tm ->
  fields (data n) !! "topic" = Some tv ->
  fields (data n) !! "event_param" = Some ep ->
  fields (data n) !! "on_event" = Some oe ->
  let topic := Str.strip (py_str (py_or tv (VStr ""))) in
  (forall msg : value,
     truthy ep && negb (event_matched ep msg) = false ->
     let s' := fst (event_callback msg (n, w)) in
     timer_stopped s' = true /\ listener_dropped s' = true /\
     is_registered topic tok (snd s') = false) /\
  (let s' := fst (pause_resume (n, w)) in
   timer_stopped s' = true /\
   event_callback_ref (ext (fst s')) = Some tok /\
   listeners (snd s') = listeners w /\
   trace (snd s') = (trace w ++ (if finished n then [] else [RunnerResume]) ++ [TimerCancel])%list) /\
  (target tm = CallResume -> cancelled tm = false ->
   timer_fires (n, w) = pause_resume (n, w)) /\
  (forall t : Q,
     let s' := fst (pause_stop t (n, w)) in
     timer_stopped s' = true /\ listener_dropped s' = true /\
     is_registered topic tok (snd s') = false).
Proof.
  intros Hr Ht Htv Hep Hoe.
  destruct n as [d du st sd sa fi i [r t]]. cbn in Hr, Ht, Htv, Hep, Hoe. subst r t.
  cbn zeta. split; [|split; [|split]].
  - intros msg Hacc.
    destruct (event_callback_accepted d du st sd sa fi i tok tm w tv ep oe Htv Hep Hoe msg Hacc)
      as (Hext & Hreg & _).
    unfold timer_stopped, listener_dropped. rewrite Hext. cbn. auto.
  - rewrite pause_resume_armed. cbn. unfold timer_stopped. cbn.
    destruct fi; cbn; rewrite <- ?app_assoc; auto.
  - apply timer_fires_resume.
  - intros t0. rewrite (pause_stop_armed d du st sd sa fi i tok tm w tv Htv).
    unfold timer_stopped, listener_dropped. cbn.
    split; [reflexivity|]. split; [reflexivity|]. apply existsb_filter_negb.
Qed.

Lemma pause_tie_break_witness :
  both_armed sample_pause_armed = true /\
  (let s' := fst (event_callback (H:=sample_builtins) (VStr "go") sample_pause_armed) in
   timer_stopped s' = true /\ listener_dropped s' = true /\
   is_registered "speech" 1 (snd s') = false) /\
  (let s' := fst (pause_resume sample_pause_armed) in
   timer_stopped s' = true /\ event_callback_ref (ext (fst s')) = Some 1%nat).
Proof.
  pose proof (pause_tie_break (H:=sample_builtins) (fst sample_pause_armed)
                (snd sample_pause_armed) 1 (mkTimer 5 CallResume false)
                (VStr "speech") (VBool false) (VBool false)
                eq_refl eq_refl eq_refl eq_refl eq_refl) as (Hev & Hres & _).
  split; [reflexivity|]. split.
  - exact (Hev (VStr "go") eq_refl).
  - split; [exact (proj1 Hres) | exact (proj1 (proj2 Hres))].
Defined.

(** The worded tie-break fails for the timer: on the sample node, with
    both triggers armed, the timer fires, and the listener is still held
    by the node and still registered with the runner; a message on the
    channel then resumes the runner a second time. *)
Lemma pause_tie_break_counterexample :
  both_armed sample_pause_armed = true /\
  ~ timer_cancels_listener (H:=sample_builtins) sample_pause_armed.
Proof.
  split; [reflexivity|]. unfold timer_cancels_listener. vm_compute. discriminate.
Qed.

Example listener_outlives_timer :
  let s1 := fst (timer_fires (H:=sample_builtins) sample_pause_armed) in
  let s2 := fst (event_callback (H:=sample_builtins) (VStr "go") s1) in
  is_registered "speech" 1 (snd s1) = true /\
  count is_runner_resume (trace (snd s1)) = 1%nat /\
  count is_runner_resume (trace (snd s2)) = 2%nat.
Proof. repeat split. Qed.

(** ** The dialogue of [chat] *)

Section Pure.
Context {S : Type}.

Lemma pure_ret {A : Type} (a : A) : pure (S:=S) (ret a).
Proof. intros s. reflexivity. Qed.

Lemma pure_eval {A : Type} (c : completion A) : pure (S:=S) (eval c).
Proof. intros s. reflexivity. Qed.

Lemma pure_get : pure (S:=S) get.
Proof. intros s. reflexivity. Qed.

Lemma pure_bind {A B : Type} (m : M S A) (k : A -> M S B) :
  pure m -> (forall a, pure (k a)) -> pure (bind m k).
Proof.
  intros Hm Hk s. unfold bind. specialize (Hm s).
  destruct (m s) as [s1 [a|e]]; cbn in *; subst s1; [apply Hk | reflexivity].
Qed.

End Pure.

Lemma pure_cur_data {E : Type} : pure (cur_data (E:=E)).
Proof. intros s. reflexivity. Qed.

#[local] Hint Resolve pure_ret pure_eval pure_get pure_cur_data : frame.

Ltac pure_step :=
  match goal with
  | |- pure (bind _ _) => apply pure_bind; [|intros ?]
  | |- pure (if ?b then _ else _) => destruct b
  | |- pure (match ?x with _ => _ end) => destruct x
  | |- pure _ => solve [auto with frame]
  end.

Section ChatDialogue.
Context `{Builtins}.

Lemma pure_get_chatbot_response (speech : string) : pure (get_chatbot_response speech).
Proof. unfold get_chatbot_response. repeat pure_step. Qed.

Lemma pure_match_response (pick : nat) (speech : string) : pure (match_response pick speech).
Proof. unfold match_response. repeat pure_step. Qed.

(** An input that is answered is answered by [respond]. *)
Lemma input_callback_responds (pick : nat) (speech : string) (s : Node chat_ext * World) :
  snd (input_callback pick speech s) = Return tt ->
  exists response : value, input_callback pick speech s = chat_respond response s.
Proof.
  unfold input_callback, bind at 1, get. cbn.
  set (m := if truthy (enable_chatbot (ext (fst s)))
            then get_chatbot_response speech else match_response pick speech).
  assert (Hp : pure m).
  { unfold m. destruct (truthy _);
      [apply pure_get_chatbot_response | apply pure_match_response]. }
  unfold bind. specialize (Hp s). destruct (m s) as [s1 [v|e]]; cbn in *; subst s1.
  - intros _. by exists v.
  - discriminate.
Qed.

Lemma count_app (p : effect -> bool) (l l' : list effect) :
  count p (l ++ l')%list = (count p l + count p l')%nat.
Proof. unfold count. by rewrite List.filter_app, List.length_app. Qed.

Lemma chat_respond_run (response : value) (n : Node chat_ext) (w : World) :
  chat_respond response (n, w) =
    ((set_ext (set_talking true (ext n)) n,
      emit (Publish "tts" (TTS response "en-US"))
        (emit (Publish "events" (Event "chat_end" 0)) w)),
     Return tt).
Proof. reflexivity. Qed.

(** The state that an answered input leaves. *)
Lemma after_input (pick : nat) (speech : string) (n : Node chat_ext) (w : World) :
  returns (input_callback pick speech) (n, w) = true ->
  exists response : value,
    after (input_callback pick speech) (n, w) =
      (set_ext (set_talking true (ext n)) n,
       emit (Publish "tts" (TTS response "en-US"))
         (emit (Publish "events" (Event "chat_end" 0)) w)).
Proof.
  unfold returns. intros Hret.
  destruct (input_callback_responds pick speech (n, w)) as [v Hv].
  { destruct (snd (input_callback pick speech (n, w))) as [[]|]; [reflexivity|discriminate]. }
  exists v. unfold after. by rewrite Hv, chat_respond_run.
Qed.

(** The end of a response before the last turn: the turn is counted and
    the next one requested. *)
Lemma after_stop_next_turn (n : Node chat_ext) (w : World) :
  (turns (ext n) + 1 <? dialog_turns (ext n))%Z = true ->
  whole_timeout_elapsed n w = false ->
  after (speech_event_callback "stop") (n, w) =
    (set_ext (set_talking false
                (set_last_turn_at (now w) (set_turns (turns (ext n) + 1) (ext n)))) n,
     emit (Publish "events" (Event "chat" 0)) w).
Proof.
  intros Hlt Hwhole. destruct n as [d du st sd sa fi i e].
  unfold after, speech_event_callback, add_turn, bind, get, ret, modify, on_ext, publish, on_snd.
  cbn in *. unfold whole_timeout_elapsed in *. cbn in *. by rewrite Hlt, Hwhole.
Qed.

(** The end of the response of the last turn: [resume]. *)
Lemma after_stop_last_turn (n : Node chat_ext) (w : World) :
  (turns (ext n) + 1 <? dialog_turns (ext n))%Z = false ->
  trace (snd (after (speech_event_callback "stop") (n, w))) =
    (trace w ++ [RunnerResume; Publish "events" (Event "chat_end" 0)]
       ++ (if subscriber (ext n) then [SubscriberUnregister] else []))%list /\
  duration (fst (after (speech_event_callback "stop") (n, w))) = 0%Q.
Proof.
  intros Hlt. destruct n as [d du st sd sa fi i e].
  unfold after, speech_event_callback, add_turn, chat_resume, bind, get, ret, modify,
    on_ext, on_fst, publish, on_snd.
  cbn in *. rewrite Hlt. cbn. destruct (subscriber e); cbn; rewrite <- ?app_assoc; auto.
Qed.

(** C5, as amended. On a [chat] node with [dialog_turns = 2] and no turn
    counted yet, two answered inputs, each followed by the speech event
    [stop], publish three [chat_end] events, one by each [respond] and one
    by the final [resume], and call [runner.resume()] once; the whole-session
    timeout is taken not to have elapsed when the first response
    ends. *)
Theorem chat_two_turns (pick1 pick2 : nat) (speech1 speech2 : string)
    (now1 now2 now3 now4 : Q) (n : Node chat_ext) (w : World) :
  dialog_turns (ext n) = 2%Z -> turns (ext n) = 0%Z ->
  whole_timeout_elapsed n (at_clock now2 w) = false ->
  inputs_answered pick1 pick2 speech1 speech2 now1 now2 now3 (n, w) = true ->
  let s' := two_turns pick1 pick2 speech1 speech2 now1 now2 now3 now4 (n, w) in
  count (is_event "chat_end") (trace (snd s')) = (count (is_event "chat_end") (trace w) + 3)%nat /\
  count is_runner_resume (trace (snd s')) = (count is_runner_resume (trace w) + 1)%nat /\
  duration (fst s') = 0%Q.
Proof.
  intros Hdt Htu Hwhole Hin. unfold inputs_answered in Hin. cbn zeta in Hin.
  apply andb_true_iff in Hin as [Hin1 Hin2].
  unfold two_turns. cbn zeta.
  destruct (after_input pick1 speech1 n (at_clock now1 w) Hin1) as [v1 Hs1].
  unfold at_time at 3 in Hin2. unfold at_time at 4 8 12. cbn [fst snd] in *.
  rewrite Hs1 in *. clear Hs1 Hin1.
  unfold at_time at 2 in Hin2. unfold at_time at 3 6 9. cbn [fst snd] in *.
  rewrite after_stop_next_turn in *;
    try (cbn; rewrite Hdt, Htu; reflexivity);
    try (unfold whole_timeout_elapsed in *; cbn in *; exact Hwhole).
  unfold at_time at 1 in Hin2. unfold at_time at 2 4 6. cbn [fst snd] in *.
  match type of Hin2 with
  | returns _ (?n2, ?w2) = true =>
      destruct (after_input pick2 speech2 n2 w2 Hin2) as [v2 Hs3]
  end.
  rewrite Hs3. clear Hs3 Hin2.
  unfold at_time. cbn [fst snd].
  match goal with
  | |- context [after (speech_event_callback "stop") (?n3, ?w3)] =>
      destruct (after_stop_last_turn n3 w3) as [Htr Hdur];
        [cbn; rewrite Hdt, Htu; reflexivity|]
  end.
  rewrite Htr, Hdur. cbn [trace at_clock emit].
  rewrite !count_app. cbn.
  split; [|split; [|reflexivity]].
  - destruct (subscriber (ext n)); cbn; lia.
  - destruct (subscriber (ext n)); cbn; lia.
Qed.

End ChatDialogue.

Lemma chat_two_turns_witness :
  let n := fst sample_chat_started in
  let w := snd sample_chat_started in
  let s' := two_turns (H:=sample_builtins) 0 0 "hello" "bye" 20 21 22 23 (n, w) in
  dialog_turns (ext n) = 2%Z /\
  inputs_answered (H:=sample_builtins) 0 0 "hello" "bye" 20 21 22 (n, w) = true /\
  count (is_event "chat_end") (trace (snd s')) = (count (is_event "chat_end") (trace w) + 3)%nat /\
  count is_runner_resume (trace (snd s')) = (count is_runner_resume (trace w) + 1)%nat /\
  duration (fst s') = 0%Q.
Proof.
  cbn zeta.
  assert (H1 : dialog_turns (ext (fst sample_chat_started)) = 2%Z)
    by (vm_compute; reflexivity).
  assert (H2 : turns (ext (fst sample_chat_started)) = 0%Z)
    by (vm_compute; reflexivity).
  assert (H3 : whole_timeout_elapsed (fst sample_chat_started)
                 (at_clock 21 (snd sample_chat_started)) = false)
    by (vm_compute; reflexivity).
  assert (H4 : inputs_answered (H:=sample_builtins) 0 0 "hello" "bye" 20 21 22
                 (fst sample_chat_started, snd sample_chat_started) = true)
    by (vm_compute; reflexivity).
  split; [exact H1|]. split; [exact H4|].
  exact (chat_two_turns (H:=sample_builtins) 0 0 "hello" "bye" 20 21 22 23
           (fst sample_chat_started) (snd sample_chat_started) H1 H2 H3 H4).
Defined.

(** The session does not end with one [chat_end] event: on the sample
    node it publishes three. *)
Lemma chat_two_turns_counterexample :
  ~ one_chat_end_one_resume
      (trace (snd sample_chat_started))
      (trace (snd (two_turns (H:=sample_builtins) 0 0 "hello" "bye" 20 21 22 23
                     sample_chat_started))).
Proof.
  unfold one_chat_end_one_resume. vm_compute. intros [Hend _]. discriminate.
Qed.

(** With the whole-session timeout elapsed the first [stop] already
    resumes, and the second resumes again. *)
Example chat_two_turns_whole_timeout :
  let n := set_ext
             (mkChat true 0 0 (VBool false) (VBool false) false 2 5 (VStr "whole") (Some 1%nat))
             (fst sample_chat_started) in
  let s' := two_turns (H:=sample_builtins) 0 0 "hello" "bye" 20 21 22 23
              (n, snd sample_chat_started) in
  count is_runner_resume (trace (snd s')) = 2%nat /\
  count (is_event "chat_end") (trace (snd s')) = 4%nat.
Proof. vm_compute. split; reflexivity. Qed.

(** ** [resume] and the floor of the duration *)

Lemma py_max_floor (q : Q) : (1 # 10 <= py_max (1 # 10) q)%Q.
Proof.
  unfold py_max. destruct (Qltb (1 # 10) q) eqn:Hlt.
  - apply Qltb_lt in Hlt. lra.
  - lra.
Qed.

Section Resume.
Context `{Builtins}.

Lemma Node_init_floor {E : Type} (d : NodeData) (e : E) (n : Node E) :
  Node_init d e = Return n -> (1 # 10 <= duration n)%Q.
Proof.
  unfold Node_init. destruct (getitem d "duration") as [v|]; [|discriminate].
  destruct (py_float v) as [q|]; [|discriminate].
  intros [= <-]. apply py_max_floor.
Qed.

Lemma chat_init_floor (d : NodeData) (n : Node chat_ext) :
  chat_init d = Return n -> (1 # 10 <= duration n)%Q.
Proof.
  unfold chat_init. destruct (Node_init d tt) as [n0|] eqn:Hinit; [|discriminate].
  destruct (convert_or py_int d "dialog_turns" 1%Z); [|discriminate].
  destruct (convert_or py_float d "timeout" 0%Q); [|discriminate].
  intros [= <-]. exact (Node_init_floor d tt n0 Hinit).
Qed.

Lemma chat_resume_node (n : Node chat_ext) (w : World) :
  snd (chat_resume (n, w)) = Return tt /\
  duration (fst (fst (chat_resume (n, w)))) = 0%Q /\
  start_time (fst (fst (chat_resume (n, w)))) = start_time n /\
  started (fst (fst (chat_resume (n, w)))) = started n /\
  finished (fst (fst (chat_resume (n, w)))) = finished n.
Proof.
  unfold chat_resume, bind, get, ret, modify, on_ext, on_fst, publish, on_snd. cbn.
  destruct (subscriber (ext n)); cbn; auto.
Qed.

Lemma chat_pause_resume_node (n : Node chat_pause_ext) (w : World) :
  chat_pause_resume (n, w) = ((set_duration 0 n, runner_resume w), Return tt).
Proof. reflexivity. Qed.

(** [stop] of the two classes returns. *)
Lemma chat_stop_returns (t : Q) (s : Node chat_ext * World) :
  snd (chat_stop t s) = Return tt.
Proof.
  unfold chat_stop, bind, get, modify. cbn.
  destruct (speech_listener (ext (fst s))); reflexivity.
Qed.

Lemma chat_pause_stop_returns (t : Q) (s : Node chat_pause_ext * World) :
  snd (chat_pause_stop t s) = Return tt.
Proof.
  unfold chat_pause_stop, bind, get, modify, ret. cbn.
  destruct (cp_subscriber (ext (fst s))); reflexivity.
Qed.

End Resume.

(** [run] on a started, unfinished node at or after its end time, for a
    class whose [stop] returns and keeps the flags: [stop] is called, the
    node is finished and [run] returns inactive. *)
Lemma run_finishes (cls : NodeClass) (s : Sys cls) (t : Q) :
  keeps_flags (stop cls) ->
  snd (stop cls t (node s, world s)) = Return tt ->
  started (node s) = true -> finished (node s) = false ->
  (end_time cls (node s) <= t)%Q ->
  snd (run cls t s) = Return false /\
  finished (node (fst (run cls t s))) = true /\
  calls (fst (run cls t s)) = (calls s ++ [HStop])%list.
Proof.
  intros Hk Hret Hs Hf Hle. apply Qle_bool_iff in Hle.
  unfold run, bind, get, ret, modify, invoke. cbn.
  rewrite Hf, Hs, Hle.
  destruct (stop cls t (node s, world s)) as [[n1 w1] r] eqn:Hstop.
  cbn in Hret. subst r. cbn. auto.
Qed.

(** C9. The constructors of [chat] and [chat_pause] floor the duration at
    [0.1]; [resume] sets it to [0], so that [end_time()] equals
    [start_time] and the floor no longer holds; and on the node, started
    and not finished as it is when [resume] runs, the next [run(t)] with
    [t >= end_time()] calls [stop], marks the node finished and returns
    inactive. *)
Theorem resume_zeroes_duration `{Builtins} :
  (forall (d : NodeData) (n : Node chat_ext),
     chat_init d = Return n -> (1 # 10 <= duration n)%Q) /\
  (forall (d : NodeData) (n : Node chat_pause_ext),
     chat_pause_init d = Return n -> (1 # 10 <= duration n)%Q) /\
  (forall (n : Node chat_ext) (w : World),
     let n' := fst (fst (chat_resume (n, w))) in
     duration n' = 0%Q /\ (end_time chat n' == start_time n)%Q /\
     ~ (1 # 10 <= duration n')%Q /\
     (started n = true -> finished n = false ->
      forall (w' : World) (cs : list hook) (t : Q),
        (end_time chat n' <= t)%Q ->
        let r := run chat t (mkSys (cls:=chat) n' w' cs) in
        snd r = Return false /\ finished (node (fst r)) = true /\
        calls (fst r) = (cs ++ [HStop])%list)) /\
  (forall (n : Node chat_pause_ext) (w : World),
     let n' := fst (fst (chat_pause_resume (n, w))) in
     duration n' = 0%Q /\ (end_time chat_pause n' == start_time n)%Q /\
     ~ (1 # 10 <= duration n')%Q /\
     (started n = true -> finished n = false ->
      forall (w' : World) (cs : list hook) (t : Q),
        (end_time chat_pause n' <= t)%Q ->
        let r := run chat_pause t (mkSys (cls:=chat_pause) n' w' cs) in
        snd r = Return false /\ finished (node (fst r)) = true /\
        calls (fst r) = (cs ++ [HStop])%list)).
Proof.
  split; [exact chat_init_floor|]. split; [intros d n; apply Node_init_floor|]. split.
  - intros n w. cbn zeta.
    destruct (chat_resume_node n w) as (_ & Hd & Hst & Hs & Hf).
    split; [exact Hd|]. split.
    { change (end_time chat (fst (fst (chat_resume (n, w)))))
        with (default_end_time (fst (fst (chat_resume (n, w))))).
      unfold default_end_time. rewrite Hd, Hst. lra. }
    split; [rewrite Hd; lra|].
    intros Hstarted Hfin w' cs t Hle.
    apply (run_finishes chat (mkSys (cls:=chat) _ w' cs) t).
    + apply preserves_keeps. intros t0. apply preserves_chat_stop.
    + apply chat_stop_returns.
    + exact (eq_trans Hs Hstarted).
    + exact (eq_trans Hf Hfin).
    + exact Hle.
  - intros n w. cbn zeta. rewrite chat_pause_resume_node. cbn [fst].
    split; [reflexivity|]. split.
    { cbn. unfold default_end_time. cbn. lra. }
    split; [cbn; lra|].
    intros Hstarted Hfin w' cs t Hle.
    apply (run_finishes chat_pause (mkSys (cls:=chat_pause) _ w' cs) t).
    + apply preserves_keeps. intros t0. apply preserves_chat_pause_stop.
    + apply chat_pause_stop_returns.
    + exact Hstarted.
    + exact Hfin.
    + exact Hle.
Qed.

Lemma resume_zeroes_duration_witness :
  let n := fst sample_chat_started in
  let n' := fst (fst (chat_resume (n, snd sample_chat_started))) in
  let r := run (chat (H:=sample_builtins)) 1
             (mkSys (cls:=chat (H:=sample_builtins)) n' sample_world [HStart]) in
  (1 # 10 <= duration sample_chat_node)%Q /\
  started n = true /\ finished n = false /\
  duration n' = 0%Q /\ (end_time (chat (H:=sample_builtins)) n' <= 1)%Q /\
  snd r = Return false /\ finished (node (fst r)) = true.
Proof.
  cbn zeta.
  pose proof (resume_zeroes_duration (H:=sample_builtins)) as (Hfloor & _ & Hchat & _).
  destruct (Hchat (fst sample_chat_started) (snd sample_chat_started))
    as (Hd & _ & _ & Hrun).
  assert (Hs : started (fst sample_chat_started) = true) by (vm_compute; reflexivity).
  assert (Hf : finished (fst sample_chat_started) = false) by (vm_compute; reflexivity).
  assert (Hle : (end_time (chat (H:=sample_builtins))
                   (fst (fst (chat_resume (fst sample_chat_started,
                                           snd sample_chat_started)))) <= 1)%Q)
    by (vm_compute; discriminate).
  assert (Hi : chat_init (H:=sample_builtins) sample_chat_data = Return sample_chat_node)
    by (vm_compute; reflexivity).
  destruct (Hrun Hs Hf sample_world [HStart] 1%Q Hle) as (Hr & Hfin & _).
  split; [exact (Hfloor sample_chat_data sample_chat_node Hi)|].
  split; [exact Hs|]. split; [exact Hf|]. split; [exact Hd|]. split; [exact Hle|].
  split; [exact Hr | exact Hfin].
Defined.

(** [chat_pause] reaches [resume] from [start] itself: the node started
    at [1/2] has duration [0], and the next call, at a position before the
    end of the two seconds it was given, stops and finishes it. *)
Example chat_pause_runs_out :
  let cp := chat_pause (H:=sample_builtins) in
  let r1 := run cp (1 # 2) (new_sys cp sample_chat_pause_node sample_world) in
  let r2 := run cp (3 # 5) (fst r1) in
  chat_pause_init (H:=sample_builtins) sample_chat_pause_data = Return sample_chat_pause_node /\
  snd r1 = Return true /\ duration (node (fst r1)) = 0%Q /\
  snd r2 = Return false /\ finished (node (fst r2)) = true /\
  calls (fst r2) = [HStart; HStop].
Proof. vm_compute. repeat split. Qed.

(** * Further properties of the module *)

Local Open Scope list_scope.

(** ** [Node.run] *)

(** X1. [run] returns inactive only on a node that is finished when the
    call ends: either it was finished before, or this call has stopped
    it. *)
Theorem run_inactive_is_finished (cls : NodeClass) (s : Sys cls) (t : Q) :
  snd (run cls t s) = Return false ->
  finished (node (fst (run cls t s))) = true.
Proof.
  unfold run, bind, get, ret, modify, try_except, log_error, invoke. cbn.
  destruct (finished (node s)) eqn:Hf; [intros _; exact Hf|].
  destruct (started (node s)).
  - destruct (Qle_bool (end_time cls (node s)) t).
    + destruct (stop cls t (node s, world s)) as [[n1 w1] [[]|e]]; cbn;
        [reflexivity|discriminate].
    + destruct (runner_paused (world s)).
      * destruct (paused cls t (node s, world s)) as [[n1 w1] [[]|e]]; cbn; discriminate.
      * destruct (cont cls t (node s, world s)) as [[n1 w1] [[]|e]]; cbn; discriminate.
  - destruct (Qltb (start_time (node s)) t).
    + destruct (start cls t (node s, world s)) as [[n1 w1] [[]|e]]; cbn; discriminate.
    + cbn. discriminate.
Qed.

Lemma run_inactive_is_finished_witness :
  let s := new_sys (chat (H:=sample_builtins)) (set_finished true sample_chat_node) sample_world in
  snd (run (chat (H:=sample_builtins)) 2 s) = Return false /\
  finished (node (fst (run (chat (H:=sample_builtins)) 2 s))) = true.
Proof.
  cbn zeta.
  assert (Hr : snd (run (chat (H:=sample_builtins)) 2
                      (new_sys (chat (H:=sample_builtins))
                         (set_finished true sample_chat_node) sample_world)) = Return false)
    by (vm_compute; reflexivity).
  split; [exact Hr|].
  exact (run_inactive_is_finished (chat (H:=sample_builtins)) _ 2 Hr).
Defined.

(** X2. Finished is absorbing: on a finished node no sequence of [run]
    calls changes the node or calls any of its methods. *)
Theorem finished_is_absorbing (cls : NodeClass) (ticks : list Tick) (s : Sys cls) :
  finished (node s) = true ->
  Forall (fun s' => node s' = node s /\ calls s' = calls s) (run_ticks cls ticks s).
Proof.
  revert s. induction ticks as [|tk rest IH]; intros s Hf; cbn [run_ticks].
  - constructor.
  - rewrite (run_finished cls (on_world cls (tick_env tk) s) (tick_time tk)) by exact Hf.
    cbn [fst]. constructor; [split; reflexivity|].
    exact (IH (on_world cls (tick_env tk) s) Hf).
Qed.

Lemma finished_is_absorbing_witness :
  finished sample_chat_midspan = true /\
  Forall (fun s' : Sys (chat (H:=sample_builtins)) =>
            node s' = sample_chat_midspan /\ calls s' = [])
    (run_ticks (chat (H:=sample_builtins)) sample_ticks
       (new_sys (chat (H:=sample_builtins)) sample_chat_midspan sample_world)).
Proof.
  assert (Hf : finished sample_chat_midspan = true) by (vm_compute; reflexivity).
  split; [exact Hf|].
  exact (finished_is_absorbing (chat (H:=sample_builtins)) sample_ticks
           (new_sys (chat (H:=sample_builtins)) sample_chat_midspan sample_world) Hf).
Defined.

(** X3. On a pending node and a position past its start time, [run] calls
    [start], marks the node started, stamps it with the wall clock and
    returns active, whether [start] returns or raises; what [start] raises
    is logged after the effects that [start] had until then. *)
Theorem run_starts_regardless (cls : NodeClass) (s : Sys cls) (t : Q) :
  finished (node s) = false -> started (node s) = false ->
  (start_time (node s) < t)%Q ->
  let s' := fst (run cls t s) in
  let after_start := start cls t (node s, world s) in
  snd (run cls t s) = Return true /\
  started (node s') = true /\
  calls s' = calls s ++ [HStart] /\
  started_at (node s') = now (world s') /\
  (snd after_start = Return tt -> world s' = snd (fst after_start)) /\
  (forall e : exn, snd after_start = Raise e ->
     world s' = emit (LogError e) (snd (fst after_start))).
Proof.
  intros Hf Hs Hlt. apply Qltb_lt in Hlt.
  unfold run, bind, get, ret, modify, try_except, log_error, invoke. cbn.
  rewrite Hf, Hs, Hlt.
  destruct (start cls t (node s, world s)) as [[n1 w1] [[]|e]]; cbn;
    repeat split; try reflexivity; try discriminate.
  intros e0 [= <-]. reflexivity.
Qed.

Lemma run_starts_regardless_witness :
  let s := new_sys (soma (H:=sample_builtins)) sample_soma_node sample_world in
  (start_time (node s) < 1 # 2)%Q /\
  snd (run (soma (H:=sample_builtins)) (1 # 2) s) = Return true /\
  started (node (fst (run (soma (H:=sample_builtins)) (1 # 2) s))) = true.
Proof.
  cbn zeta.
  assert (Hlt : (start_time (node (new_sys (soma (H:=sample_builtins))
                                     sample_soma_node sample_world)) < 1 # 2)%Q)
    by reflexivity.
  split; [exact Hlt|].
  destruct (run_starts_regardless (soma (H:=sample_builtins))
              (new_sys (soma (H:=sample_builtins)) sample_soma_node sample_world)
              (1 # 2) eq_refl eq_refl Hlt) as (Hr & Hst & _).
  split; [exact Hr | exact Hst].
Defined.

(** ** [Node.createNode] *)

Lemma backfill_keeps (c : NodeClass) (p : Q) (n : Node (cls_ext c)) :
  node_id (backfill c p n) = node_id n /\ duration (backfill c p n) = duration n.
Proof.
  unfold backfill. destruct (Qltb (start_time n) p); [|auto].
  destruct (Qltb p _); auto.
Qed.

Lemma backfill_not_past (c : NodeClass) (p : Q) (n : Node (cls_ext c)) :
  (p <= start_time n)%Q -> backfill c p n = n.
Proof. intros Hle. unfold backfill. apply Qltb_ge in Hle. by rewrite Hle. Qed.

Section Fresh.
Context `{Builtins}.

Lemma Node_init_fresh {E : Type} (d : NodeData) (e : E) (n : Node E) :
  Node_init d e = Return n -> fresh_node d n.
Proof.
  intros Hinit. pose proof (Node_init_floor d e n Hinit) as Hfloor.
  unfold Node_init in Hinit. destruct (getitem d "duration") as [v|]; [|discriminate].
  destruct (py_float v) as [q|]; [|discriminate].
  injection Hinit as <-. repeat split. exact Hfloor.
Qed.

Lemma pause_init_fresh (d : NodeData) (n : Node pause_ext) :
  pause_init d = Return n -> fresh_node d n.
Proof.
  unfold pause_init. destruct (Node_init d (mkPause None None)) as [n0|] eqn:Hinit;
    [|discriminate].
  intros [= <-]. exact (Node_init_fresh d _ n0 Hinit).
Qed.

Lemma chat_init_fresh (d : NodeData) (n : Node chat_ext) :
  chat_init d = Return n -> fresh_node d n.
Proof.
  unfold chat_init. destruct (Node_init d tt) as [n0|] eqn:Hinit; [|discriminate].
  destruct (convert_or py_int d "dialog_turns" 1%Z); [|discriminate].
  destruct (convert_or py_float d "timeout" 0%Q); [|discriminate].
  intros [= <-]. exact (Node_init_fresh d tt n0 Hinit).
Qed.

Lemma modelled_classes_fresh (c : NodeClass) (d : NodeData) (n : Node (cls_ext c)) :
  In c modelled_classes -> cls_init c d = Return n -> fresh_node d n.
Proof.
  intros [<-|[<-|[<-|[<-|[]]]]]; cbn.
  - apply Node_init_fresh.
  - apply pause_init_fresh.
  - apply Node_init_fresh.
  - apply chat_init_fresh.
Qed.

(** X4. A node that [createNode] builds from the classes of the module
    is of the class named in its description and bears the given id, the
    start time of the description and a duration of [0.1] at least; the
    world is untouched; and when the timeline position is at or before the
    start time, the node is pending. *)
Theorem createNode_builds (d : NodeData) (p : Q) (id : string) (w w' : World) (r : AnyNode) :
  createNode modelled_classes d p id w = (w', Return (Some r)) ->
  let c := projT1 r in
  let n := projT2 r in
  w' = w /\ cls_name c = name d /\ node_id n = id /\
  start_time n = data_start_time d /\ (1 # 10 <= duration n)%Q /\
  ((p <= start_time n)%Q -> started n = false /\ finished n = false).
Proof.
  unfold createNode.
  destruct (List.find _ modelled_classes) as [c0|] eqn:Hfind; [|discriminate].
  apply List.find_some in Hfind as [Hin Hname]. apply String.eqb_eq in Hname.
  unfold bind, eval, ret. destruct (cls_init c0 d) as [n0|e] eqn:Hinit; [|discriminate].
  intros Heq. injection Heq as <- <-. cbn [projT1 projT2].
  destruct (modelled_classes_fresh c0 d n0 Hin Hinit) as (Hs & Hf & _ & Hst & Hdur).
  destruct (backfill_keeps c0 p (set_id id n0)) as [Hid Hd].
  split; [reflexivity|]. split; [by rewrite Hname|]. split; [exact Hid|].
  split; [rewrite backfill_start_time; exact Hst|]. split; [rewrite Hd; exact Hdur|].
  intros Hle. rewrite backfill_start_time in Hle.
  rewrite (backfill_not_past c0 p (set_id id n0) Hle). auto.
Qed.

End Fresh.

Lemma createNode_builds_witness :
  let r := existT (chat (H:=sample_builtins)) (set_id "n1" sample_chat_node) : AnyNode in
  createNode (modelled_classes (H:=sample_builtins)) sample_chat_data (1 # 2) "n1" sample_world
    = (sample_world, Return (Some r)) /\
  node_id (projT2 r) = "n1" /\ started (projT2 r) = false /\ finished (projT2 r) = false.
Proof.
  cbn zeta.
  assert (Hc : createNode (modelled_classes (H:=sample_builtins)) sample_chat_data (1 # 2)
                 "n1" sample_world
               = (sample_world,
                  Return (Some (existT (chat (H:=sample_builtins))
                                  (set_id "n1" sample_chat_node) : AnyNode))))
    by (vm_compute; reflexivity).
  destruct (createNode_builds (H:=sample_builtins) sample_chat_data (1 # 2) "n1"
              sample_world sample_world _ Hc) as (_ & _ & Hid & _ & _ & Hpend).
  assert (Hle : (1 # 2 <= 1)%Q) by (vm_compute; discriminate).
  split; [exact Hc|]. split; [exact Hid|]. exact (Hpend Hle).
Defined.

Lemma find_no_match {A : Type} (f : A -> bool) (l : list A) :
  (forall a, In a l -> f a = false) -> List.find f l = None.
Proof.
  induction l as [|a l IH]; [reflexivity|].
  intros Hall. cbn. rewrite (Hall a (or_introl eq_refl)).
  apply IH. intros b Hb. apply Hall. by right.
Qed.

(** X5. For a description whose name is that of no registered class,
    [createNode] logs the wrong description and returns no node, and a
    class whose name differs is never used to build it. *)
Theorem createNode_unknown_name (subClasses : list NodeClass) (d : NodeData) (p : Q)
    (id : string) (w : World) :
  (forall c, In c subClasses -> cls_name c <> name d) ->
  createNode subClasses d p id w = (emit (LogWrongDescription (name d)) w, Return None).
Proof.
  intros Hno. unfold createNode. rewrite find_no_match; [reflexivity|].
  intros c Hc. apply String.eqb_neq. intros Heq. exact (Hno c Hc (eq_sym Heq)).
Qed.

Lemma createNode_unknown_name_witness :
  createNode sample_classes (mkData "speech" 0 ∅) 0 "n2" sample_world
    = (emit (LogWrongDescription "speech") sample_world, Return None).
Proof.
  apply (createNode_unknown_name sample_classes (mkData "speech" 0 ∅) 0 "n2" sample_world).
  intros c [<-|[<-|[<-|[<-|[]]]]]; cbn; discriminate.
Defined.

(** ** [pause] *)

Section PauseMore.
Context `{Builtins}.

Lemma matched_fold (text : string) (params : list string) (b : bool) :
  fold_left (matched_step text) params b
  = b || existsb (fun p => Str.contains (Str.strip p) text) params.
Proof.
  revert b. induction params as [|p ps IH]; intros b; cbn [fold_left existsb].
  - by rewrite orb_false_r.
  - rewrite IH. unfold matched_step, Str.index, Str.contains.
    destruct (Str.find (Str.strip p) text); cbn.
    + by rewrite orb_true_r.
    + by rewrite !orb_false_r.
Qed.

(** X6. [event_matched] is true exactly when one of the comma-separated
    keywords, lower-cased and stripped, occurs in the lower-cased text of
    the message, [None] standing for the empty text. *)
Theorem event_matched_any (param msg : value) :
  event_matched param msg
  = existsb
      (fun p => Str.contains (Str.strip p) (Str.lower (py_str (py_or msg (VStr "")))))
      (Str.split "," (Str.lower (py_str param))).
Proof. unfold event_matched. by rewrite matched_fold. Qed.

(** X7. A message that the keyword filter rejects still uses up the
    listener: [event_callback] unregisters it and returns [False], the
    runner is not resumed and the timer is left as it was. *)
Theorem event_callback_rejected (n : Node pause_ext) (w : World) (tok : nat)
    (tv ep msg : value) :
  event_callback_ref (ext n) = Some tok ->
  fields (data n) !! "topic" = Some tv ->
  fields (data n) !! "event_param" = Some ep ->
  truthy ep = true -> event_matched ep msg = false ->
  event_callback msg (n, w) =
    ((set_event_callback_ref None n,
      runner_unregister (Str.strip (py_str (py_or tv (VStr "")))) tok w),
     Return (VBool false)).
Proof.
  intros Hr Htv Hep Ht Hm. destruct n as [d du st sd sa fi i [r tm]].
  cbn in Hr, Htv, Hep. subst r.
  unfold event_callback, delete_callback_ref, topic_name, cur_data,
    bind, get, ret, modify, eval, getitem, on_fst, on_snd.
  cbn. rewrite Htv. cbn. rewrite Hep. cbn. rewrite Ht, Hm. reflexivity.
Qed.

(** X8. [delete_callback_ref] is idempotent: once it has returned, a
    second call changes neither the node nor the world. *)
Theorem delete_callback_ref_idempotent (s : Node pause_ext * World) :
  snd (delete_callback_ref s) = Return tt ->
  delete_callback_ref (fst (delete_callback_ref s)) = (fst (delete_callback_ref s), Return tt).
Proof.
  destruct s as [[d du st sd sa fi i [r tm]] w].
  unfold delete_callback_ref, topic_name, cur_data, bind, get, ret, modify, eval, getitem,
    on_fst, on_snd.
  destruct r as [tok|]; cbn; [|intros _; reflexivity].
  destruct (fields d !! "topic") as [tv|]; cbn; [intros _; reflexivity|discriminate].
Qed.

End PauseMore.

Lemma event_callback_rejected_witness :
  let n := set_data (set_field "event_param" (VStr "yes,ok") (data (fst sample_pause_armed)))
             (fst sample_pause_armed) in
  let r := event_callback (H:=sample_builtins) (VStr "no thanks") (n, snd sample_pause_armed) in
  event_matched (H:=sample_builtins) (VStr "yes,ok") (VStr "no thanks") = false /\
  snd r = Return (VBool false) /\
  listener_dropped (fst r) = true /\ timer_stopped (fst r) = false /\
  runner_paused (snd (fst r)) = true.
Proof.
  cbn zeta.
  assert (Hm : event_matched (H:=sample_builtins) (VStr "yes,ok") (VStr "no thanks") = false)
    by (vm_compute; reflexivity).
  assert (Hr : event_callback_ref
                 (ext (set_data (set_field "event_param" (VStr "yes,ok")
                                   (data (fst sample_pause_armed)))
                         (fst sample_pause_armed))) = Some 1%nat)
    by (vm_compute; reflexivity).
  assert (Htv : fields (data (set_data (set_field "event_param" (VStr "yes,ok")
                                          (data (fst sample_pause_armed)))
                                (fst sample_pause_armed))) !! "topic" = Some (VStr "speech"))
    by (vm_compute; reflexivity).
  assert (Hep : fields (data (set_data (set_field "event_param" (VStr "yes,ok")
                                          (data (fst sample_pause_armed)))
                                (fst sample_pause_armed))) !! "event_param"
                = Some (VStr "yes,ok"))
    by (vm_compute; reflexivity).
  rewrite (event_callback_rejected (H:=sample_builtins) _ (snd sample_pause_armed) 1
             (VStr "speech") (VStr "yes,ok") (VStr "no thanks") Hr Htv Hep eq_refl Hm).
  split; [exact Hm|]. split; [reflexivity|]. vm_compute. repeat split.
Defined.

Lemma delete_callback_ref_idempotent_witness :
  snd (delete_callback_ref (H:=sample_builtins) sample_pause_armed) = Return tt /\
  delete_callback_ref (H:=sample_builtins)
    (fst (delete_callback_ref (H:=sample_builtins) sample_pause_armed))
  = (fst (delete_callback_ref (H:=sample_builtins) sample_pause_armed), Return tt).
Proof.
  assert (Hr : snd (delete_callback_ref (H:=sample_builtins) sample_pause_armed) = Return tt)
    by (vm_compute; reflexivity).
  split; [exact Hr|].
  exact (delete_callback_ref_idempotent (H:=sample_builtins) sample_pause_armed Hr).
Defined.

Section PauseStart.
Context `{Builtins}.

#[local] Arguments py_or : simpl never.
#[local] Arguments py_str : simpl never.
#[local] Arguments Str.strip : simpl never.

(** The world after the registration of [pause.start]. *)
Lemma start_listening_registers (n : Node pause_ext) (w : World) (tv ep : value) :
  fields (data n) !! "topic" = Some tv ->
  fields (data n) !! "event_param" = Some ep ->
  Str.strip (py_str (py_or tv (VStr ""))) <> "ROSPARAM" ->
  exists w1 : World,
    start_listening (n, w) = ((set_event_callback_ref (Some (next_token w)) n, w1), Return false) /\
    runner_paused w1 = runner_paused w /\
    is_registered (Str.strip (py_str (py_or tv (VStr "")))) (next_token w) w1 = true.
Proof.
  intros Htv Hep Hne. apply String.eqb_neq in Hne.
  set (topic := Str.strip (py_str (py_or tv (VStr "")))) in *.
  assert (Hreg : is_registered topic (next_token w) (snd (runner_register topic w)) = true).
  { unfold is_registered, runner_register. cbn. rewrite existsb_app. cbn.
    unfold same_listener. cbn. by rewrite String.eqb_refl, Nat.eqb_refl, orb_true_r. }
  destruct n as [d du st sd sa fi i [r0 tm]]. cbn [data] in Htv, Hep.
  exists (let w1 := snd (runner_register topic w) in
          if truthy ep
          then emit (SetParam "/performances/keywords_listening" ep)
                 (set_rosparam "/performances/keywords_listening" ep w1)
          else w1).
  split; [|split].
  - unfold start_listening, topic_name, cur_data, bind, get, ret, modify, eval, getitem,
      has_key, on_snd.
    cbn. rewrite Htv. cbn. rewrite Htv. cbn. fold topic. rewrite Hne. cbn. rewrite Hep. cbn.
    destruct (truthy ep); reflexivity.
  - destruct (truthy ep); reflexivity.
  - destruct (truthy ep); [|exact Hreg].
    unfold is_registered in *. exact Hreg.
Qed.

(** X9. [pause.start] on a topic other than [ROSPARAM] pauses the runner
    and registers the listener under a fresh token.  The timer is armed
    only for a timeout above [0.1]: a missing timeout is logged as a
    [KeyError] and leaves the node without a new timer, a timeout of [0.1]
    or less is ignored, and a timeout of [None] makes [start] raise a
    [TypeError] after the registration. *)
Theorem pause_start_arms (n : Node pause_ext) (w : World) (t : Q) (tv ep : value) :
  fields (data n) !! "topic" = Some tv ->
  fields (data n) !! "event_param" = Some ep ->
  Str.strip (py_str (py_or tv (VStr ""))) <> "ROSPARAM" ->
  let topic := Str.strip (py_str (py_or tv (VStr ""))) in
  let r := pause_start t (n, w) in
  runner_paused (snd (fst r)) = true /\
  event_callback_ref (ext (fst (fst r))) = Some (next_token w) /\
  is_registered topic (next_token w) (snd (fst r)) = true /\
  (fields (data n) !! "timeout" = None ->
   snd r = Return tt /\ timer (ext (fst (fst r))) = timer (ext n) /\
   In (LogError (KeyError "timeout")) (trace (snd (fst r)))) /\
  (forall q : Q,
     fields (data n) !! "timeout" = Some (VNum q) ->
     snd r = Return tt /\
     timer (ext (fst (fst r)))
     = if Qltb (1 # 10) q then Some (mkTimer q CallResume false) else timer (ext n)) /\
  (fields (data n) !! "timeout" = Some VNone ->
   snd r = Raise TypeError /\ timer (ext (fst (fst r))) = timer (ext n)).
Proof.
  intros Htv Hep Hne.
  destruct (start_listening_registers n (runner_pause w) tv ep Htv Hep Hne)
    as (w1 & Hsl & Hp & Hreg).
  change (next_token (runner_pause w)) with (next_token w) in *.
  cbn zeta.
  assert (Hstart : pause_start t (n, w) =
            try_except_value_key
              (let* d := cur_data in
               let* v := eval (getitem d "timeout") in
               let* timeout := eval (py_float v) in
               if Qltb (1 # 10) timeout then arm_timer timeout CallResume else ret tt)
              (fun e => modify (on_snd (emit (LogError e))))
              (set_event_callback_ref (Some (next_token w)) n, w1)).
  { unfold pause_start, bind at 1 2, modify at 1.
    change (on_snd runner_pause (n, w)) with (n, runner_pause w).
    by rewrite Hsl. }
  rewrite Hstart. clear Hstart Hsl.
  destruct n as [d du st sd sa fi i [r0 tm]].
  unfold try_except_value_key, cur_data, arm_timer, bind, get, ret, modify, eval, getitem,
    on_fst, on_snd.
  cbn. destruct (fields d !! "timeout") as [v|]; cbn.
  - destruct v as [|b|q|s|l|l]; cbn;
      try (destruct (float_of_str s); cbn);
      try match goal with
          | |- context [Qltb (1 # 10) ?x] => destruct (Qltb (1 # 10) x) eqn:Hq; cbn
          end;
      (split; [exact Hp|]); (split; [reflexivity|]); (split; [exact Hreg|]);
      (split; [discriminate|]);
      (split; [try discriminate; intros q0 [= <-]; rewrite ?Hq; split; reflexivity
              |try discriminate; intros _; split; reflexivity]).
  - split; [exact Hp|]. split; [reflexivity|]. split; [exact Hreg|].
    split; [|split; discriminate].
    intros _. split; [reflexivity|]. split; [reflexivity|].
    rewrite in_app_iff. right. by left.
Qed.

End PauseStart.

Lemma pause_start_arms_witness :
  let r := pause_start (H:=sample_builtins) (1 # 2) (sample_pause_node, sample_world) in
  Str.strip (py_str (H:=sample_builtins) (py_or (VStr "speech") (VStr ""))) <> "ROSPARAM" /\
  runner_paused (snd (fst r)) = true /\
  event_callback_ref (ext (fst (fst r))) = Some 1%nat /\
  snd r = Return tt /\
  timer (ext (fst (fst r))) = Some (mkTimer 5 CallResume false).
Proof.
  cbn zeta.
  assert (Hne : Str.strip (py_str (H:=sample_builtins) (py_or (VStr "speech") (VStr "")))
                <> "ROSPARAM") by (vm_compute; discriminate).
  assert (Htv : fields (data sample_pause_node) !! "topic" = Some (VStr "speech"))
    by (vm_compute; reflexivity).
  assert (Hep : fields (data sample_pause_node) !! "event_param" = Some (VBool false))
    by (vm_compute; reflexivity).
  assert (Hto : fields (data sample_pause_node) !! "timeout" = Some (VNum 5))
    by (vm_compute; reflexivity).
  destruct (pause_start_arms (H:=sample_builtins) sample_pause_node sample_world (1 # 2)
              (VStr "speech") (VBool false) Htv Hep Hne)
    as (Hp & Hr & _ & _ & Hnum & _).
  destruct (Hnum 5%Q Hto) as [Hret Htm].
  split; [exact Hne|]. split; [exact Hp|]. split; [exact Hr|]. split; [exact Hret|].
  exact Htm.
Defined.

(** ** [chat] and [chat_pause] *)

Section ChatMore.
Context `{Builtins}.

(** X10. While the node has no timeout, or while a response is being
    spoken, the paused tick of [chat] does nothing at all. *)
Theorem chat_paused_idle (t : Q) (s : Node chat_ext * World) :
  (timeout (ext (fst s)) == 0)%Q \/ talking (ext (fst s)) = true ->
  chat_paused t s = (s, Return tt).
Proof.
  intros Hidle. unfold chat_paused, bind, get, ret. cbn.
  destruct Hidle as [Hz|Ht].
  - apply Qeq_bool_iff in Hz. by rewrite Hz.
  - rewrite Ht. by rewrite andb_false_r.
Qed.

(** X11. [add_turn] returns, counts one turn and stamps it with the wall
    clock; it asks for the next turn while the count is below
    [dialog_turns] and the whole-session timeout has not elapsed, and
    otherwise resumes the runner once, publishes [chat_end] and sets the
    duration to [0]. *)
Theorem add_turn_counts (n : Node chat_ext) (w : World) :
  let r := add_turn (n, w) in
  let more := (turns (ext n) + 1 <? dialog_turns (ext n))%Z
              && negb (whole_timeout_elapsed n w) in
  snd r = Return tt /\
  turns (ext (fst (fst r))) = (turns (ext n) + 1)%Z /\
  last_turn_at (ext (fst (fst r))) = now w /\
  dialog_turns (ext (fst (fst r))) = dialog_turns (ext n) /\
  (more = true ->
   trace (snd (fst r)) = trace w ++ [Publish "events" (Event "chat" 0)] /\
   duration (fst (fst r)) = duration n /\
   runner_paused (snd (fst r)) = runner_paused w) /\
  (more = false ->
   count is_runner_resume (trace (snd (fst r))) = S (count is_runner_resume (trace w)) /\
   count (is_event "chat_end") (trace (snd (fst r)))
     = S (count (is_event "chat_end") (trace w)) /\
   duration (fst (fst r)) = 0%Q /\
   runner_paused (snd (fst r)) = false /\
   subscriber (ext (fst (fst r))) = false).
Proof.
  destruct n as [d du st sd sa fi i e]. cbn zeta.
  unfold add_turn, chat_resume, bind, get, ret, modify, on_ext, on_fst, publish, on_snd.
  cbn. unfold whole_timeout_elapsed. cbn.
  destruct ((turns e + 1 <? dialog_turns e)%Z
            && negb (is_str (timeout_mode e) "whole" && Qle_bool (timeout e) (now w - sa)));
    cbn.
  - repeat split; discriminate.
  - destruct (subscriber e) eqn:Hsub; cbn;
      (split; [reflexivity|]); (split; [reflexivity|]); (split; [reflexivity|]);
      (split; [reflexivity|]); (split; [discriminate|]); intros _;
      repeat split; try reflexivity; try exact Hsub;
      unfold count; rewrite !List.filter_app, !List.length_app; cbn; lia.
Qed.

Lemma deliver_speech_returns (events : list string) (s : Node chat_pause_ext * World) :
  snd (deliver_speech events s) = Return tt.
Proof.
  revert s. induction events as [|ev rest IH]; intros s; [reflexivity|].
  cbn [deliver_speech]. unfold bind, chat_pause_speech_event_callback.
  destruct (String.eqb ev "stop"); cbn; apply IH.
Qed.

(** X12. [chat_pause.start] never raises and always ends in [resume]:
    whatever the description and whatever speech events arrive during the
    wait, the node comes out with duration [0] and the runner is not
    paused. *)
Theorem chat_pause_start_resumes (t : Q) (n : Node chat_pause_ext) (w : World) :
  snd (chat_pause_start t (n, w)) = Return tt /\
  duration (fst (fst (chat_pause_start t (n, w)))) = 0%Q /\
  runner_paused (snd (fst (chat_pause_start t (n, w)))) = false /\
  started (fst (fst (chat_pause_start t (n, w)))) = started n /\
  finished (fst (fst (chat_pause_start t (n, w)))) = finished n.
Proof.
  pose proof (preserves_chat_pause_start t (n, w)) as Hflags. unfold flags in Hflags.
  cbn [fst] in Hflags. injection Hflags as Hs Hf.
  split; [|split; [|split; [|split; [exact Hs|exact Hf]]]].
  all: unfold chat_pause_start, cur_data, bind at 1 2 3, get, ret, eval, getitem, has_key;
    cbn [fst snd].
  all: destruct (fields (data n) !! "message") as [m|]; cbn [truthy];
    try destruct (truthy m) eqn:Hm.
  all: unfold bind, modify, publish, wait_for_speech, get, on_snd, on_fst; cbn;
    rewrite ?Hm; cbn;
    try match goal with
        | |- context [deliver_speech ?l ?s] =>
            pose proof (deliver_speech_returns l s) as Hd;
            destruct (deliver_speech l s) as [s2 c2]; cbn in Hd; subst c2; cbn
        end;
    reflexivity.
Qed.

End ChatMore.

Lemma chat_paused_idle_witness :
  (timeout (ext (fst sample_chat_started)) == 0)%Q /\
  chat_paused 3 sample_chat_started = (sample_chat_started, Return tt).
Proof.
  assert (Hz : (timeout (ext (fst sample_chat_started)) == 0)%Q) by (vm_compute; reflexivity).
  split; [exact Hz|].
  exact (chat_paused_idle 3 sample_chat_started (or_introl Hz)).
Defined.

Lemma add_turn_counts_witness :
  let n := fst sample_chat_started in
  let w := snd sample_chat_started in
  let r := add_turn (n, w) in
  (turns (ext n) + 1 <? dialog_turns (ext n))%Z && negb (whole_timeout_elapsed n w) = true /\
  turns (ext (fst (fst r))) = 1%Z /\
  trace (snd (fst r)) = trace w ++ [Publish "events" (Event "chat" 0)].
Proof.
  cbn zeta.
  assert (Hm : (turns (ext (fst sample_chat_started)) + 1
                <? dialog_turns (ext (fst sample_chat_started)))%Z
               && negb (whole_timeout_elapsed (fst sample_chat_started)
                          (snd sample_chat_started)) = true)
    by (vm_compute; reflexivity).
  destruct (add_turn_counts (fst sample_chat_started) (snd sample_chat_started))
    as (_ & Ht & _ & _ & Hmore & _).
  split; [exact Hm|]. split.
  - rewrite Ht. vm_compute. reflexivity.
  - exact (proj1 (Hmore Hm)).
Defined.

Section ChatInit.
Context `{Builtins}.

Lemma py_int_raises (v : value) (e : exn) :
  py_int v = Raise e -> e = ValueError \/ e = TypeError.
Proof.
  destruct v as [|b|q|s|l|l]; cbn; try (intros [= <-]; auto); try discriminate.
  destruct (int_of_str s); [discriminate|]. intros [= <-]. auto.
Qed.

Lemma py_float_raises (v : value) (e : exn) :
  py_float v = Raise e -> e = ValueError \/ e = TypeError.
Proof.
  destruct v as [|b|q|s|l|l]; cbn; try (intros [= <-]; auto); try discriminate.
  destruct (float_of_str s); [discriminate|]. intros [= <-]. auto.
Qed.

Lemma convert_or_missing {A : Type} (conv : value -> completion A) (d : NodeData)
    (k : string) (dflt : A) :
  fields d !! k = None -> convert_or conv d k dflt = Return dflt.
Proof. intros Hk. unfold convert_or, getitem. by rewrite Hk. Qed.

Lemma convert_or_outcome {A : Type} (conv : value -> completion A) (d : NodeData)
    (k : string) (dflt : A) :
  (forall v e, conv v = Raise e -> e = ValueError \/ e = TypeError) ->
  (exists a, convert_or conv d k dflt = Return a) \/
  convert_or conv d k dflt = Raise TypeError.
Proof.
  intros Hconv. unfold convert_or, getitem.
  destruct (fields d !! k) as [v|]; [|left; by exists dflt].
  destruct (conv v) as [a|e] eqn:Hc; [left; by exists a|].
  destruct (Hconv v e Hc) as [->| ->]; [left; by exists dflt|by right].
Qed.

Lemma convert_or_type_error {A : Type} (conv : value -> completion A) (d : NodeData)
    (k : string) (dflt : A) (v : value) :
  fields d !! k = Some v -> conv v = Raise TypeError ->
  convert_or conv d k dflt = Raise TypeError.
Proof. intros Hk Hc. unfold convert_or, getitem. by rewrite Hk, Hc. Qed.

(** X16. A [chat] node is built with no turn counted, not talking and
    without subscriber; [dialog_turns] defaults to [1], [timeout] to [0]
    and [timeout_mode] to ['each'] when their keys are missing; and a
    [dialog_turns] or [timeout] of [None] makes the constructor raise a
    [TypeError], as its handlers catch [ValueError] and [KeyError]
    only. *)
Theorem chat_init_defaults (d : NodeData) :
  (forall n : Node chat_ext,
     chat_init d = Return n ->
     turns (ext n) = 0%Z /\ talking (ext n) = false /\ subscriber (ext n) = false /\
     (fields d !! "dialog_turns" = None -> dialog_turns (ext n) = 1%Z) /\
     (fields d !! "timeout" = None -> timeout (ext n) = 0%Q) /\
     (fields d !! "timeout_mode" = None -> timeout_mode (ext n) = VStr "each") /\
     (forall q : Q,
        fields d !! "dialog_turns" = Some (VNum q) ->
        dialog_turns (ext n) = Z.quot (Qnum q) (Zpos (Qden q)))) /\
  (forall n0 : Node unit,
     Node_init d tt = Return n0 ->
     fields d !! "dialog_turns" = Some VNone \/ fields d !! "timeout" = Some VNone ->
     chat_init d = Raise TypeError).
Proof.
  split.
  - intros n. unfold chat_init.
    destruct (Node_init d tt) as [n0|]; [|discriminate].
    destruct (convert_or py_int d "dialog_turns" 1%Z) as [z|] eqn:Hdt; [|discriminate].
    destruct (convert_or py_float d "timeout" 0%Q) as [q0|] eqn:Hto; [|discriminate].
    intros [= <-]. cbn [ext turns talking subscriber dialog_turns timeout timeout_mode].
    split; [reflexivity|]. split; [reflexivity|]. split; [reflexivity|].
    split; [|split; [|split]].
    + intros Hk. rewrite (convert_or_missing py_int d _ _ Hk) in Hdt. congruence.
    + intros Hk. rewrite (convert_or_missing py_float d _ _ Hk) in Hto. congruence.
    + intros Hk. by rewrite Hk.
    + intros q Hk. unfold convert_or, getitem in Hdt. rewrite Hk in Hdt. cbn in Hdt.
      congruence.
  - intros n0 Hinit Hnone. unfold chat_init. rewrite Hinit.
    destruct Hnone as [Hk|Hk].
    + by rewrite (convert_or_type_error py_int d _ _ VNone Hk eq_refl).
    + destruct (convert_or_outcome py_int d "dialog_turns" 1%Z py_int_raises)
        as [[z ->]| ->]; [|reflexivity].
      by rewrite (convert_or_type_error py_float d _ _ VNone Hk eq_refl).
Qed.

End ChatInit.

Lemma chat_init_defaults_witness :
  chat_init (H:=sample_builtins) sample_chat_data = Return sample_chat_node /\
  timeout (ext sample_chat_node) = 0%Q /\
  timeout_mode (ext sample_chat_node) = VStr "each" /\
  dialog_turns (ext sample_chat_node) = 2%Z /\
  chat_init (H:=sample_builtins) (set_field "timeout" VNone sample_chat_data) = Raise TypeError.
Proof.
  assert (Hi : chat_init (H:=sample_builtins) sample_chat_data = Return sample_chat_node)
    by (vm_compute; reflexivity).
  destruct (chat_init_defaults (H:=sample_builtins) sample_chat_data) as [Hd _].
  destruct (Hd sample_chat_node Hi) as (_ & _ & _ & _ & Hto & Hmode & Hnum).
  split; [exact Hi|]. split; [apply Hto; vm_compute; reflexivity|].
  split; [apply Hmode; vm_compute; reflexivity|].
  split; [exact (Hnum 2%Q ltac:(vm_compute; reflexivity))|].
  destruct (chat_init_defaults (H:=sample_builtins)
              (set_field "timeout" VNone sample_chat_data)) as [_ Hraise].
  apply (Hraise (mkNode (set_field "timeout" VNone sample_chat_data) 5 1 false 0 false "" tt)).
  - vm_compute. reflexivity.
  - right. vm_compute. reflexivity.
Defined.

(** ** [attention] *)

Section SamplingMore.
Import attention.

(** X13. For a single region of positive extent and a draw [u] in
    [0, 1), the axis sampling returns that region as the only match and
    the position [r[axis] + extent * u], which lies inside the
    region. *)
Theorem single_region_inside (u : Q) (r : Region) (axis : Axis) :
  (0 <= u)%Q -> (u < 1)%Q -> (0 < extent axis r)%Q ->
  exists pos : Q,
    get_random_axis_position u [r] axis = Return (pos, [r]) /\
    (pos == coord axis r + extent axis r * u)%Q /\
    (coord axis r <= pos)%Q /\ (pos < coord axis r + extent axis r)%Q.
Proof.
  intros Hu0 Hu1 He.
  destruct (single_region_position u r axis Hu0 Hu1 He) as (pos & Hpos & Heq).
  exists pos. split; [exact Hpos|]. split; [exact Heq|]. rewrite Heq. split; nra.
Qed.

(** X14. A single region of zero extent makes the axis sampling raise
    [ZeroDivisionError], whatever the draw: its segment is empty and is
    matched by the value [0]. *)
Theorem zero_extent_region_raises (u : Q) (r : Region) (axis : Axis) :
  (extent axis r == 0)%Q ->
  get_random_axis_position u [r] axis = Raise ZeroDivisionError.
Proof.
  intros He. unfold get_random_axis_position.
  cbn [sorted fold_right insert_by fold_left].
  unfold walk_step. cbn [prev_end length lengths].
  set (b := coord axis r) in *. set (e := extent axis r) in *.
  assert (H1 : Qltb b b = false) by (apply Qltb_ge; lra).
  rewrite H1.
  assert (H2 : Qltb 0 (b + e - b) = false) by (apply Qltb_ge; lra).
  unfold py_max at 2. rewrite H2. cbn [length lengths app combine select].
  unfold select_step. cbn [fst snd].
  assert (H3 : Qle_bool 0 (u * (0 + 0)) = true) by (apply Qle_bool_iff; nra).
  assert (H4 : Qle_bool (u * (0 + 0)) (0 + (b + e) - b) = true)
    by (apply Qle_bool_iff; nra).
  rewrite H3, H4. cbn [andb].
  change (Qeq_bool 0 0) with true. cbn iota.
  assert (H5 : Qeq_bool (0 + (b + e) - b - 0) 0 = true) by (apply Qeq_bool_iff; lra).
  by rewrite H5.
Qed.

Lemma regions_of_type_none (regions : list Region) (ty : string) :
  Forall (fun r => exists t, type r = Some t /\ t <> ty) regions ->
  regions_of_type regions ty = Return [].
Proof.
  induction 1 as [|r rs (t & Ht & Hne) _ IH]; [reflexivity|].
  cbn [regions_of_type]. rewrite Ht, IH.
  apply String.eqb_neq in Hne. by rewrite Hne.
Qed.

Lemma regions_of_type_missing (regions : list Region) (ty : string) :
  Exists (fun r => type r = None) regions ->
  regions_of_type regions ty = Raise (KeyError "type").
Proof.
  induction 1 as [r rs Hr|r rs _ IH]; cbn [regions_of_type].
  - by rewrite Hr.
  - rewrite IH. by destruct (type r).
Qed.

(** X15. When every region has a type and none has the requested one,
    [get_point_from_regions] returns the point that looks forward,
    [(1, 0, 0)], without a draw; when a region lacks its type, the call
    raises [KeyError], whether that region is of interest or not. *)
Theorem get_point_without_region (u1 u2 : Q) (regions : list Region) (ty : string) :
  (Forall (fun r => exists t, type r = Some t /\ t <> ty) regions ->
   get_point_from_regions u1 u2 regions ty = Return (mkPoint 1 0 0)) /\
  (Exists (fun r => type r = None) regions ->
   get_point_from_regions u1 u2 regions ty = Raise (KeyError "type")).
Proof.
  split; intros Hr; unfold get_point_from_regions.
  - by rewrite (regions_of_type_none regions ty Hr).
  - by rewrite (regions_of_type_missing regions ty Hr).
Qed.

(** X17. For a single region of the requested type with positive width and
    height, and two draws in [0, 1), the point has [x = 1], [y] the
    negated horizontal position [x + width * u1], and [z] the height
    [(y - height) + height * u2], between the region's base line moved down
    by its height and the base line. *)
Theorem get_point_single_region (u1 u2 : Q) (r : Region) (ty : string) :
  type r = Some ty -> (0 < width r)%Q -> (0 < height r)%Q ->
  (0 <= u1)%Q -> (u1 < 1)%Q -> (0 <= u2)%Q -> (u2 < 1)%Q ->
  exists p : Point,
    get_point_from_regions u1 u2 [r] ty = Return p /\
    (point_x p == 1)%Q /\
    (point_y p == - (x r + width r * u1))%Q /\
    (point_z p == (y r - height r) + height r * u2)%Q /\
    (y r - height r <= point_z p)%Q /\ (point_z p < y r)%Q.
Proof.
  intros Hty Hw Hh Ha0 Ha1 Hb0 Hb1. unfold get_point_from_regions.
  cbn [regions_of_type]. rewrite Hty, String.eqb_refl.
  set (r' := mkRegion (x r) (y r - height r) (width r) (height r) None).
  destruct (single_region_position u1 r' AxisX Ha0 Ha1 Hw) as (y1 & Hy & Hyeq).
  destruct (single_region_position u2 r' AxisY Hb0 Hb1 Hh) as (z1 & Hz & Hzeq).
  rewrite Hy, Hz. eexists. split; [reflexivity|]. cbn [point_x point_y point_z].
  cbn [coord extent x y width height r'] in Hyeq, Hzeq.
  split; [reflexivity|]. split; [by rewrite Hyeq|]. split; [exact Hzeq|].
  rewrite Hzeq. split; nra.
Qed.

End SamplingMore.

Lemma single_region_inside_witness :
  exists pos : Q,
    attention.get_random_axis_position (1 # 4) [sample_region] attention.AxisY
      = Return (pos, [sample_region]) /\
    (pos == 0 + 10 * (1 # 4))%Q /\ (0 <= pos)%Q /\ (pos < 0 + 10)%Q.
Proof.
  assert (H0 : (0 <= 1 # 4)%Q) by (vm_compute; discriminate).
  assert (H1 : (1 # 4 < 1)%Q) by reflexivity.
  assert (He : (0 < attention.extent attention.AxisY sample_region)%Q) by reflexivity.
  exact (single_region_inside (1 # 4) sample_region attention.AxisY H0 H1 He).
Defined.

Lemma zero_extent_region_raises_witness :
  attention.get_random_axis_position (1 # 2) [attention.mkRegion 3 0 0 10 None] attention.AxisX
    = Raise ZeroDivisionError.
Proof.
  apply (zero_extent_region_raises (1 # 2) (attention.mkRegion 3 0 0 10 None) attention.AxisX).
  reflexivity.
Defined.

Lemma get_point_without_region_witness :
  attention.get_point_from_regions (1 # 2) (1 # 2) [sample_region] "B"
    = Return (attention.mkPoint 1 0 0) /\
  attention.get_point_from_regions (1 # 2) (1 # 2) [sample_region; sample_region_moved] "B"
    = Raise (KeyError "type").
Proof.
  split.
  - apply (proj1 (get_point_without_region (1 # 2) (1 # 2) [sample_region] "B")).
    constructor; [|constructor]. exists "A". split; [reflexivity|discriminate].
  - apply (proj2 (get_point_without_region (1 # 2) (1 # 2)
                    [sample_region; sample_region_moved] "B")).
    apply Exists_cons_tl. apply Exists_cons_hd. reflexivity.
Defined.

Lemma get_point_single_region_witness :
  exists p : attention.Point,
    attention.get_point_from_regions (1 # 2) (1 # 4) [sample_region] "A" = Return p /\
    (attention.point_x p == 1)%Q /\
    (attention.point_y p == - (0 + 10 * (1 # 2)))%Q /\
    (attention.point_z p == (0 - 10) + 10 * (1 # 4))%Q /\
    (0 - 10 <= attention.point_z p)%Q /\ (attention.point_z p < 0)%Q.
Proof.
  assert (H0 : (0 <= 1 # 2)%Q) by (vm_compute; discriminate).
  assert (H1 : (1 # 2 < 1)%Q) by reflexivity.
  assert (H2 : (0 <= 1 # 4)%Q) by (vm_compute; discriminate).
  assert (H3 : (1 # 4 < 1)%Q) by reflexivity.
  exact (get_point_single_region (1 # 2) (1 # 4) sample_region "A" eq_refl
           eq_refl eq_refl H0 H1 H2 H3).
Defined.

(** ** [Node._magnitude] *)

Section Magnitude.
Context `{Builtins}.

(** X18. [_magnitude] returns a number as it is and, for a range
    [[lo, hi]] with [lo <= hi] and a draw in [0, 1), a value between the
    bounds; [None], a dictionary and a list of fewer than two items give
    [0.0]; and the only exception that leaves it is the [ValueError] of a
    string that is no number. *)
Theorem magnitude_spec (u : Q) :
  (forall q : Q, _magnitude u (VNum q) = Return q) /\
  (forall (lo hi : Q) (rest : list value),
     (0 <= u)%Q -> (u < 1)%Q -> (lo <= hi)%Q ->
     exists m : Q,
       _magnitude u (VList (VNum lo :: VNum hi :: rest)) = Return m /\
       (lo <= m)%Q /\ (m <= hi)%Q) /\
  _magnitude u VNone = Return 0%Q /\
  _magnitude u (VList []) = Return 0%Q /\
  (forall a : value, _magnitude u (VList [a]) = Return 0%Q) /\
  (forall l : list (string * value), _magnitude u (VDict l) = Return 0%Q) /\
  (forall (v : value) (e : exn),
     _magnitude u v = Raise e ->
     e = ValueError /\ exists s : string, v = VStr s /\ float_of_str s = None).
Proof.
  split; [reflexivity|]. split.
  { intros lo hi rest Hu0 Hu1 Hle. exists (lo + (hi - lo) * u)%Q.
    split; [reflexivity|]. split; nra. }
  split; [reflexivity|]. split; [reflexivity|]. split; [reflexivity|].
  split; [reflexivity|].
  intros v e. unfold _magnitude.
  destruct v as [|b|q|s|l|l]; cbn; try discriminate.
  - destruct (float_of_str s) eqn:Hs; [discriminate|].
    intros [= <-]. split; [reflexivity|]. by exists s.
  - destruct l as [|a [|b rest]]; try discriminate.
    destruct (py_float a); [|discriminate]. destruct (py_float b); discriminate.
Qed.

End Magnitude.

Lemma magnitude_spec_witness :
  exists m : Q,
    _magnitude (H:=sample_builtins) (1 # 2) (VList [VNum 1; VNum 3]) = Return m /\
    (1 <= m)%Q /\ (m <= 3)%Q.
Proof.
  assert (H0 : (0 <= 1 # 2)%Q) by (vm_compute; discriminate).
  assert (H1 : (1 # 2 < 1)%Q) by reflexivity.
  assert (H2 : (1 <= 3)%Q) by (vm_compute; discriminate).
  exact (proj1 (proj2 (magnitude_spec (H:=sample_builtins) (1 # 2))) 1%Q 3%Q [] H0 H1 H2).
Defined.

(** ** The scripted responder of [chat] *)

Lemma lower_char_not_upper (c : ascii) : Str.is_upper (Str.lower_char c) = false.
Proof. destruct c as [[] [] [] [] [] [] [] []]; reflexivity. Qed.

Lemma lower_no_upper (s : string) : has_upper (Str.lower s) = false.
Proof.
  induction s as [|c s IH]; [reflexivity|].
  cbn [Str.lower has_upper]. by rewrite lower_char_not_upper, IH.
Qed.

Lemma prefix_no_upper (p s : string) :
  String.prefix p s = true -> has_upper s = false -> has_upper p = false.
Proof.
  revert s. induction p as [|a p IH]; intros s; [reflexivity|].
  destruct s as [|b s]; cbn [String.prefix has_upper]; [discriminate|].
  destruct (Ascii.ascii_dec a b) as [->|]; [|discriminate].
  intros Hp Hs. apply orb_false_iff in Hs as [Hb Hs].
  by rewrite Hb, (IH s Hp Hs).
Qed.

Lemma contains_no_upper (p s : string) :
  has_upper s = false -> has_upper p = true -> Str.contains p s = false.
Proof.
  intros Hs Hp. unfold Str.contains.
  assert (Hfind : Str.find p s = None); [|by rewrite Hfind].
  induction s as [|c s IH].
  - change (Str.find p "") with (if String.prefix p "" then Some O else None).
    destruct (String.prefix p "") eqn:Hpre; [|reflexivity].
    pose proof (prefix_no_upper p "" Hpre eq_refl). congruence.
  - cbn [Str.find]. destruct (String.prefix p (String c s)) eqn:Hpre.
    + pose proof (prefix_no_upper p _ Hpre Hs). congruence.
    + cbn [has_upper] in Hs. apply orb_false_iff in Hs as [_ Hs].
      by rewrite (IH Hs).
Qed.

Section Responder.
Context `{Builtins}.

Lemma collect_no_upper_case (speech : string) (responses : list value) :
  Forall upper_case_entry responses ->
  collect_matches (Str.lower speech) responses = Return [].
Proof.
  induction 1 as [|r rs (pattern & out & -> & Hup) _ IH]; [reflexivity|].
  cbn. rewrite (contains_no_upper pattern (Str.lower speech) (lower_no_upper speech) Hup).
  exact IH.
Qed.

(** X19. The scripted responder lower-cases the speech and not the
    patterns: entries whose pattern holds an upper-case letter never
    match, whatever is said, and the response is the [no_match] text, or
    the empty text without one; the node and the world are left as they
    are. *)
Theorem upper_case_patterns_never_match (pick : nat) (speech : string)
    (n : Node chat_ext) (w : World) (responses : list value) :
  fields (data n) !! "responses" = Some (VList responses) ->
  Forall upper_case_entry responses ->
  match_response pick speech (n, w)
  = ((n, w), Return (default (VStr "") (fields (data n) !! "no_match"))).
Proof.
  intros Hr Hup. unfold match_response, cur_data, bind, get, ret, eval, getitem, has_key.
  cbn. rewrite Hr. rewrite (collect_no_upper_case speech responses Hup). cbn.
  by destruct (fields (data n) !! "no_match").
Qed.

End Responder.

Lemma upper_case_patterns_never_match_witness :
  let d := set_field "responses"
             (VList [VDict [("input", VStr "Hello"); ("output", VStr "Hi there")]])
             sample_chat_data in
  let n := set_data d sample_chat_node in
  match_response 0 "Hello robot" (n, sample_world)
  = ((n, sample_world), Return (VStr "")).
Proof.
  cbn zeta.
  assert (Hr : fields (data (set_data
                 (set_field "responses"
                    (VList [VDict [("input", VStr "Hello"); ("output", VStr "Hi there")]])
                    sample_chat_data) sample_chat_node)) !! "responses"
               = Some (VList [VDict [("input", VStr "Hello"); ("output", VStr "Hi there")]]))
    by (vm_compute; reflexivity).
  assert (Hup : Forall upper_case_entry
                  [VDict [("input", VStr "Hello"); ("output", VStr "Hi there")]]).
  { constructor; [|constructor]. exists "Hello", (VStr "Hi there"). split; reflexivity. }
  rewrite (upper_case_patterns_never_match 0 "Hello robot" _ sample_world _ Hr Hup).
  vm_compute. reflexivity.
Defined.

(** The same entry in lower case does answer. *)
Example lower_case_pattern_matches :
  let d := set_field "responses"
             (VList [VDict [("input", VStr "hello"); ("output", VStr "Hi there")]])
             sample_chat_data in
  snd (match_response 0 "Hello robot"
         (set_data d sample_chat_node, sample_world))
  = Return (VStr "Hi there").
Proof. vm_compute. reflexivity. Qed.

(** ** [speech.__init__] and [settings.set_variables] *)

Lemma setdefault_same (k : string) (v : value) (d : NodeData) :
  fields (setdefault k v d) !! k = Some (default v (fields d !! k)).
Proof.
  unfold setdefault, has_key. destruct (fields d !! k) as [x|] eqn:Hk; cbn.
  - exact Hk.
  - apply lookup_insert_eq.
Qed.

Lemma setdefault_other (k k' : string) (v : value) (d : NodeData) :
  k <> k' -> fields (setdefault k v d) !! k' = fields d !! k'.
Proof.
  intros Hne. unfold setdefault, has_key. destruct (fields d !! k); cbn; [reflexivity|].
  by apply lookup_insert_ne.
Qed.

Lemma setdefault_keeps (k k' : string) (v x : value) (d : NodeData) :
  fields d !! k' = Some x -> fields (setdefault k v d) !! k' = Some x.
Proof.
  intros Hk. destruct (decide (k = k')) as [->|Hne].
  - by rewrite setdefault_same, Hk.
  - by rewrite setdefault_other.
Qed.

Section Speech.
Context `{Builtins}.

Lemma Node_init_data {E : Type} (d : NodeData) (e : E) (n : Node E) :
  Node_init d e = Return n -> data n = d.
Proof.
  unfold Node_init. destruct (getitem d "duration") as [v|]; [|discriminate].
  destruct (py_float v); [|discriminate]. by intros [= <-].
Qed.

Lemma long_lang_not_short (lang : value) :
  is_str lang "en" || is_str lang "zh" = true ->
  is_str (long_lang lang) "en" = false /\ is_str (long_lang lang) "zh" = false.
Proof.
  unfold long_lang. destruct (is_str lang "en"); [by split|].
  destruct (is_str lang "zh"); [by split|discriminate].
Qed.

(** X20. A [speech] node is built with [pitch], [speed] and [volume]
    present, the values of the description being kept, and with a language
    that is neither ['en'] nor ['zh']: these two are replaced by ['en-US']
    and ['cmn-Hans-CN']; every other key is as the description has it.  A
    description without [lang] makes the constructor raise [KeyError]. *)
Theorem speech_init_lang (d : NodeData) :
  (forall n : Node unit,
     speech_init d = Return n ->
     (exists lang : value,
        fields (data n) !! "lang" = Some lang /\
        is_str lang "en" = false /\ is_str lang "zh" = false) /\
     fields (data n) !! "pitch" = Some (default (VNum 1) (fields d !! "pitch")) /\
     fields (data n) !! "speed" = Some (default (VNum 1) (fields d !! "speed")) /\
     fields (data n) !! "volume" = Some (default (VNum 1) (fields d !! "volume")) /\
     (fields d !! "lang" = Some (VStr "en") ->
      fields (data n) !! "lang" = Some (VStr "en-US")) /\
     (fields d !! "lang" = Some (VStr "zh") ->
      fields (data n) !! "lang" = Some (VStr "cmn-Hans-CN")) /\
     (forall (k : string) (v : value),
        k <> "lang" -> fields d !! k = Some v -> fields (data n) !! k = Some v)) /\
  (forall n0 : Node unit,
     Node_init d tt = Return n0 -> fields d !! "lang" = None ->
     speech_init d = Raise (KeyError "lang")).
Proof.
  set (d1 := setdefault "volume" (VNum 1)
               (setdefault "speed" (VNum 1) (setdefault "pitch" (VNum 1) d))).
  assert (Hlang : fields d1 !! "lang" = fields d !! "lang").
  { unfold d1. by rewrite !setdefault_other. }
  assert (Hpitch : fields d1 !! "pitch" = Some (default (VNum 1) (fields d !! "pitch"))).
  { unfold d1. rewrite !(setdefault_other _ "pitch") by discriminate.
    apply setdefault_same. }
  assert (Hspeed : fields d1 !! "speed" = Some (default (VNum 1) (fields d !! "speed"))).
  { unfold d1. rewrite (setdefault_other _ "speed") by discriminate.
    rewrite setdefault_same. by rewrite setdefault_other. }
  assert (Hvolume : fields d1 !! "volume" = Some (default (VNum 1) (fields d !! "volume"))).
  { unfold d1. rewrite setdefault_same. by rewrite !setdefault_other. }
  assert (Hkeep : forall k v, fields d !! k = Some v -> fields d1 !! k = Some v).
  { intros k v Hk. unfold d1. by do 3 apply setdefault_keeps. }
  split.
  - intros n. unfold speech_init.
    destruct (Node_init d tt) as [n0|] eqn:Hinit; [|discriminate].
    rewrite (Node_init_data d tt n0 Hinit). fold d1. unfold getitem. rewrite Hlang.
    destruct (fields d !! "lang") as [lang|] eqn:Hl; [|discriminate].
    destruct (is_str lang "en" || is_str lang "zh") eqn:Hshort; intros [= <-];
      cbn [data set_data set_field fields].
    + destruct (long_lang_not_short lang Hshort) as [Hen Hzh].
      split; [exists (long_lang lang); by rewrite lookup_insert_eq|].
      rewrite !lookup_insert_ne by discriminate.
      split; [exact Hpitch|]. split; [exact Hspeed|]. split; [exact Hvolume|].
      split; [intros [= ->]; by rewrite lookup_insert_eq|].
      split; [intros [= ->]; by rewrite lookup_insert_eq|].
      intros k v Hne Hk. rewrite lookup_insert_ne by congruence. by apply Hkeep.
    + apply orb_false_iff in Hshort as [Hen Hzh].
      split; [exists lang; by rewrite Hlang|].
      split; [exact Hpitch|]. split; [exact Hspeed|]. split; [exact Hvolume|].
      split; [intros [= ->]; discriminate|]. split; [intros [= ->]; discriminate|].
      intros k v _ Hk. by apply Hkeep.
  - intros n0 Hinit Hl. unfold speech_init. rewrite Hinit.
    rewrite (Node_init_data d tt n0 Hinit). fold d1. unfold getitem.
    by rewrite Hlang, Hl.
Qed.

End Speech.

Lemma speech_init_lang_witness :
  let d := set_field "lang" (VStr "en") (set_field "text" (VStr "hi") sample_soma_data) in
  exists n : Node unit,
    speech_init (H:=sample_builtins) d = Return n /\
    fields (data n) !! "lang" = Some (VStr "en-US") /\
    fields (data n) !! "text" = Some (VStr "hi").
Proof.
  cbn zeta.
  destruct (speech_init (H:=sample_builtins)
              (set_field "lang" (VStr "en") (set_field "text" (VStr "hi") sample_soma_data)))
    as [n|e] eqn:Hinit; [|vm_compute in Hinit; discriminate].
  exists n. split; [reflexivity|].
  destruct (speech_init_lang (H:=sample_builtins)
              (set_field "lang" (VStr "en") (set_field "text" (VStr "hi") sample_soma_data)))
    as [Hok _].
  destruct (Hok n Hinit) as (_ & _ & _ & _ & Hen & _ & Hkeep).
  split.
  - apply Hen. vm_compute. reflexivity.
  - apply Hkeep; [discriminate|]. vm_compute. reflexivity.
Defined.

(** X21. [set_variables] keeps the keys of the dictionary, substitutes
    the variables in its string values and leaves every other value as it
    is; a dictionary whose strings hold no closing brace comes back
    unchanged. *)
Theorem set_variables_spec {E : Type} (self : Node E) (w : World)
    (params : gmap string value) :
  dom (set_variables self w params) = dom params /\
  (forall (k s : string),
     params !! k = Some (VStr s) ->
     set_variables self w params !! k = Some (VStr (replace_variables_text self w s))) /\
  (forall (k : string) (v : value),
     params !! k = Some v -> (forall s, v <> VStr s) ->
     set_variables self w params !! k = Some v) /\
  ((forall (k s : string), params !! k = Some (VStr s) -> Str.has_char "}" s = false) ->
   set_variables self w params = params).
Proof.
  unfold set_variables. split; [apply dom_fmap_L|]. split; [|split].
  - intros k s Hk. by rewrite lookup_fmap, Hk.
  - intros k v Hk Hns. rewrite lookup_fmap, Hk. cbn.
    destruct v; try reflexivity. by destruct (Hns s).
  - intros Hplain. apply map_eq. intros k. rewrite lookup_fmap.
    destruct (params !! k) as [v|] eqn:Hk; [|reflexivity]. cbn. f_equal.
    destruct v; try reflexivity.
    unfold replace_variables_text, Re.findall.
    by rewrite (findall_without_close s O (Hplain k s Hk)).
Qed.

Lemma set_variables_spec_witness :
  set_variables sample_chat_node sample_world
    (<["greeting" := VStr "hello {name}"]> (<["rate" := VNum 2]> ∅))
  !! "greeting" = Some (VStr "hello bot") /\
  set_variables sample_chat_node sample_world
    (<["greeting" := VStr "hello {name}"]> (<["rate" := VNum 2]> ∅))
  !! "rate" = Some (VNum 2).
Proof.
  destruct (set_variables_spec sample_chat_node sample_world
              (<["greeting" := VStr "hello {name}"]> (<["rate" := VNum 2]> ∅)))
    as (_ & Hstr & Hother & _).
  split.
  - rewrite (Hstr "greeting" "hello {name}" ltac:(vm_compute; reflexivity)).
    vm_compute. reflexivity.
  - apply Hother; [vm_compute; reflexivity|discriminate].
Defined.
